(** * PLNexus: tracer, adapter factory, market quote and bootstrap

    A shallow embedding of the JavaScript sources of the PLNexus market
    discovery tool:

    - [shared/Tracer.js]                          (module [TracerJs])
    - [infrastructure/config/EnvironmentService.js]
    - [infrastructure/factories/AdapterFactory.js] (module [AdapterFactoryJs])
    - [domain/entities/MarketQuote.js]            (module [MarketQuoteJs])
    - [infrastructure/adapters/cli/MenuSystem.js] and [main.js]

    JavaScript values are a first-order datatype, the process state
    (singletons, environment, file system, clock, random source, terminal)
    is one record threaded through a state-and-exception monad. *)

From Stdlib Require Import ZArith Ascii String List Bool Lia.
From stdpp Require Import base strings gmap list pretty.

Local Open Scope Z_scope.

(** ** Strings *)

Definition chr (n : nat) : ascii := ascii_of_nat n.

(** One-character strings that cannot be written as literals. *)
Definition dquote : string := String (chr 34) EmptyString.
Definition backslash : string := String (chr 92) EmptyString.
Definition newline : string := String (chr 10) EmptyString.

(** [String.prototype.toUpperCase] and [toLowerCase] on the ASCII letters;
    every other byte is left alone. *)
Definition upper_char (c : ascii) : ascii :=
  let n := nat_of_ascii c in
  if ((97 <=? n) && (n <=? 122))%nat then ascii_of_nat (n - 32) else c.

Definition lower_char (c : ascii) : ascii :=
  let n := nat_of_ascii c in
  if ((65 <=? n) && (n <=? 90))%nat then ascii_of_nat (n + 32) else c.

Fixpoint map_string (f : ascii -> ascii) (s : string) : string :=
  match s with
  | EmptyString => EmptyString
  | String c r => String (f c) (map_string f r)
  end.

Definition toUpperCase : string -> string := map_string upper_char.
Definition toLowerCase : string -> string := map_string lower_char.

(** [s.substring(a, b)] for [a <= b]. *)
Definition js_substring (a b : nat) (s : string) : string :=
  String.substring a (b - a) s.

(** [s.startsWith(p)]. *)
Definition startsWith (p s : string) : bool := String.prefix p s.

(** [s.includes(p)], as a proposition-free search. *)
Fixpoint includes (p s : string) : bool :=
  String.prefix p s ||
  match s with
  | EmptyString => false
  | String _ r => includes p r
  end.

(** White space removed by [String.prototype.trim] (ASCII part). *)
Definition is_space (c : ascii) : bool :=
  let n := nat_of_ascii c in
  ((n =? 32) || ((9 <=? n) && (n <=? 13)))%nat.

Fixpoint trim_start (s : string) : string :=
  match s with
  | String c r => if is_space c then trim_start r else s
  | EmptyString => EmptyString
  end.

Fixpoint trim_end (s : string) : string :=
  match s with
  | EmptyString => EmptyString
  | String c r =>
      match trim_end r with
      | EmptyString => if is_space c then EmptyString else String c EmptyString
      | r' => String c r'
      end
  end.

Definition trim (s : string) : string := trim_end (trim_start s).

(** [s.replace(/^-+/, '')]. *)
Fixpoint strip_dashes (s : string) : string :=
  match s with
  | String c r => if Ascii.eqb c (chr 45) then strip_dashes r else s
  | EmptyString => EmptyString
  end.

(** [Array.prototype.join]. *)
Definition join (sep : string) (xs : list string) : string :=
  String.concat sep xs.

(** ** JavaScript values

    Finite numbers are the integers (every number the modelled code
    computes or tests is one); [VNaN] is the not-a-number.  [VFun src] is
    a function or class, named by its source text (what [String] yields
    for it); [VProto] is the object [Object.prototype]. *)

#[local] Set Warnings "-register-all".

Inductive value : Type :=
| VUndefined
| VNull
| VBool (b : bool)
| VNum (n : Z)
| VNaN
| VStr (s : string)
| VArr (xs : list value)
| VObj (props : list (string * value))
| VFun (src : string)
| VProto.

Definition truthy (v : value) : bool :=
  match v with
  | VUndefined | VNull | VNaN => false
  | VBool b => b
  | VNum n => negb (n =? 0)
  | VStr s => negb (String.eqb s EmptyString)
  | VArr _ | VObj _ | VFun _ | VProto => true
  end.

(** [a || b]. *)
Definition js_or (a b : value) : value := if truthy a then a else b.

Definition typeof (v : value) : string :=
  match v with
  | VUndefined => "undefined"
  | VNull | VArr _ | VObj _ | VProto => "object"
  | VBool _ => "boolean"
  | VNum _ | VNaN => "number"
  | VStr _ => "string"
  | VFun _ => "function"
  end.

(** [String(v)] and template interpolation.  Arrays join their elements,
    plain objects print as [[object Object]] (data objects do not redefine
    [toString]). *)
Fixpoint to_string (v : value) : string :=
  match v with
  | VUndefined => "undefined"
  | VNull => "null"
  | VBool b => if b then "true" else "false"
  | VNum n => pretty n
  | VNaN => "NaN"
  | VStr s => s
  | VArr xs =>
      join ","
        (map (fun x => match x with
                       | VUndefined | VNull => EmptyString
                       | _ => to_string x
                       end) xs)
  | VObj _ | VProto => "[object Object]"
  | VFun src => src
  end.

(** The members every ordinary object inherits from [Object.prototype]:
    eleven native functions and the [__proto__] accessor, which yields
    [Object.prototype] itself. *)
Definition native_function (name : string) : value :=
  VFun ("function " +:+ name +:+ "() { [native code] }").

Definition Object_prototype_functions : list string :=
  [ "constructor"; "__defineGetter__"; "__defineSetter__"; "hasOwnProperty";
    "__lookupGetter__"; "__lookupSetter__"; "isPrototypeOf";
    "propertyIsEnumerable"; "toString"; "valueOf"; "toLocaleString" ].

Definition inherited (k : string) : option value :=
  if String.eqb k "__proto__" then Some VProto
  else if existsb (String.eqb k) Object_prototype_functions then
    Some (native_function (if String.eqb k "constructor" then "Object" else k))
  else None.

Fixpoint own (ps : list (string * value)) (k : string) : option value :=
  match ps with
  | [] => None
  | (k', v) :: r => if String.eqb k' k then Some v else own r k
  end.

(** [{...ps, k: v}]: an existing key keeps its place and takes the new
    value, a new key goes last. *)
Fixpoint obj_set (ps : list (string * value)) (k : string) (v : value)
  : list (string * value) :=
  match ps with
  | [] => [(k, v)]
  | (k', v') :: r =>
      if String.eqb k' k then (k, v) :: r else (k', v') :: obj_set r k v
  end.

(** A parameter declared [data = {}]: [undefined] becomes the empty
    object, every other argument is taken as it is. *)
Definition default_object (v : value) : value :=
  match v with
  | VUndefined => VObj []
  | _ => v
  end.

(** [{...v}]: the own enumerable properties of [v]; a non-object spreads to
    nothing (strings and arrays, which spread their indices, are not used
    as metadata here). *)
Definition spread (v : value) : list (string * value) :=
  match v with
  | VObj ps => ps
  | _ => []
  end.

(** *** Property order

    Own keys enumerate with the array indices first, in ascending numeric
    order, then the other keys in insertion order
    ([OrdinaryOwnPropertyKeys]); [Object.keys] and [JSON.stringify] both
    follow it. *)

Definition is_digit (c : ascii) : bool :=
  let n := nat_of_ascii c in ((48 <=? n) && (n <=? 57))%nat.

Fixpoint digits_value (acc : N) (s : string) : option N :=
  match s with
  | EmptyString => Some acc
  | String c r =>
      if is_digit c
      then digits_value (acc * 10 + N.of_nat (nat_of_ascii c - 48))%N r
      else None
  end.

(** A canonical numeric string below [2^32 - 1]. *)
Definition array_index (k : string) : option N :=
  match k with
  | EmptyString => None
  | String c r =>
      if Ascii.eqb c (chr 48) && negb (String.eqb r EmptyString) then None
      else match digits_value 0%N k with
           | Some n => if (n <? 4294967295)%N then Some n else None
           | None => None
           end
  end.

Fixpoint insert_index {A} (n : N) (k : string) (a : A)
    (l : list (N * (string * A))) : list (N * (string * A)) :=
  match l with
  | [] => [(n, (k, a))]
  | (m, e) :: r =>
      if (n <? m)%N then (n, (k, a)) :: l else (m, e) :: insert_index n k a r
  end.

Fixpoint index_props {A} (ps : list (string * A)) : list (N * (string * A)) :=
  match ps with
  | [] => []
  | (k, a) :: r =>
      match array_index k with
      | Some n => insert_index n k a (index_props r)
      | None => index_props r
      end
  end.

Definition named_props {A} (ps : list (string * A)) : list (string * A) :=
  List.filter (fun p => match array_index p.1 with
                        | None => true
                        | Some _ => false
                        end) ps.

Definition own_order {A} (ps : list (string * A)) : list (string * A) :=
  map snd (index_props ps) ++ named_props ps.

(** [Object.keys(v)] for the values that reach it. *)
Definition Object_keys (v : value) : list string :=
  match v with
  | VObj ps => map fst (own_order ps)
  | VArr xs => map (fun i => pretty (N.of_nat i)) (seq 0 (length xs))
  | VStr s => map (fun i => pretty (N.of_nat i)) (seq 0 (String.length s))
  | _ => []
  end.

(** *** JSON.stringify *)

Definition hex_char (n : nat) : ascii :=
  if (n <? 10)%nat then ascii_of_nat (48 + n) else ascii_of_nat (87 + n).

(** [QuoteJSONString] on one byte: the quote, the backslash and the
    control characters are escaped. *)
Definition quote_char (c : ascii) : string :=
  let n := nat_of_ascii c in
  if (n =? 34)%nat then backslash +:+ dquote
  else if (n =? 92)%nat then backslash +:+ backslash
  else if (n =? 8)%nat then backslash +:+ "b"
  else if (n =? 9)%nat then backslash +:+ "t"
  else if (n =? 10)%nat then backslash +:+ "n"
  else if (n =? 12)%nat then backslash +:+ "f"
  else if (n =? 13)%nat then backslash +:+ "r"
  else if (n <? 32)%nat then
    backslash +:+ "u00" +:+
    String (hex_char (n / 16)) (String (hex_char (n mod 16)) EmptyString)
  else String c EmptyString.

Fixpoint quote_body (s : string) : string :=
  match s with
  | EmptyString => EmptyString
  | String c r => quote_char c +:+ quote_body r
  end.

Definition quote (s : string) : string := dquote +:+ quote_body s +:+ dquote.

(** One [key:value] member; a property whose value does not serialize
    ([undefined], a function) is left out. *)
Definition json_member (p : string * option string) : option string :=
  match p.2 with
  | Some j => Some (quote p.1 +:+ ":" +:+ j)
  | None => None
  end.

Definition json_object (ps : list (string * option string)) : string :=
  "{" +:+ join "," (omap json_member (own_order ps)) +:+ "}".

Definition json_array (xs : list (option string)) : string :=
  "[" +:+ join "," (map (default "null") xs) +:+ "]".

(** [JSON.stringify(v)]; [None] is JavaScript's [undefined] result.  The
    values are trees, so the cyclic-structure failure cannot occur. *)
Fixpoint stringify (v : value) : option string :=
  match v with
  | VUndefined => None
  | VNull | VNaN => Some "null"
  | VBool b => Some (if b then "true" else "false")
  | VNum n => Some (pretty n)
  | VStr s => Some (quote s)
  | VArr xs => Some (json_array (map stringify xs))
  | VObj ps =>
      Some (json_object
              ((fix members (l : list (string * value)) :=
                  match l with
                  | [] => []
                  | (k, x) :: r => (k, stringify x) :: members r
                  end) ps))
  | VFun _ => None
  | VProto => Some "{}"
  end.

(** [JSON.stringify(v) + sep]. *)
Definition stringify_plus (v : value) (sep : string) : string :=
  match stringify v with
  | Some j => j +:+ sep
  | None => "undefined" +:+ sep
  end.

(** ** The process

    Failures are [Error] objects: a message and, for file-system errors,
    a code. *)

Record error : Type := { message : string; code : option string }.

Definition new_Error (msg : string) : error :=
  {| message := msg; code := None |}.

(** What a computation comes to: a value, a thrown error, or the end of
    the process by [process.exit]. *)
Inductive outcome (A : Type) : Type :=
| Ret (a : A)
| Throw (e : error)
| Exit (status : Z).

Arguments Ret {A} a.
Arguments Throw {A} e.
Arguments Exit {A} status.

(** The fields of the [Tracer] singleton. *)
Record Tracer : Type := {
  projectRoot : option string;
  traceFile : option string;
  isInitialized : bool;
  sessionID : option string
}.

(** [new Tracer()]. *)
Definition new_Tracer : Tracer :=
  {| projectRoot := None; traceFile := None;
     isInitialized := false; sessionID := None |}.

Record World : Type := {
  tracer : Tracer;                    (* the exported [tracer] *)
  enableTracing : bool;               (* [EnvironmentService.#config] *)
  env : gmap string string;           (* [process.env] *)
  argv : list string;                 (* [process.argv.slice(2)] *)
  files : gmap string string;         (* file contents by path *)
  dirs : gset string;                 (* directories made so far *)
  fs_fault : string -> option error;  (* the error an access to a path meets *)
  clock : nat -> Z;                   (* successive readings of the clock *)
  ticks : nat;
  entropy : nat -> string;            (* [Math.random().toString(36)] *)
  draws : nat;
  journal : list (string * string);   (* calls on the winston logger *)
  stdin : list string;                (* lines the operator will type *)
  stdout : list string                (* [console.log] and readline output *)
}.

Definition with_tracer (t : Tracer) (w : World) : World :=
  {| tracer := t; enableTracing := enableTracing w; env := env w;
     argv := argv w; files := files w; dirs := dirs w;
     fs_fault := fs_fault w; clock := clock w; ticks := ticks w;
     entropy := entropy w; draws := draws w; journal := journal w;
     stdin := stdin w; stdout := stdout w |}.

Definition with_enableTracing (b : bool) (w : World) : World :=
  {| tracer := tracer w; enableTracing := b; env := env w;
     argv := argv w; files := files w; dirs := dirs w;
     fs_fault := fs_fault w; clock := clock w; ticks := ticks w;
     entropy := entropy w; draws := draws w; journal := journal w;
     stdin := stdin w; stdout := stdout w |}.

Definition with_env (e : gmap string string) (w : World) : World :=
  {| tracer := tracer w; enableTracing := enableTracing w; env := e;
     argv := argv w; files := files w; dirs := dirs w;
     fs_fault := fs_fault w; clock := clock w; ticks := ticks w;
     entropy := entropy w; draws := draws w; journal := journal w;
     stdin := stdin w; stdout := stdout w |}.

Definition with_files (f : gmap string string) (w : World) : World :=
  {| tracer := tracer w; enableTracing := enableTracing w; env := env w;
     argv := argv w; files := f; dirs := dirs w;
     fs_fault := fs_fault w; clock := clock w; ticks := ticks w;
     entropy := entropy w; draws := draws w; journal := journal w;
     stdin := stdin w; stdout := stdout w |}.

Definition with_dirs (d : gset string) (w : World) : World :=
  {| tracer := tracer w; enableTracing := enableTracing w; env := env w;
     argv := argv w; files := files w; dirs := d;
     fs_fault := fs_fault w; clock := clock w; ticks := ticks w;
     entropy := entropy w; draws := draws w; journal := journal w;
     stdin := stdin w; stdout := stdout w |}.

Definition with_ticks (n : nat) (w : World) : World :=
  {| tracer := tracer w; enableTracing := enableTracing w; env := env w;
     argv := argv w; files := files w; dirs := dirs w;
     fs_fault := fs_fault w; clock := clock w; ticks := n;
     entropy := entropy w; draws := draws w; journal := journal w;
     stdin := stdin w; stdout := stdout w |}.

Definition with_draws (n : nat) (w : World) : World :=
  {| tracer := tracer w; enableTracing := enableTracing w; env := env w;
     argv := argv w; files := files w; dirs := dirs w;
     fs_fault := fs_fault w; clock := clock w; ticks := ticks w;
     entropy := entropy w; draws := n; journal := journal w;
     stdin := stdin w; stdout := stdout w |}.

Definition with_journal (j : list (string * string)) (w : World) : World :=
  {| tracer := tracer w; enableTracing := enableTracing w; env := env w;
     argv := argv w; files := files w; dirs := dirs w;
     fs_fault := fs_fault w; clock := clock w; ticks := ticks w;
     entropy := entropy w; draws := draws w; journal := j;
     stdin := stdin w; stdout := stdout w |}.

Definition with_stdin (l : list string) (w : World) : World :=
  {| tracer := tracer w; enableTracing := enableTracing w; env := env w;
     argv := argv w; files := files w; dirs := dirs w;
     fs_fault := fs_fault w; clock := clock w; ticks := ticks w;
     entropy := entropy w; draws := draws w; journal := journal w;
     stdin := l; stdout := stdout w |}.

Definition with_stdout (l : list string) (w : World) : World :=
  {| tracer := tracer w; enableTracing := enableTracing w; env := env w;
     argv := argv w; files := files w; dirs := dirs w;
     fs_fault := fs_fault w; clock := clock w; ticks := ticks w;
     entropy := entropy w; draws := draws w; journal := journal w;
     stdin := stdin w; stdout := l |}.

(** One more reading of the clock taken. *)
Definition ticked (w : World) : World := with_ticks (S (ticks w)) w.

(** [data] appended to the file at [path], which is created if absent. *)
Definition written (path data : string) (w : World) : World :=
  with_files (<[ path := default EmptyString (files w !! path) +:+ data ]>
                (files w)) w.

(** *** The monad of effects *)

Definition M (A : Type) : Type := World -> outcome A * World.

Definition ret {A} (a : A) : M A := fun w => (Ret a, w).

Definition bind {A B} (m : M A) (k : A -> M B) : M B := fun w =>
  match m w with
  | (Ret a, w') => k a w'
  | (Throw e, w') => (Throw e, w')
  | (Exit c, w') => (Exit c, w')
  end.

Definition throw {A} (e : error) : M A := fun w => (Throw e, w).

(** [process.exit(c)]: nothing after it runs, handlers included. *)
Definition process_exit {A} (c : Z) : M A := fun w => (Exit c, w).

(** [try { m } catch (e) { h e }]. *)
Definition try_catch {A} (m : M A) (h : error -> M A) : M A := fun w =>
  match m w with
  | (Throw e, w') => h e w'
  | r => r
  end.

(** [try { m } finally { f }]. *)
Definition try_finally {A} (m : M A) (f : M unit) : M A := fun w =>
  match m w with
  | (Ret a, w') => bind f (fun _ => ret a) w'
  | (Throw e, w') => bind f (fun _ => throw e) w'
  | (Exit c, w') => (Exit c, w')
  end.

Definition gets {A} (f : World -> A) : M A := fun w => (Ret (f w), w).
Definition modify (f : World -> World) : M unit := fun w => (Ret tt, f w).

Definition lift {A} (r : outcome A) : M A := fun w => (r, w).

Notation "'do' x <- m ; k" := (bind m (fun x => k))
  (at level 10, x name, m at level 100, k at level 200,
   format "'[v' 'do'  x  <-  m ; '/' k ']'").
Notation "m ;; k" := (bind m (fun _ => k))
  (at level 100, k at level 200, right associativity).

(** *** Node built-ins that act on the process *)

(** [Date.now()] and [new Date()]: the next reading of the clock. *)
Definition Date_now : M Z := fun w => (Ret (clock w (ticks w)), ticked w).

(** [Math.random().toString(36)]. *)
Definition Math_random_base36 : M string := fun w =>
  (Ret (entropy w (draws w)), with_draws (S (draws w)) w).

(** [process.env.NAME]. *)
Definition getenv (name : string) : M (option string) :=
  gets (fun w => env w !! name).

(** [logger.error], [logger.info], [logger.debug]; the metadata argument
    is not kept.  The journal is what the logger was handed, level and
    message.  What winston's transports make of an entry (a line on the
    console, lines in the rotated files under [logs/]) is winston's and is
    no part of [stdout] or [files]: these hold what the program itself
    prints with [console.log] and writes with [appendFile]. *)
Definition logger (level msg : string) : M unit :=
  modify (fun w => with_journal (journal w ++ [(level, msg)]) w).

(** [console.log]. *)
Definition console_log (line : string) : M unit :=
  modify (fun w => with_stdout (stdout w ++ [line]) w).

(** [mkdir(path, { recursive: true })]. *)
Definition mkdir (path : string) : M unit := fun w =>
  match fs_fault w path with
  | Some e => (Throw e, w)
  | None => (Ret tt, with_dirs ({[ path ]} ∪ dirs w) w)
  end.

(** [appendFile(path, data, 'utf8')]; a [null] path is a [TypeError]. *)
Definition appendFile (path : option string) (data : string) : M unit :=
  fun w =>
  match path with
  | None =>
      (Throw (new_Error
         "The path argument must be of type string. Received null"), w)
  | Some p =>
      match fs_fault w p with
      | Some e => (Throw e, w)
      | None => (Ret tt, written p data w)
      end
  end.

(** [readFile(path, 'utf-8')]. *)
Definition readFile (path : string) : M string := fun w =>
  match fs_fault w path with
  | Some e => (Throw e, w)
  | None =>
      match files w !! path with
      | Some c => (Ret c, w)
      | None =>
          (Throw {| message := "ENOENT: no such file or directory, open '"
                               +:+ path +:+ "'";
                    code := Some "ENOENT" |}, w)
      end
  end.

(** [rl.question(prompt)]: the prompt goes to the terminal and the next
    line typed is the answer; on a closed input the question fails. *)
Definition question (prompt : string) : M string := fun w =>
  let w1 := with_stdout (stdout w ++ [prompt]) w in
  match stdin w with
  | answer :: rest => (Ret answer, with_stdin rest w1)
  | [] => (Throw (new_Error "readline was closed"), w1)
  end.

(** What Node provides and the sources only call: library functions
    without effect on the process, and where the program is installed. *)
Class Platform : Type := {
  PROJECT_ROOT : string;                      (* directory of [main.js] *)
  path_join : list string -> string;          (* [path.join] *)
  toLocaleDateString_enCA : Z -> string;      (* local date, YYYY-MM-DD *)
  toISOString : Z -> string;
  process_version : string;
  JSON_parse : string -> error + value;
  dotenv_parse : string -> list (string * string);
  import_module : string -> error + list (string * value);
  construct : value -> list value -> error + value   (* [new C(...args)] *)
}.

(** ** Reading properties and comparing *)

(** [v[k]]: own properties first, then what [Object.prototype] provides.
    Reading from [undefined] or [null] is a [TypeError].  Of the wrapper
    prototypes of strings, arrays and functions only the indices and
    [length] are modelled. *)
Definition member (v : value) (k : string) : outcome value :=
  let fallback := default VUndefined (inherited k) in
  match v with
  | VUndefined | VNull =>
      Throw (new_Error ("Cannot read properties of " +:+ to_string v +:+
                        " (reading '" +:+ k +:+ "')"))
  | VObj ps => Ret (default fallback (own ps k))
  | VArr xs =>
      if String.eqb k "length" then Ret (VNum (Z.of_nat (length xs)))
      else match array_index k with
           | Some i => Ret (default VUndefined (xs !! N.to_nat i))
           | None => Ret fallback
           end
  | VStr s =>
      if String.eqb k "length" then Ret (VNum (Z.of_nat (String.length s)))
      else match array_index k with
           | Some i =>
               Ret (match String.get (N.to_nat i) s with
                    | Some c => VStr (String c EmptyString)
                    | None => VUndefined
                    end)
           | None => Ret fallback
           end
  | VProto => Ret (if String.eqb k "__proto__" then VNull else fallback)
  | VBool _ | VNum _ | VNaN | VFun _ => Ret fallback
  end.

(** [ToPrimitive] with the default conversions. *)
Definition to_primitive (v : value) : value :=
  match v with
  | VArr _ | VObj _ | VFun _ | VProto => VStr (to_string v)
  | _ => v
  end.

(** [StringToNumber] on the integer literals; [None] is [NaN].  Literals
    with a fraction, an exponent or a radix prefix are outside the integer
    model of numbers and read as [NaN]. *)
Definition string_to_number (s : string) : option Z :=
  match trim s with
  | EmptyString => Some 0
  | String c r =>
      if Ascii.eqb c (chr 45) then
        match r with
        | EmptyString => None
        | _ => (fun n => - Z.of_N n) <$> digits_value 0%N r
        end
      else if Ascii.eqb c (chr 43) then
        match r with
        | EmptyString => None
        | _ => Z.of_N <$> digits_value 0%N r
        end
      else Z.of_N <$> digits_value 0%N (String c r)
  end.

Definition to_number (v : value) : option Z :=
  match v with
  | VUndefined | VNaN => None
  | VNull => Some 0
  | VBool b => Some (if b then 1 else 0)
  | VNum n => Some n
  | VStr s => string_to_number s
  | VArr _ | VObj _ | VFun _ | VProto => string_to_number (to_string v)
  end.

(** [a > b]: two strings compare by code units, anything else as numbers,
    and a comparison with [NaN] is [false]. *)
Definition js_gt (a b : value) : bool :=
  match to_primitive a, to_primitive b with
  | VStr x, VStr y => String.ltb y x
  | pa, pb =>
      match to_number pa, to_number pb with
      | Some x, Some y => y <? x
      | _, _ => false
      end
  end.

(** [a < b]. *)
Definition js_lt (a b : value) : bool := js_gt b a.

(** [a - b] on numbers. *)
Definition js_sub (a b : value) : value :=
  match to_number a, to_number b with
  | Some x, Some y => VNum (x - y)
  | _, _ => VNaN
  end.

(** ** infrastructure/config/EnvironmentService.js *)

Module EnvironmentService.
Section WithPlatform.
Context `{P : Platform}.

(** The [.env] file of the project root. *)
Variable ENV_PATH : string.

(** [dotenv.config({ path })]: it reads the file and catches what the
    read raises.  The result is [true] when it carries an error (the file
    is missing, or cannot be read); otherwise the parsed variables are
    added to [process.env], those already set keeping their value. *)
Definition dotenv_config (path : string) : M bool := fun w =>
  match readFile path w with
  | (Ret c, _) =>
      (Ret false,
       with_env (fold_left
                   (fun e (kv : string * string) =>
                      match e !! kv.1 with
                      | Some _ => e
                      | None => <[ kv.1 := kv.2 ]> e
                      end)
                   (dotenv_parse c) (env w)) w)
  | (_, _) => (Ret true, w)
  end.

Definition hydrate : M unit :=
  do failed <- dotenv_config ENV_PATH;
  (if failed : bool then
     modify (with_enableTracing false);;
     logger "info" ("[Environment] No .env file found at " +:+ ENV_PATH +:+
                    ". Proceeding with system shell variables.")
   else
     do flag <- getenv "ENABLE_TRACING";
     modify (with_enableTracing
               (String.eqb (toLowerCase (default "undefined" flag)) "true"));;
     logger "info" ("[Environment] Successfully hydrated environment " +:+
                    "variables from: " +:+ ENV_PATH));;
  logger "info" "[Environment] Tracing Status: ${this.#config.enableTracing}".

(** The getter [isTracingEnabled]. *)
Definition isTracingEnabled : M bool := gets enableTracing.

(** What the call [validator.validate()] hands back when it does not
    throw: a configuration, or a promise that rejects. *)
Inductive settled : Type :=
| Fulfilled (v : value)
| Rejected (e : error).

(** The call [validator.validate()], code of the provider contracts. *)
Variable validate : value -> M settled.

(** The result is returned without [await]: a promise that rejects
    leaves the [try] before it settles, and only a throw is caught. *)
Definition getProviderConfig (provider : value) : M value :=
  do result <-
    try_catch
      (let validatorPath :=
         "./validators/" +:+ to_string provider +:+ "Config.js" in
       do module <- lift (match import_module validatorPath with
                          | inr m => Ret m
                          | inl e => Throw e
                          end);
       let validator :=
         default VUndefined (own module (to_string provider +:+ "Config")) in
       do contract <- (if truthy validator
                       then lift (member validator "validate")
                       else ret VUndefined);
       if negb (truthy validator)
          || negb (String.eqb (typeof contract) "function")
       then throw (new_Error ("Validator for " +:+ to_string provider +:+
                              " does not implement the .validate() contract."))
       else validate validator)
      (fun err =>
         logger "error" ("[Environment] Configuration lifecycle failure " +:+
                         "for provider: " +:+ to_string provider);;
         throw err);
  match result with
  | Fulfilled config => ret config
  | Rejected e => throw e
  end.

End WithPlatform.
End EnvironmentService.

(** ** shared/Tracer.js *)

Module TracerJs.
Section WithPlatform.
Context `{P : Platform}.

Definition LOG_LEVELS : value :=
  VObj [("error", VNum 0); ("warn", VNum 1); ("info", VNum 2);
        ("debug", VNum 3)].

Definition set_projectRoot (x : option string) (t : Tracer) : Tracer :=
  {| projectRoot := x; traceFile := traceFile t;
     isInitialized := isInitialized t; sessionID := sessionID t |}.

Definition set_traceFile (x : option string) (t : Tracer) : Tracer :=
  {| projectRoot := projectRoot t; traceFile := x;
     isInitialized := isInitialized t; sessionID := sessionID t |}.

Definition set_isInitialized (x : bool) (t : Tracer) : Tracer :=
  {| projectRoot := projectRoot t; traceFile := traceFile t;
     isInitialized := x; sessionID := sessionID t |}.

Definition set_sessionID (x : option string) (t : Tracer) : Tracer :=
  {| projectRoot := projectRoot t; traceFile := traceFile t;
     isInitialized := isInitialized t; sessionID := x |}.

(** [this.field = x]. *)
Definition assign (f : Tracer -> Tracer) : M unit :=
  modify (fun w => with_tracer (f (tracer w)) w).

(** A field that is a string or [null], as a value. *)
Definition nullable (o : option string) : value :=
  match o with
  | Some s => VStr s
  | None => VNull
  end.

(** [process.env.NAME || fallback]. *)
Definition env_or (name fallback : string) : M string :=
  do v <- getenv name;
  ret (match v with
       | Some s => if String.eqb s EmptyString then fallback else s
       | None => fallback
       end).

(** The object written for one event. *)
Definition entry (ts : string) (sid : option string) (layer event : string)
    (data : value) : value :=
  VObj [("ts", VStr ts); ("sid", nullable sid);
        ("lyr", VStr (toUpperCase layer)); ("evt", VStr (toUpperCase event));
        ("dat", data)].

Definition record (layer event : string) (data : value) : M unit :=
  let data := default_object data in
  do this <- gets tracer;
  do enabled <- EnvironmentService.isTracingEnabled;
  if negb (isInitialized this) || negb enabled then ret tt else
  do level <- lift (member data "level");
  let requestLevel := js_or level (VStr "info") in
  do systemLevel <- env_or "LOG_LEVEL" "info";
  do requested <- lift (member LOG_LEVELS (to_string requestLevel));
  do allowed <- lift (member LOG_LEVELS systemLevel);
  if js_gt requested allowed then ret tt else
  do now <- Date_now;
  let e := entry (toISOString now) (sessionID this) layer event data in
  try_catch
    (appendFile (traceFile this) (stringify_plus e newline))
    (fun error => logger "error" ("[Tracer Error]: " +:+ message error)).

Definition initialize (root : string) (namespace : option string) : M unit :=
  let namespace := default "plnexus" namespace in
  do this <- gets tracer;
  if isInitialized this then ret tt else
  try_catch
    (assign (set_projectRoot (Some root));;
     do r <- Math_random_base36;
     assign (set_sessionID (Some (toUpperCase (js_substring 2 9 r))));;
     let traceDir := path_join [root; "logs"; "traces"] in
     mkdir traceDir;;
     do today <- Date_now;
     let dateStr := toLocaleDateString_enCA today in
     assign (set_traceFile
               (Some (path_join [traceDir;
                                 namespace +:+ "-" +:+ dateStr +:+
                                 ".trace.log"])));;
     assign (set_isInitialized true);;
     do this <- gets tracer;
     do node_env <- env_or "NODE_ENV" "development";
     record "SYSTEM" "TRACER_READY"
       (VObj [("sid", nullable (sessionID this)); ("env", VStr node_env);
              ("node", VStr process_version)]))
    (fun error =>
       logger "error" ("[Tracer] Initialization Failure: " +:+ message error)).

Definition traceSpan {A} (layer label : string) (fn : M A) (meta : value)
  : M A :=
  let meta := default_object meta in
  do enabled <- EnvironmentService.isTracingEnabled;
  if negb enabled then fn else
  do startTime <- Date_now;
  record layer (label +:+ "_START") meta;;
  try_catch
    (do result <- fn;
     do finish <- Date_now;
     let duration := finish - startTime in
     record layer (label +:+ "_COMPLETE")
       (VObj (obj_set (spread meta) "durationMs" (VNum duration)));;
     ret result)
    (fun error =>
       do finish <- Date_now;
       let duration := finish - startTime in
       record layer (label +:+ "_FAILED")
         (VObj (obj_set (obj_set (spread meta) "durationMs" (VNum duration))
                  "error" (VStr (message error))));;
       throw error).

End WithPlatform.
End TracerJs.

(** ** domain/entities/MarketQuote.js *)

Module MarketQuoteJs.

(** The destructured constructor argument; an absent property is
    [VUndefined]. *)
Record params : Type := {
  symbol : value;
  price : value;
  timestamp : value;
  source : value
}.

(** The frozen fields of a constructed quote. *)
Record MarketQuote : Type := {
  this_symbol : string;
  this_price : value;
  this_timestamp : value;
  this_source : value
}.

Definition constructor (p : params) : outcome MarketQuote :=
  if negb (truthy (symbol p)) || negb (String.eqb (typeof (symbol p)) "string")
  then Throw (new_Error "[Entity] MarketQuote requires a valid string symbol.")
  else if negb (String.eqb (typeof (price p)) "number")
          || js_lt (price p) (VNum 0)
  then Throw (new_Error ("[Entity] MarketQuote for " +:+ to_string (symbol p)
                         +:+ " has an invalid price: " +:+ to_string (price p)))
  else if negb (truthy (timestamp p))
          || negb (String.eqb (typeof (timestamp p)) "number")
  then Throw (new_Error ("[Entity] MarketQuote for " +:+ to_string (symbol p)
                         +:+ " requires a valid numerical timestamp."))
  else
    match symbol p with
    | VStr s =>
        Ret {| this_symbol := toUpperCase s;
               this_price := price p;
               this_timestamp := timestamp p;
               this_source := js_or (source p) (VStr "UNKNOWN") |}
    | _ => Throw (new_Error "symbol.toUpperCase is not a function")
    end.

Section Methods.
Context `{P : Platform}.

Definition getAge (this : MarketQuote) : M value :=
  do now <- Date_now;
  ret (js_sub (VNum now) (this_timestamp this)).

(** [new Date(t).toISOString()]: a time value beyond 8.64e15 ms either
    side of the epoch, or [NaN], is an invalid date, and the conversion
    raises a [RangeError].  Only numbers are converted (a constructed quote
    holds one). *)
Definition Date_toISOString (t : value) : outcome string :=
  match t with
  | VNum n =>
      if Z.abs n <=? 8640000000000000 then Ret (toISOString n)
      else Throw (new_Error "Invalid time value")
  | _ => Throw (new_Error "Invalid time value")
  end.

Definition toJSON (this : MarketQuote) : M value :=
  do capturedAt <- lift (Date_toISOString (this_timestamp this));
  do age <- getAge this;
  ret (VObj [("symbol", VStr (this_symbol this));
             ("price", this_price this);
             ("capturedAt", VStr capturedAt);
             ("source", this_source this);
             ("isStale", VBool (js_gt age (VNum 60000)))]).

End Methods.

End MarketQuoteJs.

(** ** infrastructure/factories/AdapterFactory.js *)

Module AdapterFactoryJs.
Section WithPlatform.
Context `{P : Platform}.

Record AdapterFactory : Type := { root : string; manifestPath : string }.

(** How Node names a value of the wrong type in its argument errors. *)
Definition received (v : value) : string :=
  match v with
  | VUndefined | VNull => to_string v
  | VBool _ | VNum _ | VNaN | VStr _ =>
      "type " +:+ typeof v +:+ " (" +:+ to_string v +:+ ")"
  | VArr _ => "an instance of Array"
  | VObj _ | VProto => "an instance of Object"
  | VFun src => src
  end.

Definition invalid_path (v : value) : error :=
  {| message := "The " +:+ dquote +:+ "path" +:+ dquote +:+
                " argument must be of type string. Received " +:+ received v;
     code := Some "ERR_INVALID_ARG_TYPE" |}.

(** [path.isAbsolute] (POSIX). *)
Definition isAbsolute (p : value) : outcome bool :=
  match p with
  | VStr s => Ret (startsWith "/" s)
  | _ => Throw (invalid_path p)
  end.

Definition constructor (projectRoot : value) : outcome AdapterFactory :=
  if negb (truthy projectRoot) then
    Throw (new_Error ("[AdapterFactory] Initialization failed: projectRoot " +:+
                      "is required for path resolution."))
  else
    match projectRoot with
    | VStr r =>
        Ret {| root := r;
               manifestPath := path_join [r; "config"; "adapters.manifest.json"] |}
    | _ => Throw (invalid_path projectRoot)
    end.

Definition _getManifest (this : AdapterFactory) : M value :=
  try_catch
    (do data <- readFile (manifestPath this);
     lift (match JSON_parse data with
           | inr v => Ret v
           | inl e => Throw e
           end))
    (fun error =>
       if decide (code error = Some "ENOENT") then
         throw (new_Error ("Manifest missing at: " +:+ manifestPath this +:+
                           ". Please check your config/ directory."))
       else throw (new_Error ("Malformed manifest: " +:+ message error))).

(** [envService.getProviderConfig], the method of the second argument. *)
Variable getProviderConfig : value -> M value.

Definition lift_sum {A} (r : error + A) : M A :=
  lift (match r with
        | inr a => Ret a
        | inl e => Throw e
        end).

Definition loadAdapter (this : AdapterFactory) (mode : value) : M value :=
  try_catch
    (do manifest <- _getManifest this;
     do adapters <- lift (member manifest "adapters");
     do adapterDef <- lift (member adapters (to_string mode));
     (if negb (truthy adapterDef) then
        let available := join ", " (Object_keys adapters) in
        throw (new_Error ("Execution mode " +:+ dquote +:+ to_string mode +:+
                          dquote +:+ " is not defined in manifest. " +:+
                          "Available: [" +:+ available +:+ "]"))
      else ret tt);;
     do rawPath <- lift (member adapterDef "path");
     do absolute <- lift (isAbsolute rawPath);
     let modulePath :=
       if absolute : bool then to_string rawPath
       else path_join [root this; to_string rawPath] in
     do className <- lift (member adapterDef "className");
     logger "debug" ("[AdapterFactory] Resolving dependency: " +:+
                     to_string className);;
     do module <- lift_sum (import_module modulePath);
     let AdapterClass := default VUndefined (own module (to_string className)) in
     (if negb (truthy AdapterClass) then
        throw (new_Error ("Export " +:+ dquote +:+ to_string className +:+
                          dquote +:+ " not found in module at " +:+
                          to_string rawPath))
      else ret tt);;
     do requiresConfig <- lift (member adapterDef "requiresConfig");
     if truthy requiresConfig then
       do providerKey <- lift (member adapterDef "configKey");
       do config <- getProviderConfig providerKey;
       logger "info" ("[AdapterFactory] Injecting configuration for " +:+
                      to_string className +:+ " (" +:+ to_string providerKey
                      +:+ ")");;
       lift_sum (construct AdapterClass [config])
     else
       logger "info" ("[AdapterFactory] Initializing " +:+ to_string className
                      +:+ " (Standard)");;
       lift_sum (construct AdapterClass []))
    (fun error =>
       let failureContext :=
         "[AdapterFactory] Load failure for mode " +:+ to_string mode +:+
         ": " +:+ message error in
       logger "error" failureContext;;
       throw (new_Error failureContext)).

End WithPlatform.
End AdapterFactoryJs.

(** ** infrastructure/adapters/cli/MenuSystem.js

    Terminal text is kept without its colour escapes and frame
    characters. *)

Module MenuSystem.

Record Selection : Type := { mode : string; symbol : string }.

Definition displayHeader : M unit :=
  console_log "PLNexus MARKET DISCOVERY SYSTEM";;
  console_log "Professional Baseline v1.0.0".

Definition promptMode : M string :=
  console_log (newline +:+ "[1] LIVE MODE (Real-time API Connection)");;
  console_log "[2] MOCK MODE (Local Simulator / Sandbox)";;
  console_log "[Q] EXIT";;
  do answer <- question (newline +:+ "Select Execution Mode: ");
  let sanitized := toUpperCase (trim answer) in
  if String.eqb sanitized "Q" then
    console_log "Terminating session...";;
    process_exit 0
  else if negb (existsb (String.eqb sanitized) ["1"; "2"]) then
    console_log "Invalid selection. Defaulting to Mock Mode (2).";;
    ret "2"
  else ret sanitized.

Definition promptSymbol : M string :=
  do answer <- question "Enter Ticker Symbol (e.g., SPX): ";
  ret (trim answer).

Definition sanitizeSymbol (input : string) : string :=
  if String.eqb input EmptyString then "SPX"
  else toUpperCase (strip_dashes input).

Definition getInitialSelection : M Selection :=
  try_catch
    (displayHeader;;
     do mode <- promptMode;
     do symbol <- promptSymbol;
     ret {| mode := mode; symbol := sanitizeSymbol symbol |})
    (fun error =>
       throw (new_Error ("Menu Interaction Failed: " +:+ message error))).

(** [close()]: the readline interface holds no state of the model. *)
Definition close : M unit := ret tt.

End MenuSystem.

(** ** domain/use-cases/GetMarketSnapshot.js *)

Module GetMarketSnapshot.
Section WithPlatform.
Context `{P : Platform}.

(** [adapter.fetchQuote(symbol)], the outbound port. *)
Variable fetchQuote : value -> string -> M value.

(** The constructor keeps the port; the tracer it is given is the
    singleton. *)
Definition constructor (marketDataPort : value) : outcome value :=
  if negb (truthy marketDataPort) then
    Throw (new_Error ("[UseCase] Dependency Injection Failed: Port(false) " +:+
                      "Tracer(true)"))
  else Ret marketDataPort.

Definition execute (marketDataPort : value) (symbol : value) : M value :=
  TracerJs.traceSpan "DOMAIN" "GET_MARKET_SNAPSHOT"
    (match symbol with
     | VStr s =>
         if String.eqb s EmptyString || String.eqb (trim s) EmptyString then
           throw (new_Error
                    "Domain Error: A valid market ticker symbol is required.")
         else
           let cleanSymbol := toUpperCase (trim s) in
           try_catch (fetchQuote marketDataPort cleanSymbol)
             (fun _ =>
                throw (new_Error ("Market discovery failed for " +:+
                                  cleanSymbol +:+
                                  ". Please check system logs.")))
     | _ =>
         throw (new_Error
                  "Domain Error: A valid market ticker symbol is required.")
     end)
    (VObj [("symbol", symbol)]).

End WithPlatform.
End GetMarketSnapshot.

(** ** main.js *)

Module Main.
Section WithPlatform.
Context `{P : Platform}.

(** Collaborators outside the modelled sources: the provider
    configuration of [EnvironmentService], the port of the loaded adapter
    and the console view. *)
Variable getProviderConfig : value -> M value.
Variable fetchQuote : value -> string -> M value.
Variable render : value -> M unit.

(** The execution context of [bootstrap]. *)
Record Context : Type := {
  mode : value;
  symbol : value;
  isAutomated : bool
}.

Definition ENV_PATH : string :=
  path_join [path_join [path_join [PROJECT_ROOT; "infrastructure"; "config"];
                        "../../"];
             ".env"].

Definition displayHelp {A} : M A :=
  console_log "USAGE: node main.js [FLAGS] [SYMBOL]";;
  process_exit 0.

(** [args.includes(flag)]. *)
Definition has (flag : string) (args : list string) : bool :=
  existsb (String.eqb flag) args.

(** The automated strategy: mode and symbol come from the arguments. *)
Definition automated_strategy (args : list string) : Context :=
  {| mode := if has "--mock" args then VStr "2"
             else if has "--live" args then VStr "1" else VNull;
     symbol := match find (fun arg => negb (startsWith "--" arg)
                                      && negb (startsWith "-" arg)) args with
               | Some arg => VStr arg
               | None => VUndefined
               end;
     isAutomated := true |}.

(** The interactive strategy: the menu, observed as a CLI span. *)
Definition interactive_strategy : M Context :=
  try_finally
    (try_catch
       (do selection <- TracerJs.traceSpan "CLI" "USER_INTERACTION"
                          MenuSystem.getInitialSelection VUndefined;
        ret {| mode := VStr (MenuSystem.mode selection);
               symbol := VStr (MenuSystem.symbol selection);
               isAutomated := false |})
       (fun error =>
          logger "error" "Terminal Menu System failure";;
          process_exit 1))
    MenuSystem.close.

(** Section 3 of [bootstrap]: the context is created and filled from the
    arguments or from the menu; [context.isAutomated] is
    [process.argv.slice(2).length > 0]. *)
Definition capture_input : M Context :=
  do args <- gets argv;
  let isAutomated := (0 <? length args)%nat in
  (if has "--help" args || has "-h" args then displayHelp else ret tt);;
  if isAutomated then ret (automated_strategy args)
  else interactive_strategy.

(** [context.symbol?.toUpperCase() || 'SPX']. *)
Definition sanitized (symbol : value) : outcome string :=
  match symbol with
  | VUndefined | VNull => Ret "SPX"
  | VStr s =>
      Ret (if String.eqb (toUpperCase s) EmptyString then "SPX"
           else toUpperCase s)
  | _ => Throw (new_Error "context.symbol?.toUpperCase is not a function")
  end.

(** Section 4 of [bootstrap]. *)
Definition execution_phase (context : Context) : M unit :=
  TracerJs.traceSpan "SYSTEM" "BOOTSTRAP_SEQUENCE"
    (do factory <- lift (AdapterFactoryJs.constructor (VStr PROJECT_ROOT));
     do adapter <- AdapterFactoryJs.loadAdapter getProviderConfig factory
                     (mode context);
     do useCase <- lift (GetMarketSnapshot.constructor adapter);
     do sanitizedSymbol <- lift (sanitized (symbol context));
     logger "info" "Initiating Market Snapshot...";;
     do quote <- GetMarketSnapshot.execute fetchQuote useCase
                   (VStr sanitizedSymbol);
     render quote)
    (VObj [("mode", mode context); ("symbol", symbol context)]).

Definition bootstrap : M unit :=
  TracerJs.initialize PROJECT_ROOT None;;
  EnvironmentService.hydrate ENV_PATH;;
  do context <- capture_input;
  execution_phase context.

(** The module body: the environment file is loaded, [bootstrap] is
    launched, and a rejection nobody handles ends the process. *)
Definition main : M unit :=
  EnvironmentService.dotenv_config (path_join [PROJECT_ROOT; ".env"]);;
  try_catch bootstrap
    (fun reason =>
       logger "error" ("Critical Unhandled Rejection: Error: " +:+
                       message reason);;
       process_exit 1).

End WithPlatform.

(** The process as Node starts it: a fresh tracer, tracing switched off
    until [hydrate] runs, nothing logged or printed yet. *)
Definition process_start (environment : gmap string string)
    (args : list string) (disk : gmap string string)
    (fault : string -> option error) (time : nat -> Z)
    (random : nat -> string) (typed : list string) : World :=
  {| tracer := new_Tracer; enableTracing := false; env := environment;
     argv := args; files := disk; dirs := ∅; fs_fault := fault;
     clock := time; ticks := 0; entropy := random; draws := 0;
     journal := []; stdin := typed; stdout := [] |}.

End Main.

(** ** The specification's vocabulary *)

(** The ordering [error(0) < warn(1) < info(2) < debug(3)]. *)
Definition verbosity (level : string) : option Z :=
  if String.eqb level "error" then Some 0
  else if String.eqb level "warn" then Some 1
  else if String.eqb level "info" then Some 2
  else if String.eqb level "debug" then Some 3
  else None.

(** The level an event declares: [data.level] when it is a string,
    ["info"] when the metadata has none (absent, [undefined] or [null]). *)
Definition declared_level (data : value) : option string :=
  match default_object data with
  | VObj ps =>
      match own ps "level" with
      | None | Some VUndefined | Some VNull => Some "info"
      | Some (VStr s) => Some s
      | Some _ => None
      end
  | _ => None
  end.

(** The configured system level: [LOG_LEVEL], ["info"] when unset. *)
Definition system_level (w : World) : string :=
  default "info" (env w !! "LOG_LEVEL").

(** A JSON object with exactly the members [ts], [sid], [lyr], [evt] and
    [dat], given the JSON text of each. *)
Definition five_fields (ts sid lyr evt dat : string) : string :=
  "{" +:+ join "," [ quote "ts" +:+ ":" +:+ ts;
                     quote "sid" +:+ ":" +:+ sid;
                     quote "lyr" +:+ ":" +:+ lyr;
                     quote "evt" +:+ ":" +:+ evt;
                     quote "dat" +:+ ":" +:+ dat ] +:+ "}".

(** No line feed occurs in the text. *)
Fixpoint single_line (s : string) : bool :=
  match s with
  | EmptyString => true
  | String c r => negb (Ascii.eqb c (chr 10)) && single_line r
  end.

(** The JSON text of the session id of a tracer. *)
Definition sid_json (t : Tracer) : string :=
  match sessionID t with
  | Some s => quote s
  | None => "null"
  end.

(** *** Names used by the statements *)

(** What [LOG_LEVELS[k]] reads: the own number of a level name, else what
    [Object.prototype] provides under that name, else [undefined]. *)
Definition level_value (k : string) : value :=
  default (default VUndefined (inherited k)) (own (spread TracerJs.LOG_LEVELS) k).

(** [process.env.LOG_LEVEL || 'info']. *)
Definition effective_level (w : World) : string :=
  match env w !! "LOG_LEVEL" with
  | Some s => if String.eqb s EmptyString then "info" else s
  | None => "info"
  end.

(** [process.env.NODE_ENV || 'development']. *)
Definition node_env (w : World) : string :=
  match env w !! "NODE_ENV" with
  | Some s => if String.eqb s EmptyString then "development" else s
  | None => "development"
  end.

(** The message of the failure raised for a mode the manifest does not
    define. *)
Definition undefined_mode_message (mode : value)
    (ps : list (string * value)) : string :=
  "[AdapterFactory] Load failure for mode " +:+ to_string mode +:+ ": " +:+
  ("Execution mode " +:+ dquote +:+ to_string mode +:+ dquote +:+
   " is not defined in manifest. " +:+ "Available: [" +:+
   join ", " (Object_keys (VObj ps)) +:+ "]").

(** What the menu first puts on the terminal, up to its first question. *)
Definition menu_opening : list string :=
  [ "PLNexus MARKET DISCOVERY SYSTEM"; "Professional Baseline v1.0.0";
    newline +:+ "[1] LIVE MODE (Real-time API Connection)";
    "[2] MOCK MODE (Local Simulator / Sandbox)"; "[Q] EXIT";
    newline +:+ "Select Execution Mode: " ].

Section Lines.
Context `{P : Platform}.

(** The line [record] writes for an event at clock reading [now]. *)
Definition trace_line (now : Z) (t : Tracer) (layer event : string)
    (data : value) : string :=
  stringify_plus
    (TracerJs.entry (toISOString now) (sessionID t) layer event
       (default_object data)) newline.

(** The metadata of the TRACER_READY event, as JSON text. *)
Definition ready_json (sid node_env : string) : string :=
  "{" +:+ join "," [ quote "sid" +:+ ":" +:+ quote sid;
                     quote "env" +:+ ":" +:+ quote node_env;
                     quote "node" +:+ ":" +:+ quote process_version ] +:+ "}".

End Lines.

(** ** An installation to run the model on *)

Module Demo.

Definition manifest : value :=
  VObj [("adapters",
         VObj [("1", VObj [("path", VStr "infrastructure/adapters/api/FinnhubAdapter.js");
                           ("className", VStr "FinnhubAdapter");
                           ("requiresConfig", VBool true);
                           ("configKey", VStr "Finnhub")]);
               ("2", VObj [("path", VStr "infrastructure/adapters/api/MockMarketAdapter.js");
                           ("className", VStr "MockMarketAdapter");
                           ("requiresConfig", VBool false)])])].

(** Stand-ins for Node's library: paths join with a slash, the date is
    fixed, a time prints as its reading, every manifest parses to
    [manifest], every module exports both adapter classes. *)
Definition platform : Platform :=
  {| PROJECT_ROOT := "/app";
     path_join := join "/";
     toLocaleDateString_enCA := fun _ => "2025-12-22";
     toISOString := fun t => "T" +:+ pretty t;
     process_version := "v20.11.0";
     JSON_parse := fun _ => inr manifest;
     dotenv_parse := fun _ => [("ENABLE_TRACING", "true")];
     import_module := fun _ => inr [("MockMarketAdapter",
                                     VFun "class MockMarketAdapter");
                                    ("FinnhubAdapter",
                                     VFun "class FinnhubAdapter")];
     construct := fun _ _ => inr (VObj []) |}.

Definition trace_path : string :=
  "/app/logs/traces/plnexus-2025-12-22.trace.log".

Definition disk : gmap string string :=
  {[ "/app/.env" := "ENABLE_TRACING=true";
     @Main.ENV_PATH platform := "ENABLE_TRACING=true";
     "/app/config/adapters.manifest.json" := "{}" ]}.

Definition factory : AdapterFactoryJs.AdapterFactory :=
  {| AdapterFactoryJs.root := "/app";
     AdapterFactoryJs.manifestPath := "/app/config/adapters.manifest.json" |}.

(** The process at its start, tracing requested in the environment. *)
Definition start (level : option string) (args typed : list string) : World :=
  Main.process_start
    (match level with
     | Some l => {[ "ENABLE_TRACING" := "true"; "LOG_LEVEL" := l ]}
     | None => {[ "ENABLE_TRACING" := "true" ]}
     end)
    args disk (fun _ => None) (fun n => 1000 + 7 * Z.of_nat n)
    (fun _ => "0.4fzyo82mvyr") typed.

(** A process whose tracer is initialized and whose tracing is on. *)
Definition tracing (level : option string) : World :=
  with_enableTracing true
    (with_tracer {| projectRoot := Some "/app";
                    traceFile := Some trace_path;
                    isInitialized := true;
                    sessionID := Some "4FZYO82" |}
       (start level [] [])).

(** An operation that fails. *)
Definition failing : M Z := throw (new_Error "Upstream unreachable").

(** A permission error, and a process where every access to one path
    meets it. *)
Definition denied : error :=
  {| message := "EACCES: permission denied"; code := Some "EACCES" |}.

Definition faulty (path : string) (w : World) : World :=
  {| tracer := tracer w; enableTracing := enableTracing w; env := env w;
     argv := argv w; files := files w; dirs := dirs w;
     fs_fault := fun p => if String.eqb p path then Some denied
                          else fs_fault w p;
     clock := clock w; ticks := ticks w; entropy := entropy w;
     draws := draws w; journal := journal w; stdin := stdin w;
     stdout := stdout w |}.

(** The same installation, its modules exporting a provider contract. *)
Definition contracts : Platform :=
  {| PROJECT_ROOT := "/app";
     path_join := join "/";
     toLocaleDateString_enCA := fun _ => "2025-12-22";
     toISOString := fun t => "T" +:+ pretty t;
     process_version := "v20.11.0";
     JSON_parse := fun _ => inr manifest;
     dotenv_parse := fun _ => [("ENABLE_TRACING", "true")];
     import_module := fun _ => inr [("FinnhubConfig",
                                     VObj [("validate",
                                            VFun "validate() { }")])];
     construct := fun _ _ => inr (VObj []) |}.

(** The modes the manifest declares. *)
Definition adapters : list (string * value) :=
  [("1", VObj [("path", VStr "infrastructure/adapters/api/FinnhubAdapter.js");
               ("className", VStr "FinnhubAdapter");
               ("requiresConfig", VBool true);
               ("configKey", VStr "Finnhub")]);
   ("2", VObj [("path", VStr "infrastructure/adapters/api/MockMarketAdapter.js");
               ("className", VStr "MockMarketAdapter");
               ("requiresConfig", VBool false)])].

(** A [validate()] that returns a promise that rejects. *)
Definition rejecting : value -> M EnvironmentService.settled :=
  fun _ => ret (EnvironmentService.Rejected (new_Error "FINNHUB_API_KEY missing")).

End Demo.


(** * Properties *)

#[local] Arguments String.eqb : simpl never.
#[local] Arguments String.append : simpl never.
#[local] Arguments pretty : simpl never.

(** ** Text without line feeds *)

Lemma single_line_app (a b : string) :
  single_line (a +:+ b) = single_line a && single_line b.
Proof.
  induction a as [|c a IH]; simpl; [reflexivity|].
  rewrite IH. now rewrite andb_assoc.
Qed.

Lemma single_line_quote_char (c : ascii) : single_line (quote_char c) = true.
Proof. destruct c as [[] [] [] [] [] [] [] []]; reflexivity. Qed.

Lemma single_line_quote (s : string) : single_line (quote s) = true.
Proof.
  unfold quote. rewrite !single_line_app. simpl.
  rewrite andb_true_r.
  induction s as [|c s IH]; simpl; [reflexivity|].
  now rewrite single_line_app, single_line_quote_char, IH.
Qed.

Lemma single_line_pretty_N_go (x : N) (s : string) :
  single_line s = true -> single_line (pretty_N_go x s) = true.
Proof.
  revert s. induction (N.lt_wf_0 x) as [x _ IH]; intros s Hs.
  destruct (decide (0 < x)%N) as [Hx|Hx].
  - rewrite pretty_N_go_step by assumption.
    apply IH.
    + apply N.div_lt; lia.
    + simpl. rewrite Hs, andb_true_r.
      unfold pretty_N_char. now repeat case_match.
  - replace x with 0%N by lia. now rewrite pretty_N_go_0.
Qed.

Lemma single_line_pretty_N (x : N) : single_line (pretty x) = true.
Proof.
  unfold pretty, pretty_N. case_decide; [reflexivity|].
  now apply single_line_pretty_N_go.
Qed.

Lemma single_line_pretty_Z (z : Z) : single_line (pretty z) = true.
Proof.
  destruct z as [|p|p]; [reflexivity| |].
  - apply (single_line_pretty_N (N.pos p)).
  - change (single_line ("-" +:+ pretty (N.pos p)) = true).
    rewrite single_line_app. simpl. apply single_line_pretty_N.
Qed.

Lemma single_line_join (sep : string) (xs : list string) :
  single_line sep = true ->
  Forall (fun x => single_line x = true) xs ->
  single_line (join sep xs) = true.
Proof.
  intros Hsep Hxs. induction Hxs as [|x xs Hx Hxs IH]; [reflexivity|].
  unfold join in *. simpl. destruct xs as [|y ys]; [assumption|].
  now rewrite !single_line_app, Hx, Hsep, IH.
Qed.

(** ** The order of own properties keeps every property *)

Lemma insert_index_elem {A} (n : N) (k : string) (a : A) l x :
  x ∈ insert_index n k a l <-> x = (n, (k, a)) \/ x ∈ l.
Proof.
  induction l as [|[m e] l IH]; simpl.
  - rewrite list_elem_of_singleton, elem_of_nil. tauto.
  - destruct (n <? m)%N.
    + rewrite elem_of_cons. reflexivity.
    + rewrite !elem_of_cons, IH. tauto.
Qed.

Lemma index_props_elem {A} (ps : list (string * A)) (p : string * A) :
  p ∈ map snd (index_props ps) <-> p ∈ ps /\ array_index p.1 <> None.
Proof.
  induction ps as [|[k a] ps IH]; simpl.
  - rewrite !elem_of_nil. tauto.
  - destruct (array_index k) as [n|] eqn:Hk.
    + rewrite list_elem_of_fmap. setoid_rewrite insert_index_elem.
      rewrite elem_of_cons. split.
      * intros [[m e] [Hp [Heq|Hin]]]; simpl in Hp; subst p.
        -- injection Heq as -> ->. simpl. split; [now left | congruence].
        -- assert (e ∈ map snd (index_props ps)) as He
             by (apply list_elem_of_fmap; now exists (m, e)).
           apply IH in He. tauto.
      * intros [[Heq|Hin] Hp].
        -- exists (n, (k, a)). split; [now subst p | now left].
        -- assert (p ∈ map snd (index_props ps)) as He by (apply IH; tauto).
           apply list_elem_of_fmap in He as [y [Hy Hin']].
           exists y. split; [assumption | now right].
    + rewrite IH, elem_of_cons. split; [tauto|].
      intros [[Heq|Hin] Hp]; [subst p; simpl in Hp; congruence | tauto].
Qed.

Lemma own_order_elem {A} (ps : list (string * A)) (p : string * A) :
  p ∈ own_order ps <-> p ∈ ps.
Proof.
  unfold own_order, named_props.
  rewrite elem_of_app, index_props_elem, !list_elem_of_In, filter_In.
  destruct (array_index p.1) as [n|]; split.
  - intros [[Hin _]|[_ Hf]]; [assumption | discriminate].
  - intros Hin. left. split; [assumption | discriminate].
  - intros [[_ Hn]|[Hin _]]; [congruence | assumption].
  - intros Hin. right. split; [assumption | reflexivity].
Qed.

(** ** JSON text is one line *)

Lemma value_nested_ind (Q : value -> Prop) :
  Q VUndefined -> Q VNull -> (forall b, Q (VBool b)) ->
  (forall n, Q (VNum n)) -> Q VNaN -> (forall s, Q (VStr s)) ->
  (forall xs, Forall Q xs -> Q (VArr xs)) ->
  (forall ps, Forall (fun p => Q p.2) ps -> Q (VObj ps)) ->
  (forall s, Q (VFun s)) -> Q VProto ->
  forall v, Q v.
Proof.
  intros Hu Hn Hb Hz Hnan Hs Harr Hobj Hf Hp.
  fix IH 1.
  intros [ | | b | n | | s | xs | ps | s | ];
    [ exact Hu | exact Hn | apply Hb | apply Hz | exact Hnan | apply Hs
    | | | apply Hf | exact Hp ].
  - apply Harr. induction xs as [|x xs IHxs]; constructor; [apply IH | exact IHxs].
  - apply Hobj. induction ps as [|[k x] ps IHps]; constructor;
      [apply IH | exact IHps].
Qed.

Lemma stringify_members (ps : list (string * value)) :
  (fix members (l : list (string * value)) : list (string * option string) :=
     match l with
     | [] => []
     | (k, x) :: r => (k, stringify x) :: members r
     end) ps
  = map (fun p => (p.1, stringify p.2)) ps.
Proof. induction ps as [|[k x] ps IH]; simpl; [reflexivity | now rewrite IH]. Qed.

Lemma stringify_object (ps : list (string * value)) :
  stringify (VObj ps)
  = Some (json_object (map (fun p => (p.1, stringify p.2)) ps)).
Proof. simpl. now rewrite stringify_members. Qed.

Lemma stringify_single_line (v : value) :
  forall j, stringify v = Some j -> single_line j = true.
Proof.
  induction v as [ | | b | n | | s | xs IH | ps IH | s | ]
    using value_nested_ind; intros j Hj.
  - discriminate.
  - now injection Hj as <-.
  - injection Hj as <-. now destruct b.
  - injection Hj as <-. apply single_line_pretty_Z.
  - now injection Hj as <-.
  - injection Hj as <-. apply single_line_quote.
  - injection Hj as <-. unfold json_array.
    rewrite !single_line_app, single_line_join; [reflexivity|reflexivity|].
    rewrite map_map. apply Forall_map.
    eapply Forall_impl; [exact IH|].
    intros x Hx. simpl in *.
    destruct (stringify x) as [jx|]; [exact (Hx jx eq_refl) | reflexivity].
  - rewrite stringify_object in Hj. injection Hj as <-. unfold json_object.
    rewrite !single_line_app, single_line_join; [reflexivity|reflexivity|].
    apply Forall_forall. intros m Hm.
    apply list_elem_of_omap in Hm as [[k o] [Hin Hmem]].
    apply own_order_elem, list_elem_of_fmap in Hin as [[k' x] [Heq Hin]].
    simpl in Heq. injection Heq as -> ->.
    unfold json_member in Hmem. simpl in Hmem.
    destruct (stringify x) as [jx|] eqn:Hx; [|discriminate].
    injection Hmem as <-.
    rewrite !single_line_app, single_line_quote. simpl.
    rewrite Forall_forall in IH. apply (IH (k', x) Hin). exact Hx.
  - discriminate.
  - now injection Hj as <-.
Qed.

(** ** The level gate of [record] *)

Section Gate.
Context `{P : Platform}.

Lemma member_LOG_LEVELS (k : string) :
  member TracerJs.LOG_LEVELS k = Ret (level_value k).
Proof. reflexivity. Qed.

Lemma level_value_known (k : string) (r : Z) :
  verbosity k = Some r -> level_value k = VNum r.
Proof.
  unfold verbosity, level_value. simpl.
  rewrite !(String.eqb_sym k).
  repeat (destruct (String.eqb _ k); [now intros [= <-]|]).
  discriminate.
Qed.

Lemma level_value_unknown (k : string) :
  verbosity k = None -> level_value k = default VUndefined (inherited k).
Proof.
  unfold verbosity, level_value. simpl.
  rewrite !(String.eqb_sym k).
  repeat (destruct (String.eqb _ k); [discriminate|]).
  reflexivity.
Qed.

Lemma verbosity_nonempty (k : string) (r : Z) :
  verbosity k = Some r -> k <> EmptyString.
Proof. intros H ->. discriminate. Qed.

Lemma effective_level_system (w : World) (s : Z) :
  verbosity (system_level w) = Some s -> effective_level w = system_level w.
Proof.
  unfold system_level, effective_level.
  destruct (env w !! "LOG_LEVEL") as [l|]; simpl; [|reflexivity].
  intros H. apply verbosity_nonempty in H.
  destruct (String.eqb_spec l EmptyString); [contradiction | reflexivity].
Qed.

Lemma declared_level_member (data : value) (lvl : string) :
  declared_level data = Some lvl -> lvl <> EmptyString ->
  exists lv, member (default_object data) "level" = Ret lv
             /\ to_string (js_or lv (VStr "info")) = lvl.
Proof.
  unfold declared_level.
  destruct (default_object data) as [ | | | | | | |ps| | ]; try discriminate.
  simpl. destruct (own ps "level") as [[ | | | | |s| | | | ]|]; try discriminate.
  - intros [= <-] _. exists VUndefined. split; reflexivity.
  - intros [= <-] _. exists VNull. split; reflexivity.
  - intros [= ->] Hne. exists (VStr lvl). split; [reflexivity|].
    unfold js_or. simpl.
    destruct (String.eqb_spec lvl EmptyString); [contradiction | reflexivity].
  - intros [= <-] _. exists VUndefined. split; reflexivity.
Qed.

Lemma js_gt_numbers (a b : Z) : js_gt (VNum a) (VNum b) = (b <? a).
Proof. reflexivity. Qed.

Lemma js_gt_undefined_left (b : value) : js_gt VUndefined b = false.
Proof. unfold js_gt. simpl. now destruct (to_primitive b). Qed.

End Gate.

(** Unfolding the plumbing of the monad. *)
Ltac unfold_monad :=
  cbv beta iota delta
    [bind gets modify ret lift throw process_exit getenv
     EnvironmentService.isTracingEnabled TracerJs.env_or TracerJs.assign].

(** ** [record] *)

Section Record.
Context `{P : Platform}.

Lemma record_off (layer event : string) (data : value) (w : World) :
  isInitialized (tracer w) = false \/ enableTracing w = false ->
  TracerJs.record layer event data w = (Ret tt, w).
Proof.
  intros H. unfold TracerJs.record. unfold_monad.
  destruct H as [-> | ->]; [reflexivity|].
  now rewrite orb_true_r.
Qed.

Lemma record_on (layer event : string) (data lv : value) (w : World) :
  isInitialized (tracer w) = true -> enableTracing w = true ->
  member (default_object data) "level" = Ret lv ->
  TracerJs.record layer event data w
  = if js_gt (level_value (to_string (js_or lv (VStr "info"))))
             (level_value (effective_level w))
    then (Ret tt, w)
    else try_catch
           (appendFile (traceFile (tracer w))
              (trace_line (clock w (ticks w)) (tracer w) layer event data))
           (fun error => logger "error" ("[Tracer Error]: " +:+ message error))
           (ticked w).
Proof.
  intros Hi He Hm.
  unfold TracerJs.record. unfold_monad. rewrite Hi, He, Hm. simpl.
  fold (effective_level w).
  destruct (js_gt _ _); reflexivity.
Qed.

Lemma record_dropped (layer event : string) (data lv : value) (w : World) :
  isInitialized (tracer w) = true -> enableTracing w = true ->
  member (default_object data) "level" = Ret lv ->
  js_gt (level_value (to_string (js_or lv (VStr "info"))))
        (level_value (effective_level w)) = true ->
  TracerJs.record layer event data w = (Ret tt, w).
Proof. intros Hi He Hm Hg. now rewrite (record_on _ _ _ lv), Hg. Qed.

Lemma record_written (layer event : string) (data lv : value) (w : World)
    (f : string) :
  isInitialized (tracer w) = true -> enableTracing w = true ->
  member (default_object data) "level" = Ret lv ->
  js_gt (level_value (to_string (js_or lv (VStr "info"))))
        (level_value (effective_level w)) = false ->
  traceFile (tracer w) = Some f -> fs_fault w f = None ->
  TracerJs.record layer event data w
  = (Ret tt,
     written f (trace_line (clock w (ticks w)) (tracer w) layer event data)
       (ticked w)).
Proof.
  intros Hi He Hm Hg Hf Hok. rewrite (record_on _ _ _ lv), Hg by assumption.
  unfold try_catch, appendFile. rewrite Hf. simpl. now rewrite Hok.
Qed.

(** The line is a JSON object of the five members, on one line. *)
Lemma trace_line_five_fields (now : Z) (t : Tracer) (layer event : string)
    (data : value) (dat : string) :
  stringify (default_object data) = Some dat ->
  trace_line now t layer event data
  = five_fields (quote (toISOString now)) (sid_json t)
      (quote (toUpperCase layer)) (quote (toUpperCase event)) dat +:+ newline
  /\ single_line
       (five_fields (quote (toISOString now)) (sid_json t)
          (quote (toUpperCase layer)) (quote (toUpperCase event)) dat) = true.
Proof.
  intros Hd.
  assert (stringify (TracerJs.entry (toISOString now) (sessionID t) layer event
                       (default_object data))
          = Some (five_fields (quote (toISOString now)) (sid_json t)
                    (quote (toUpperCase layer)) (quote (toUpperCase event)) dat))
    as Hs.
  { unfold TracerJs.entry. rewrite stringify_object. simpl. rewrite Hd.
    unfold sid_json, TracerJs.nullable. destruct (sessionID t); reflexivity. }
  split.
  - unfold trace_line, stringify_plus. now rewrite Hs.
  - eapply stringify_single_line, Hs.
Qed.

Lemma declared_level_stringify (data : value) (lvl : string) :
  declared_level data = Some lvl ->
  exists dat, stringify (default_object data) = Some dat.
Proof.
  unfold declared_level.
  destruct (default_object data) as [ | | | | | | |ps| | ]; try discriminate.
  intros _. rewrite stringify_object. eauto.
Qed.

End Record.

Section RecordClaims.
Context `{P : Platform}.

Lemma record_admitted (layer event : string) (data : value) (w : World)
    (f lvl : string) (r s : Z) :
  isInitialized (tracer w) = true -> traceFile (tracer w) = Some f ->
  enableTracing w = true ->
  declared_level data = Some lvl -> verbosity lvl = Some r ->
  verbosity (system_level w) = Some s -> r <= s ->
  fs_fault w f = None ->
  TracerJs.record layer event data w
  = (Ret tt,
     written f (trace_line (clock w (ticks w)) (tracer w) layer event data)
       (ticked w)).
Proof.
  intros Hi Hf He Hd Hr Hs Hle Hok.
  destruct (declared_level_member data lvl Hd (verbosity_nonempty _ _ Hr))
    as [lv [Hm Hlv]].
  apply (record_written _ _ _ lv); try assumption.
  rewrite Hlv, (effective_level_system _ _ Hs).
  rewrite (level_value_known _ _ Hr), (level_value_known _ _ Hs), js_gt_numbers.
  apply Z.ltb_ge, Hle.
Qed.

Lemma record_refused (layer event : string) (data : value) (w : World)
    (lvl : string) (r s : Z) :
  isInitialized (tracer w) = true -> enableTracing w = true ->
  declared_level data = Some lvl -> verbosity lvl = Some r ->
  verbosity (system_level w) = Some s -> s < r ->
  TracerJs.record layer event data w = (Ret tt, w).
Proof.
  intros Hi He Hd Hr Hs Hlt.
  destruct (declared_level_member data lvl Hd (verbosity_nonempty _ _ Hr))
    as [lv [Hm Hlv]].
  apply (record_dropped _ _ _ lv); try assumption.
  rewrite Hlv, (effective_level_system _ _ Hs).
  rewrite (level_value_known _ _ Hr), (level_value_known _ _ Hs), js_gt_numbers.
  apply Z.ltb_lt, Hlt.
Qed.

(** C2, amended.  With the tracer initialized and tracing enabled, an
    event whose declared level ([data.level], default ["info"]) is strictly
    more verbose than the system level ([LOG_LEVEL], default ["info"]) in
    the ordering error(0) < warn(1) < info(2) < debug(3) leaves the process
    as it was: nothing is appended.  An event whose level is not more
    verbose appends, provided the file system accepts the write, exactly
    one line to the trace file: a JSON object of the five members ts, sid,
    lyr, evt and dat, free of line feeds, followed by one line feed; the
    trace file is its former content and that line, every other file is as
    it was. *)
Theorem record_level_filter (layer event : string) (data : value) (w : World)
    (f lvl : string) (r s : Z) :
  isInitialized (tracer w) = true -> traceFile (tracer w) = Some f ->
  enableTracing w = true ->
  declared_level data = Some lvl -> verbosity lvl = Some r ->
  verbosity (system_level w) = Some s ->
  (s < r -> TracerJs.record layer event data w = (Ret tt, w))
  /\ (r <= s -> fs_fault w f = None ->
      exists dat,
        stringify (default_object data) = Some dat /\
        let line :=
          five_fields (quote (toISOString (clock w (ticks w))))
            (sid_json (tracer w)) (quote (toUpperCase layer))
            (quote (toUpperCase event)) dat in
        single_line line = true /\
        TracerJs.record layer event data w
        = (Ret tt, written f (line +:+ newline) (ticked w)) /\
        (files (TracerJs.record layer event data w).2
         = <[ f := default EmptyString (files w !! f) +:+ line +:+ newline ]>
             (files w))).
Proof.
  intros Hi Hf He Hd Hr Hs. split.
  - intros Hlt. now apply (record_refused _ _ _ _ lvl r s).
  - intros Hle Hok.
    destruct (declared_level_stringify _ _ Hd) as [dat Hdat].
    exists dat. split; [assumption|].
    destruct (trace_line_five_fields (clock w (ticks w)) (tracer w)
                layer event data dat Hdat) as [Hline Hone].
    cbv zeta. split; [assumption|].
    rewrite <- Hline.
    assert (TracerJs.record layer event data w
            = (Ret tt,
               written f (trace_line (clock w (ticks w)) (tracer w) layer
                            event data) (ticked w))) as Hrec
      by now apply (record_admitted _ _ _ _ _ lvl r s).
    rewrite Hrec. split; reflexivity.
Qed.

(** What [Object.prototype] provides never compares above a number or
    [undefined]. *)
Lemma inherited_not_above (k : string) (v : value) (n : Z) :
  inherited k = Some v ->
  js_gt v (VNum n) = false /\ js_gt v VUndefined = false.
Proof.
  unfold inherited.
  destruct (String.eqb k "__proto__"); [intros [= <-]; split; reflexivity|].
  destruct (existsb (String.eqb k) Object_prototype_functions) eqn:E;
    [|discriminate].
  intros [= <-].
  apply existsb_exists in E as [name [Hin Heq]].
  apply String.eqb_eq in Heq. subst k. simpl in Hin.
  repeat (destruct Hin as [<-|Hin]; [split; reflexivity|]).
  destruct Hin.
Qed.

Lemma unknown_level_passes (lvl sys : string) :
  verbosity lvl = None ->
  inherited lvl = None \/ inherited sys = None ->
  js_gt (level_value lvl) (level_value sys) = false.
Proof.
  intros Hl H. rewrite (level_value_unknown _ Hl).
  destruct (inherited lvl) as [v|] eqn:Hv; simpl;
    [|apply js_gt_undefined_left].
  destruct H as [H|H]; [discriminate|].
  destruct (verbosity sys) as [n|] eqn:Hs.
  - rewrite (level_value_known _ _ Hs). now apply (inherited_not_above lvl).
  - rewrite (level_value_unknown _ Hs), H. simpl.
    now apply (inherited_not_above lvl v 0).
Qed.

(** C9, amended.  With the tracer initialized and tracing enabled, an
    event whose [data.level] is a non-empty string other than error, warn,
    info and debug is never dropped by the level filter: whatever
    [LOG_LEVEL] holds, provided the level or [LOG_LEVEL] is not the name
    of a member inherited from [Object.prototype], one line is appended
    (when the file system takes the write). *)
Theorem record_unknown_level (layer event : string)
    (ps : list (string * value)) (w : World) (f lvl : string) :
  isInitialized (tracer w) = true -> traceFile (tracer w) = Some f ->
  enableTracing w = true ->
  own ps "level" = Some (VStr lvl) -> lvl <> EmptyString ->
  verbosity lvl = None ->
  inherited lvl = None \/ inherited (effective_level w) = None ->
  fs_fault w f = None ->
  exists dat,
    stringify (VObj ps) = Some dat /\
    let line :=
      five_fields (quote (toISOString (clock w (ticks w))))
        (sid_json (tracer w)) (quote (toUpperCase layer))
        (quote (toUpperCase event)) dat in
    single_line line = true /\
    TracerJs.record layer event (VObj ps) w
    = (Ret tt, written f (line +:+ newline) (ticked w)).
Proof.
  intros Hi Hf He Hown Hne Hv Hinh Hok.
  destruct (stringify (VObj ps)) as [dat|] eqn:Hdat;
    [|rewrite stringify_object in Hdat; discriminate].
  exists dat. split; [reflexivity|].
  destruct (trace_line_five_fields (clock w (ticks w)) (tracer w)
              layer event (VObj ps) dat Hdat) as [Hline Hone].
  cbv zeta. split; [assumption|]. rewrite <- Hline.
  apply (record_written _ _ _ (VStr lvl)); try assumption.
  - simpl. now rewrite Hown.
  - unfold js_or. simpl.
    destruct (String.eqb_spec lvl EmptyString); [contradiction|]. simpl.
    now apply unknown_level_passes.
Qed.

End RecordClaims.

(** C2, at work: under the default level a debug event is not written and
    an info event is. *)
Lemma record_level_filter_witness :
  TracerJs.record (P:=Demo.platform) "DOMAIN" "DEBUG_EVENT"
    (VObj [("level", VStr "debug")]) (Demo.tracing None)
  = (Ret tt, Demo.tracing None)
  /\ exists dat,
       stringify (VObj [("symbol", VStr "SPX")]) = Some dat /\
       let line :=
         five_fields (quote (@toISOString Demo.platform 1000))
           (quote "4FZYO82") (quote "DOMAIN") (quote "QUOTE") dat in
       single_line line = true /\
       TracerJs.record (P:=Demo.platform) "domain" "quote"
         (VObj [("symbol", VStr "SPX")]) (Demo.tracing None)
       = (Ret tt,
          written Demo.trace_path (line +:+ newline)
            (ticked (Demo.tracing None))) /\
       (files (TracerJs.record (P:=Demo.platform) "domain" "quote"
                 (VObj [("symbol", VStr "SPX")]) (Demo.tracing None)).2
        = <[ Demo.trace_path := line +:+ newline ]> Demo.disk).
Proof.
  split.
  - refine (proj1 (record_level_filter (P:=Demo.platform) "DOMAIN"
                     "DEBUG_EVENT" (VObj [("level", VStr "debug")])
                     (Demo.tracing None) Demo.trace_path "debug" 3 2
                     _ _ _ _ _ _) _);
      reflexivity.
  - refine (proj2 (record_level_filter (P:=Demo.platform) "domain" "quote"
                     (VObj [("symbol", VStr "SPX")]) (Demo.tracing None)
                     Demo.trace_path "info" 2 2 _ _ _ _ _ _) _ _);
      reflexivity || lia.
Defined.

(** C2, as stated, fails when the file system refuses the append: the
    tracer is initialized, tracing is enabled, an info event meets the
    default level, it is not more verbose, and yet [record] returns with
    no line written: the trace file is still absent, and the failure has
    gone to the logger. *)
Lemma record_append_refused :
  let w := Demo.faulty Demo.trace_path (Demo.tracing None) in
  let run := TracerJs.record (P:=Demo.platform) "DOMAIN" "QUOTE"
               (VObj [("symbol", VStr "SPX")]) w in
  isInitialized (tracer w) = true /\ enableTracing w = true /\
  traceFile (tracer w) = Some Demo.trace_path /\
  declared_level (VObj [("symbol", VStr "SPX")]) = Some "info" /\
  system_level w = "info" /\ verbosity "info" = Some 2 /\
  run.1 = Ret tt /\
  files w !! Demo.trace_path = None /\
  files run.2 !! Demo.trace_path = None /\
  journal run.2 = [("error", "[Tracer Error]: EACCES: permission denied")].
Proof. cbv zeta. repeat split. Qed.

(** C9, at work. *)
Lemma record_unknown_level_witness :
  exists dat,
    stringify (VObj [("level", VStr "verbose")]) = Some dat /\
    let line :=
      five_fields (quote (@toISOString Demo.platform 1000))
        (quote "4FZYO82") (quote "DOMAIN") (quote "EVENT") dat in
    single_line line = true /\
    TracerJs.record (P:=Demo.platform) "domain" "event"
      (VObj [("level", VStr "verbose")]) (Demo.tracing (Some "error"))
    = (Ret tt,
       written Demo.trace_path (line +:+ newline)
         (ticked (Demo.tracing (Some "error")))).
Proof.
  apply (record_unknown_level (P:=Demo.platform) "domain" "event"
           [("level", VStr "verbose")] (Demo.tracing (Some "error"))
           Demo.trace_path "verbose");
    try reflexivity.
  - discriminate.
  - left. reflexivity.
Defined.

(** C9, as stated, fails for the empty string: it is a string, it is none
    of the four names, and under [LOG_LEVEL=error] the event is dropped,
    because [data.level || 'info'] makes it an info event. *)
Lemma record_empty_level_dropped :
  let w := Demo.tracing (Some "error") in
  let data := VObj [("level", VStr EmptyString)] in
  isInitialized (tracer w) = true /\ enableTracing w = true /\
  member data "level" = Ret (VStr EmptyString) /\
  verbosity EmptyString = None /\
  TracerJs.record (P:=Demo.platform) "domain" "event" data w = (Ret tt, w).
Proof. cbv zeta. repeat split. Qed.

(** ** [traceSpan] and [initialize] *)

Lemma map_string_app (g : ascii -> ascii) (a b : string) :
  map_string g (a +:+ b) = map_string g a +:+ map_string g b.
Proof.
  induction a as [|c a IH]; [reflexivity|].
  change (String (g c) (map_string g (a +:+ b))
          = String (g c) (map_string g a +:+ map_string g b)).
  now rewrite IH.
Qed.

Lemma own_obj_set_other (ps : list (string * value)) (k k' : string)
    (v : value) :
  k <> k' -> own (obj_set ps k v) k' = own ps k'.
Proof.
  intros Hne. induction ps as [|[k0 v0] ps IH]; simpl.
  - destruct (String.eqb_spec k k'); [contradiction | reflexivity].
  - destruct (String.eqb_spec k0 k) as [->|Hk]; simpl.
    + destruct (String.eqb_spec k k'); [contradiction | reflexivity].
    + now rewrite IH.
Qed.

Section SpanClaims.
Context `{P : Platform}.

(** C1.  With tracing globally disabled, [traceSpan] is the operation
    itself: the same value or the same error, and the same process
    afterwards, so not one trace line beyond what the operation does. *)
Theorem traceSpan_disabled {A} (layer label : string) (fn : M A)
    (meta : value) (w : World) :
  enableTracing w = false ->
  TracerJs.traceSpan layer label fn meta w = fn w
  /\ files (TracerJs.traceSpan layer label fn meta w).2 = files (fn w).2.
Proof.
  intros He.
  assert (TracerJs.traceSpan layer label fn meta w = fn w) as Heq.
  { unfold TracerJs.traceSpan. unfold_monad. now rewrite He. }
  split; [exact Heq | now rewrite Heq].
Qed.

(** C6.  After a call of [initialize] that left the tracer initialized,
    any further call, at any later point of the process where the tracer
    is still that one, changes nothing: same trace file path, same session
    id, no new random draw. *)
Theorem initialize_idempotent (root root' : string) (ns ns' : option string)
    (w w2 : World) :
  let w1 := (TracerJs.initialize root ns w).2 in
  isInitialized (tracer w1) = true ->
  tracer w2 = tracer w1 ->
  TracerJs.initialize root' ns' w2 = (Ret tt, w2)
  /\ traceFile (tracer (TracerJs.initialize root' ns' w2).2)
     = traceFile (tracer w1)
  /\ sessionID (tracer (TracerJs.initialize root' ns' w2).2)
     = sessionID (tracer w1).
Proof.
  intros w1 Hi Ht.
  assert (TracerJs.initialize root' ns' w2 = (Ret tt, w2)) as Heq.
  { unfold TracerJs.initialize. unfold_monad. now rewrite Ht, Hi. }
  rewrite Heq. simpl. now rewrite Ht.
Qed.

Lemma declared_level_failed (meta : value) (lvl : string) (d : Z)
    (msg : string) :
  declared_level meta = Some lvl ->
  declared_level
    (VObj (obj_set (obj_set (spread (default_object meta)) "durationMs" (VNum d))
             "error" (VStr msg))) = Some lvl.
Proof.
  unfold declared_level.
  destruct (default_object meta) as [ | | | | | | |ps| | ]; try discriminate.
  simpl. now rewrite !own_obj_set_other by discriminate.
Qed.

(** C3, amended.  With the tracer initialized, tracing enabled and the
    level of the span ([meta.level], default ["info"]) not more verbose
    than the system level, [traceSpan] on an operation that fails writes
    (the file system taking the writes, the operation leaving the tracing
    configuration alone) exactly two lines, one before the operation and
    one after it: <LABEL>_START with the metadata, and <LABEL>_FAILED with
    the metadata, the elapsed duration and the message of the failure; it
    then raises the very failure of the operation. *)
Theorem traceSpan_failure {A} (layer label : string) (fn : M A) (meta : value)
    (w w2 : World) (f lvl : string) (r s : Z) (e : error) :
  let startTime := clock w (ticks w) in
  let w1 :=
    written f (trace_line (clock w (S (ticks w))) (tracer w) layer
                 (label +:+ "_START") meta) (ticked (ticked w)) in
  isInitialized (tracer w) = true -> traceFile (tracer w) = Some f ->
  enableTracing w = true ->
  declared_level meta = Some lvl -> verbosity lvl = Some r ->
  verbosity (system_level w) = Some s -> r <= s ->
  fs_fault w f = None ->
  fn w1 = (Throw e, w2) ->
  tracer w2 = tracer w -> enableTracing w2 = true ->
  env w2 !! "LOG_LEVEL" = env w !! "LOG_LEVEL" -> fs_fault w2 f = None ->
  exists dat0 dat1,
    stringify (default_object meta) = Some dat0 /\
    stringify
      (VObj (obj_set
               (obj_set (spread (default_object meta)) "durationMs"
                  (VNum (clock w2 (ticks w2) - startTime)))
               "error" (VStr (message e)))) = Some dat1 /\
    let start_line :=
      five_fields (quote (toISOString (clock w (S (ticks w)))))
        (sid_json (tracer w)) (quote (toUpperCase layer))
        (quote (toUpperCase label +:+ "_START")) dat0 in
    let failed_line :=
      five_fields (quote (toISOString (clock w2 (S (ticks w2)))))
        (sid_json (tracer w)) (quote (toUpperCase layer))
        (quote (toUpperCase label +:+ "_FAILED")) dat1 in
    w1 = written f (start_line +:+ newline) (ticked (ticked w)) /\
    single_line start_line = true /\ single_line failed_line = true /\
    TracerJs.traceSpan layer label fn meta w
    = (Throw e, written f (failed_line +:+ newline) (ticked (ticked w2))).
Proof.
  intros startTime w1 Hi Hf He Hd Hr Hs Hle Hok Hfn Ht2 He2 Henv2 Hok2.
  destruct (declared_level_stringify _ _ Hd) as [dat0 Hdat0].
  set (failed := VObj (obj_set
                         (obj_set (spread (default_object meta)) "durationMs"
                            (VNum (clock w2 (ticks w2) - startTime)))
                         "error" (VStr (message e)))).
  assert (declared_level failed = Some lvl) as Hd1
    by now apply declared_level_failed.
  destruct (declared_level_stringify _ _ Hd1) as [dat1 Hdat1].
  exists dat0, dat1. split; [assumption|]. split; [assumption|].
  destruct (trace_line_five_fields (clock w (S (ticks w))) (tracer w)
              layer (label +:+ "_START") meta dat0 Hdat0) as [Hl0 H0].
  destruct (trace_line_five_fields (clock w2 (S (ticks w2))) (tracer w)
              layer (label +:+ "_FAILED") failed dat1 Hdat1) as [Hl1 H1].
  unfold toUpperCase in Hl0, H0, Hl1, H1. rewrite map_string_app in Hl0, H0, Hl1, H1.
  change (map_string upper_char "_START") with "_START" in Hl0, H0.
  change (map_string upper_char "_FAILED") with "_FAILED" in Hl1, H1.
  fold (toUpperCase layer) in Hl0, H0, Hl1, H1.
  fold (toUpperCase label) in Hl0, H0, Hl1, H1.
  cbv zeta. rewrite <- Hl0, <- Hl1.
  split; [reflexivity|]. split; [assumption|]. split; [assumption|].
  unfold TracerJs.traceSpan. unfold_monad. rewrite He.
  change (negb true) with false. cbv iota.
  unfold Date_now at 1. cbv beta iota.
  assert (default_object (default_object meta) = default_object meta) as Hdd
    by (now destruct meta).
  rewrite (record_admitted layer (label +:+ "_START") (default_object meta)
             (ticked w) f lvl r s);
    try assumption.
  2: { unfold declared_level. rewrite Hdd. exact Hd. }
  unfold trace_line at 1. rewrite Hdd. fold (trace_line (clock w (S (ticks w)))
    (tracer w) layer (label +:+ "_START") meta).
  unfold try_catch at 1.
  change (written f _ (ticked (ticked w))) with w1. rewrite Hfn.
  unfold Date_now. cbv beta iota.
  rewrite (record_admitted layer (label +:+ "_FAILED") failed
             (ticked w2) f lvl r s);
    try assumption.
  - simpl. now rewrite Ht2.
  - simpl. now rewrite Ht2.
  - simpl. now rewrite Ht2.
  - unfold system_level in *. simpl. now rewrite Henv2.
Qed.

End SpanClaims.

Section InitializeClaims.
Context `{P : Platform}.

(** C4, amended.  When [initialize] succeeds (the directory is made, the
    trace file path is set) at a moment where tracing is enabled and the
    system level admits info events, exactly one SYSTEM/TRACER_READY line
    is appended to the trace file (the file system taking the write); its
    metadata carries the session id, the environment name and the Node
    version. *)
Theorem initialize_emits_ready (root : string) (ns : option string)
    (w : World) (s : Z) :
  let dir := path_join [root; "logs"; "traces"] in
  let file :=
    path_join [dir;
               default "plnexus" ns +:+ "-" +:+
               toLocaleDateString_enCA (clock w (ticks w)) +:+ ".trace.log"] in
  let sid := toUpperCase (js_substring 2 9 (entropy w (draws w))) in
  isInitialized (tracer w) = false ->
  enableTracing w = true ->
  verbosity (system_level w) = Some s -> 2 <= s ->
  fs_fault w dir = None -> fs_fault w file = None ->
  exists w',
    TracerJs.initialize root ns w = (Ret tt, w') /\
    isInitialized (tracer w') = true /\
    traceFile (tracer w') = Some file /\
    sessionID (tracer w') = Some sid /\
    let line :=
      five_fields (quote (toISOString (clock w (S (ticks w))))) (quote sid)
        (quote "SYSTEM") (quote "TRACER_READY") (ready_json sid (node_env w)) in
    single_line line = true /\
    files w' = <[ file := default EmptyString (files w !! file) +:+ line
                          +:+ newline ]> (files w).
Proof.
  intros dir file sid Hi He Hs Hle Hdir Hfile.
  set (t1 := {| projectRoot := Some root; traceFile := Some file;
                isInitialized := true; sessionID := Some sid |}).
  set (w4 := with_tracer t1
               (ticked (with_dirs ({[ dir ]} ∪ dirs w)
                          (with_draws (S (draws w)) w)))).
  set (data := VObj [("sid", VStr sid); ("env", VStr (node_env w));
                     ("node", VStr process_version)]).
  assert (Hrec := record_admitted "SYSTEM" "TRACER_READY" data w4 file
                    "info" 2 s eq_refl eq_refl He eq_refl eq_refl Hs Hle Hfile).
  change (clock w4 (ticks w4)) with (clock w (S (ticks w))) in Hrec.
  change (tracer w4) with t1 in Hrec.
  assert (stringify (default_object data) = Some (ready_json sid (node_env w)))
    as Hdat
    by (unfold data; simpl default_object; rewrite stringify_object;
        reflexivity).
  destruct (trace_line_five_fields (clock w (S (ticks w))) t1
              "SYSTEM" "TRACER_READY" data _ Hdat) as [Hline Hone].
  exists (written file
            (trace_line (clock w (S (ticks w))) t1 "SYSTEM" "TRACER_READY" data)
            (ticked w4)).
  split; [|split; [reflexivity|split; [reflexivity|split; [reflexivity|]]]].
  - unfold TracerJs.initialize, try_catch. unfold_monad. rewrite Hi.
    unfold Math_random_base36, mkdir, Date_now. cbn beta iota.
    match goal with
    | |- context [fs_fault ?W ?p] =>
        change (fs_fault W p) with (fs_fault w dir)
    end.
    rewrite Hdir. cbn beta iota.
    match goal with
    | |- context [TracerJs.record ?a ?b ?d ?W] =>
        change (TracerJs.record a b d W)
          with (TracerJs.record "SYSTEM" "TRACER_READY" data w4)
    end.
    now rewrite Hrec.
  - cbv zeta. split; [exact Hone|].
    rewrite Hline. reflexivity.
Qed.

End InitializeClaims.

(** C1, at work: a failing operation, tracing off. *)
Lemma traceSpan_disabled_witness :
  TracerJs.traceSpan (P:=Demo.platform) "CLI" "OP" Demo.failing VUndefined
    (Demo.start None [] [])
  = Demo.failing (Demo.start None [] [])
  /\ files (TracerJs.traceSpan (P:=Demo.platform) "CLI" "OP" Demo.failing
              VUndefined (Demo.start None [] [])).2
     = files (Demo.failing (Demo.start None [] [])).2.
Proof.
  apply (traceSpan_disabled (P:=Demo.platform) "CLI" "OP" Demo.failing
           VUndefined (Demo.start None [] [])).
  reflexivity.
Defined.

(** C6, at work: a second call with another root and namespace. *)
Lemma initialize_idempotent_witness :
  let w1 := (TracerJs.initialize (P:=Demo.platform) "/app" None
               (Demo.start None [] [])).2 in
  TracerJs.initialize (P:=Demo.platform) "/elsewhere" (Some "other") w1
  = (Ret tt, w1)
  /\ traceFile (tracer (TracerJs.initialize (P:=Demo.platform) "/elsewhere"
                          (Some "other") w1).2)
     = traceFile (tracer w1)
  /\ sessionID (tracer (TracerJs.initialize (P:=Demo.platform) "/elsewhere"
                          (Some "other") w1).2)
     = sessionID (tracer w1).
Proof.
  cbv zeta.
  apply (initialize_idempotent (P:=Demo.platform) "/app" "/elsewhere" None
           (Some "other") (Demo.start None [] [])); reflexivity.
Defined.

(** C3, at work. *)
Lemma traceSpan_failure_witness :
  exists line : string,
    single_line line = true /\
    TracerJs.traceSpan (P:=Demo.platform) "cli" "op" Demo.failing
      (VObj [("symbol", VStr "spx")]) (Demo.tracing None)
    = (Throw (new_Error "Upstream unreachable"),
       written Demo.trace_path (line +:+ newline)
         (ticked (ticked
            (written Demo.trace_path
               (trace_line (P:=Demo.platform) 1007 (tracer (Demo.tracing None))
                  "cli" "op_START" (VObj [("symbol", VStr "spx")]))
               (ticked (ticked (Demo.tracing None))))))).
Proof.
  destruct (traceSpan_failure (P:=Demo.platform) "cli" "op" Demo.failing
              (VObj [("symbol", VStr "spx")]) (Demo.tracing None)
              (written Demo.trace_path
                 (trace_line (P:=Demo.platform) 1007
                    (tracer (Demo.tracing None)) "cli" "op_START"
                    (VObj [("symbol", VStr "spx")]))
                 (ticked (ticked (Demo.tracing None))))
              Demo.trace_path "info" 2 2 (new_Error "Upstream unreachable")
              eq_refl eq_refl eq_refl eq_refl eq_refl eq_refl
              (Z.le_refl 2) eq_refl eq_refl eq_refl eq_refl eq_refl eq_refl)
    as [dat0 [dat1 [_ [_ [_ [_ [H1 Hspan]]]]]]].
  eexists. split; [exact H1 | exact Hspan].
Defined.

(** C3, as stated, fails under [LOG_LEVEL=warn]: the tracer is initialized,
    tracing is enabled, the operation fails and its failure is raised, but
    no line at all is written. *)
Lemma traceSpan_failure_filtered :
  let w := Demo.tracing (Some "warn") in
  let r := TracerJs.traceSpan (P:=Demo.platform) "cli" "op" Demo.failing
             (VObj [("symbol", VStr "spx")]) w in
  isInitialized (tracer w) = true /\ enableTracing w = true /\
  r.1 = Throw (new_Error "Upstream unreachable") /\
  files r.2 = files w /\ files r.2 !! Demo.trace_path = None.
Proof. cbv zeta. repeat split. Qed.

(** C4, at work. *)
Lemma initialize_emits_ready_witness :
  exists w',
    TracerJs.initialize (P:=Demo.platform) "/app" None
      (with_enableTracing true (Demo.start None [] [])) = (Ret tt, w') /\
    isInitialized (tracer w') = true /\
    traceFile (tracer w') = Some Demo.trace_path /\
    sessionID (tracer w') = Some "4FZYO82" /\
    let line :=
      five_fields (quote (@toISOString Demo.platform 1007)) (quote "4FZYO82")
        (quote "SYSTEM") (quote "TRACER_READY")
        (ready_json (P:=Demo.platform) "4FZYO82" "development") in
    single_line line = true /\
    files w' = <[ Demo.trace_path := line +:+ newline ]> Demo.disk.
Proof.
  apply (initialize_emits_ready (P:=Demo.platform) "/app" None
           (with_enableTracing true (Demo.start None [] [])) 2);
    reflexivity || lia.
Defined.

(** C4, as stated, fails, and fails at bootstrap: [bootstrap] begins with
    [initialize PROJECT_ROOT] in the process as Node starts it, where
    tracing is still off (it is [hydrate], called next, that may switch it
    on).  The initialization succeeds and writes no TRACER_READY line,
    whatever the environment asks for; in a whole run with tracing
    requested the trace holds the spans and no TRACER_READY. *)
Lemma initialize_at_bootstrap_silent :
  let w := Demo.start None ["--mock"; "SPX"] [] in
  let w' := (TracerJs.initialize (P:=Demo.platform)
               (@PROJECT_ROOT Demo.platform) None w).2 in
  let run := Main.main (P:=Demo.platform) (fun _ => ret VNull)
               (fun _ s => ret (VStr s)) (fun _ => ret tt) w in
  env w !! "ENABLE_TRACING" = Some "true" /\
  isInitialized (tracer w') = true /\
  traceFile (tracer w') = Some Demo.trace_path /\
  files w' = files w /\ files w' !! Demo.trace_path = None /\
  run.1 = Ret tt /\ enableTracing run.2 = true /\
  (includes "BOOTSTRAP_SEQUENCE_START" <$> files run.2 !! Demo.trace_path)
  = Some true /\
  (includes "TRACER_READY" <$> files run.2 !! Demo.trace_path) = Some false.
Proof. cbv zeta. repeat split; vm_compute; reflexivity. Qed.

(** ** [MarketQuote] *)

(** C8.  Constructing a quote with price -1 fails (with the price error
    when the symbol is valid); with price 0 and the other fields valid it
    succeeds; and whenever construction succeeds the stored symbol is the
    upper-casing of the symbol given. *)
Theorem MarketQuote_price_and_symbol :
  (forall p, MarketQuoteJs.price p = VNum (-1) ->
             exists e, MarketQuoteJs.constructor p = Throw e)
  /\ (forall s ts src, s <> EmptyString ->
        MarketQuoteJs.constructor
          {| MarketQuoteJs.symbol := VStr s; MarketQuoteJs.price := VNum (-1);
             MarketQuoteJs.timestamp := ts; MarketQuoteJs.source := src |}
        = Throw (new_Error ("[Entity] MarketQuote for " +:+ s +:+
                            " has an invalid price: -1")))
  /\ (forall s ts src, s <> EmptyString -> ts <> 0 ->
        MarketQuoteJs.constructor
          {| MarketQuoteJs.symbol := VStr s; MarketQuoteJs.price := VNum 0;
             MarketQuoteJs.timestamp := VNum ts; MarketQuoteJs.source := src |}
        = Ret {| MarketQuoteJs.this_symbol := toUpperCase s;
                 MarketQuoteJs.this_price := VNum 0;
                 MarketQuoteJs.this_timestamp := VNum ts;
                 MarketQuoteJs.this_source := js_or src (VStr "UNKNOWN") |})
  /\ (forall p q, MarketQuoteJs.constructor p = Ret q ->
        exists s, MarketQuoteJs.symbol p = VStr s
                  /\ MarketQuoteJs.this_symbol q = toUpperCase s).
Proof.
  repeat split.
  - intros p Hp. unfold MarketQuoteJs.constructor. rewrite Hp.
    destruct (negb (truthy (MarketQuoteJs.symbol p)) || _); eauto.
  - intros s ts src Hs. unfold MarketQuoteJs.constructor. simpl.
    destruct (String.eqb_spec s EmptyString); [contradiction | reflexivity].
  - intros s ts src Hs Hts. unfold MarketQuoteJs.constructor. simpl.
    destruct (String.eqb_spec s EmptyString); [contradiction|]. simpl.
    destruct (Z.eqb_spec ts 0); [contradiction | reflexivity].
  - intros p q. unfold MarketQuoteJs.constructor.
    destruct (negb (truthy (MarketQuoteJs.symbol p)) || _); [discriminate|].
    destruct (negb (String.eqb (typeof (MarketQuoteJs.price p)) "number") || _);
      [discriminate|].
    destruct (negb (truthy (MarketQuoteJs.timestamp p)) || _); [discriminate|].
    destruct (MarketQuoteJs.symbol p) as [ | | | | |s| | | | ]; try discriminate.
    intros [= <-]. exists s. split; reflexivity.
Qed.

(** C8, at work. *)
Lemma MarketQuote_price_and_symbol_witness :
  MarketQuoteJs.constructor
    {| MarketQuoteJs.symbol := VStr "spx"; MarketQuoteJs.price := VNum 0;
       MarketQuoteJs.timestamp := VNum 1766400000000;
       MarketQuoteJs.source := VStr "Test" |}
  = Ret {| MarketQuoteJs.this_symbol := "SPX";
           MarketQuoteJs.this_price := VNum 0;
           MarketQuoteJs.this_timestamp := VNum 1766400000000;
           MarketQuoteJs.this_source := VStr "Test" |}.
Proof.
  apply (proj1 (proj2 (proj2 MarketQuote_price_and_symbol))
           "spx" 1766400000000 (VStr "Test")); discriminate.
Defined.

(** C10.  A quote with timestamp 0, a valid number, the other fields
    valid, is refused: a falsy timestamp fails the check. *)
Theorem MarketQuote_zero_timestamp (s : string) (price : Z) (src : value) :
  s <> EmptyString -> 0 <= price ->
  MarketQuoteJs.constructor
    {| MarketQuoteJs.symbol := VStr s; MarketQuoteJs.price := VNum price;
       MarketQuoteJs.timestamp := VNum 0; MarketQuoteJs.source := src |}
  = Throw (new_Error ("[Entity] MarketQuote for " +:+ s +:+
                      " requires a valid numerical timestamp.")).
Proof.
  intros Hs Hp. unfold MarketQuoteJs.constructor. simpl.
  destruct (String.eqb_spec s EmptyString); [contradiction|]. simpl.
  unfold js_lt, js_gt. simpl.
  destruct (Z.ltb_spec price 0); [lia | reflexivity].
Qed.

(** C10, at work. *)
Lemma MarketQuote_zero_timestamp_witness :
  MarketQuoteJs.constructor
    {| MarketQuoteJs.symbol := VStr "SPX"; MarketQuoteJs.price := VNum 6800;
       MarketQuoteJs.timestamp := VNum 0; MarketQuoteJs.source := VStr "Test" |}
  = Throw (new_Error
             "[Entity] MarketQuote for SPX requires a valid numerical timestamp.").
Proof.
  apply (MarketQuote_zero_timestamp "SPX" 6800 (VStr "Test"));
    [discriminate | lia].
Defined.

(** ** [AdapterFactory.loadAdapter] *)

Lemma prefix_app_l (p s b : string) :
  String.prefix p s = true -> String.prefix p (s +:+ b) = true.
Proof.
  revert s. induction p as [|c p IH]; intros s H.
  - now destruct (s +:+ b).
  - destruct s as [|d s]; [discriminate|].
    change (String d s +:+ b) with (String d (s +:+ b)).
    simpl in *. destruct (ascii_dec c d); [now apply IH | discriminate].
Qed.

Lemma prefix_refl (p : string) : String.prefix p p = true.
Proof.
  induction p as [|c p IH]; [reflexivity|].
  simpl. now destruct (ascii_dec c c).
Qed.

Lemma includes_prefix (p s : string) :
  String.prefix p s = true -> includes p s = true.
Proof. intros H. destruct s; simpl in *; now rewrite H. Qed.

Lemma includes_app_l (p s b : string) :
  includes p s = true -> includes p (s +:+ b) = true.
Proof.
  induction s as [|c s IH]; intros H.
  - simpl in H. rewrite orb_false_r in H.
    apply includes_prefix. now apply (prefix_app_l p EmptyString b).
  - change (String c s +:+ b) with (String c (s +:+ b)).
    simpl in H. apply orb_true_iff in H as [H|H].
    + apply includes_prefix. now apply (prefix_app_l p (String c s) b).
    + simpl. rewrite (IH H). apply orb_true_r.
Qed.

Lemma includes_app_r (p a s : string) :
  includes p s = true -> includes p (a +:+ s) = true.
Proof.
  intros H. induction a as [|c a IH]; [exact H|].
  change (String c a +:+ s) with (String c (a +:+ s)).
  simpl. rewrite IH. apply orb_true_r.
Qed.

Lemma includes_join (sep k : string) (l : list string) :
  k ∈ l -> includes k (join sep l) = true.
Proof.
  unfold join. induction 1 as [k l | k y l Hin IH].
  - destruct l as [|z l]; simpl.
    + apply includes_prefix, prefix_refl.
    + apply includes_app_l, includes_prefix, prefix_refl.
  - destruct l as [|z l]; [inversion Hin|].
    change (String.concat sep (y :: z :: l))
      with (y +:+ sep +:+ String.concat sep (z :: l)).
    now apply includes_app_r, includes_app_r.
Qed.

Lemma Object_keys_declared (ps : list (string * value)) (k : string) :
  k ∈ map fst ps -> k ∈ Object_keys (VObj ps).
Proof.
  intros Hk. apply list_elem_of_fmap in Hk as [p [-> Hp]].
  apply list_elem_of_fmap. exists p. split; [reflexivity|].
  now apply own_order_elem.
Qed.

Section LoadAdapter.
Context `{P : Platform}.
Variable getProviderConfig : value -> M value.

(** A mode that is neither declared in the manifest nor the name of a
    member inherited from [Object.prototype] is refused with a message
    that lists every declared mode. *)
Lemma loadAdapter_unknown_mode (this : AdapterFactoryJs.AdapterFactory)
    (mode : value) (w : World) (data : string) (manifest : value)
    (ps : list (string * value)) :
  fs_fault w (AdapterFactoryJs.manifestPath this) = None ->
  files w !! AdapterFactoryJs.manifestPath this = Some data ->
  JSON_parse data = inr manifest ->
  member manifest "adapters" = Ret (VObj ps) ->
  own ps (to_string mode) = None ->
  inherited (to_string mode) = None ->
  AdapterFactoryJs.loadAdapter getProviderConfig this mode w
  = (Throw (new_Error (undefined_mode_message mode ps)),
     with_journal (journal w ++ [("error", undefined_mode_message mode ps)]) w)
  /\ forall k, k ∈ map fst ps ->
               includes k (undefined_mode_message mode ps) = true.
Proof.
  intros Hok Hfile Hparse Hadapters Hown Hinh. split.
  - unfold AdapterFactoryJs.loadAdapter, AdapterFactoryJs._getManifest,
      try_catch, readFile.
    unfold_monad. rewrite Hok, Hfile, Hparse, Hadapters.
    cbn [member]. rewrite Hown, Hinh. reflexivity.
  - intros k Hk. unfold undefined_mode_message.
    do 9 apply includes_app_r.
    apply includes_app_l, includes_join, Object_keys_declared, Hk.
Qed.

End LoadAdapter.

(** C5, on the code: the mode [constructor] is absent from the manifest,
    which declares the modes 1 and 2, and [loadAdapter] fails for it; but
    [manifest.adapters["constructor"]] reads the inherited
    [Object.prototype.constructor], a function and so truthy, the check for
    an undefined mode is passed, and the failure comes from
    [isAbsolute(undefined)]: its message lists no mode. *)
Lemma loadAdapter_inherited_mode :
  let r := AdapterFactoryJs.loadAdapter (P:=Demo.platform)
             (fun _ => ret VNull) Demo.factory (VStr "constructor")
             (Demo.start None [] []) in
  let msg := "[AdapterFactory] Load failure for mode constructor: The " +:+
             dquote +:+ "path" +:+ dquote +:+
             " argument must be of type string. Received undefined" in
  (exists ps, member Demo.manifest "adapters" = Ret (VObj ps)
              /\ map fst ps = ["1"; "2"]
              /\ own ps "constructor" = None)
  /\ r.1 = Throw (new_Error msg)
  /\ includes "Available" msg = false
  /\ includes "1" msg = false /\ includes "2" msg = false.
Proof.
  cbv zeta. split; [|repeat split].
  eexists. repeat split.
Qed.

(** The same manifest and an unknown mode that is no inherited name: the
    message lists both declared modes. *)
Lemma loadAdapter_unknown_mode_demo :
  let r := AdapterFactoryJs.loadAdapter (P:=Demo.platform)
             (fun _ => ret VNull) Demo.factory (VStr "9")
             (Demo.start None [] []) in
  exists msg, r.1 = Throw (new_Error msg)
              /\ includes "1" msg = true /\ includes "2" msg = true
              /\ includes "Available: [1, 2]" msg = true.
Proof. cbv zeta. eexists. repeat split. Qed.

(** ** [bootstrap]: how mode and symbol are captured *)

Section Terminal.
Context `{P : Platform}.

(** [record] on an object returns, and leaves the terminal alone. *)
Lemma record_quiet (layer event : string) (ps : list (string * value))
    (w : World) :
  exists w', TracerJs.record layer event (VObj ps) w = (Ret tt, w')
             /\ stdout w' = stdout w /\ stdin w' = stdin w.
Proof.
  unfold TracerJs.record. unfold_monad.
  destruct (negb (isInitialized (tracer w)) || negb (enableTracing w));
    [now exists w|].
  simpl. destruct (js_gt _ _); [now exists w|].
  unfold try_catch, appendFile, logger, modify.
  destruct (traceFile (tracer w)) as [f|]; simpl; [|eauto].
  destruct (fs_fault w f); simpl; eauto.
Qed.

(** A span with object metadata comes to what its operation comes to, and
    the terminal sees the operation only. *)
Lemma traceSpan_transparent {A} (layer label : string) (fn : M A)
    (ps : list (string * value)) (w : World) :
  exists w1,
    stdout w1 = stdout w /\ stdin w1 = stdin w /\
    (TracerJs.traceSpan layer label fn (VObj ps) w).1 = (fn w1).1 /\
    stdout (TracerJs.traceSpan layer label fn (VObj ps) w).2 = stdout (fn w1).2.
Proof.
  unfold TracerJs.traceSpan. unfold_monad.
  destruct (enableTracing w); simpl; [|now exists w].
  destruct (record_quiet layer (label +:+ "_START") ps (ticked w))
    as [w1 [Hrec [Hout Hin]]].
  rewrite Hrec.
  exists w1. split; [exact Hout|]. split; [exact Hin|].
  unfold try_catch. destruct (fn w1) as [[a|e|c] w2]; simpl.
  - destruct (record_quiet layer (label +:+ "_COMPLETE")
                (obj_set ps "durationMs" (VNum (clock w2 (ticks w2) - clock w (ticks w))))
                (ticked w2)) as [w3 [Hrec3 [Hout3 _]]].
    rewrite Hrec3. now split.
  - destruct (record_quiet layer (label +:+ "_FAILED")
                (obj_set (obj_set ps "durationMs"
                            (VNum (clock w2 (ticks w2) - clock w (ticks w))))
                   "error" (VStr (message e)))
                (ticked w2)) as [w3 [Hrec3 [Hout3 _]]].
    rewrite Hrec3. now split.
  - now split.
Qed.

Lemma getInitialSelection_opens (w : World) :
  exists rest,
    stdout (MenuSystem.getInitialSelection w).2
    = stdout w ++ menu_opening ++ rest.
Proof.
  unfold MenuSystem.getInitialSelection, MenuSystem.displayHeader,
    MenuSystem.promptMode, MenuSystem.promptSymbol, try_catch, console_log,
    question.
  unfold_monad. simpl.
  destruct (stdin w) as [|answer typed]; simpl.
  { exists []. now rewrite <- !app_assoc. }
  destruct (String.eqb (toUpperCase (trim answer)) "Q"); simpl.
  { eexists. rewrite <- !app_assoc. simpl. reflexivity. }
  destruct (negb _); simpl.
  - destruct typed as [|answer2 typed]; simpl;
      eexists; rewrite <- !app_assoc; simpl; reflexivity.
  - destruct typed as [|answer2 typed]; simpl;
      eexists; rewrite <- !app_assoc; simpl; reflexivity.
Qed.

Lemma interactive_strategy_opens (w : World) :
  exists rest,
    stdout (Main.interactive_strategy w).2 = stdout w ++ menu_opening ++ rest.
Proof.
  unfold Main.interactive_strategy, try_finally, try_catch, MenuSystem.close.
  unfold_monad.
  change (default_object VUndefined) with (VObj []).
  destruct (traceSpan_transparent "CLI" "USER_INTERACTION"
              MenuSystem.getInitialSelection [] w)
    as [w1 [Hout [_ [Hres Hterm]]]].
  destruct (getInitialSelection_opens w1) as [rest Hopen].
  exists rest. rewrite <- Hout, <- Hopen, <- Hterm.
  change (TracerJs.traceSpan "CLI" "USER_INTERACTION"
            MenuSystem.getInitialSelection VUndefined w)
    with (TracerJs.traceSpan "CLI" "USER_INTERACTION"
            MenuSystem.getInitialSelection (VObj []) w).
  destruct (TracerJs.traceSpan "CLI" "USER_INTERACTION"
              MenuSystem.getInitialSelection (VObj []) w) as [[sel|e|c] w2];
    reflexivity.
Qed.

Lemma interactive_strategy_context (w w' : World) (ctx : Main.Context) :
  Main.interactive_strategy w = (Ret ctx, w') -> Main.isAutomated ctx = false.
Proof.
  unfold Main.interactive_strategy, try_finally, try_catch, MenuSystem.close.
  unfold_monad.
  destruct (TracerJs.traceSpan _ _ _ _ w) as [[sel|e|c] w2]; simpl;
    [|discriminate..].
  now intros [= <- _].
Qed.

(** How [bootstrap] chooses between its two strategies.  Without a help
    flag, the interactive prompt flow runs exactly when the command line
    has no argument at all: the menu is put on the terminal, up to its
    first question at least, and the context is not automated.  With any
    argument, a positional symbol alone included, the automated strategy
    is taken and nothing is asked; the mode it leaves is [null] when
    neither [--mock] nor [--live] is given. *)
Lemma capture_input_strategy (w : World) :
  Main.has "--help" (argv w) = false -> Main.has "-h" (argv w) = false ->
  (argv w = [] ->
     Main.capture_input w = Main.interactive_strategy w
     /\ (exists rest,
           stdout (Main.capture_input w).2 = stdout w ++ menu_opening ++ rest)
     /\ (forall ctx w', Main.capture_input w = (Ret ctx, w') ->
                        Main.isAutomated ctx = false))
  /\ (argv w <> [] ->
        Main.capture_input w = (Ret (Main.automated_strategy (argv w)), w)
        /\ Main.isAutomated (Main.automated_strategy (argv w)) = true
        /\ (Main.has "--mock" (argv w) = false -> Main.has "--live" (argv w) = false ->
            Main.mode (Main.automated_strategy (argv w)) = VNull)).
Proof.
  intros Hhelp Hh. split.
  - intros Hargs.
    assert (Main.capture_input w = Main.interactive_strategy w) as Heq.
    { unfold Main.capture_input. unfold_monad.
      rewrite Hhelp, Hh, Hargs. reflexivity. }
    split; [exact Heq|]. rewrite Heq. split.
    + apply interactive_strategy_opens.
    + intros ctx w'. apply interactive_strategy_context.
  - intros Hargs. split; [|split; [reflexivity|]].
    + unfold Main.capture_input. unfold_monad. rewrite Hhelp, Hh.
      destruct (argv w) as [|a args]; [contradiction | reflexivity].
    + intros Hmock Hlive. unfold Main.automated_strategy. simpl.
      now rewrite Hmock, Hlive.
Qed.

End Terminal.

(** C7, on the code.  The command line [node main.js SPX] holds neither
    [--live] nor [--mock], and the prompt flow the claim expects does not
    run: the automated strategy is taken because there is an argument, it
    leaves the mode [null], [loadAdapter] refuses that mode, and the run
    ends with status 1, nothing asked, nothing read and no [console.log]
    made, whatever the operator would have typed.  So does [--symbol=SPX], the
    command line of the repository's own test.  The sibling paths work:
    with [--mock] or [--live] before the symbol the mode is ["2"] or ["1"]
    and the same run completes, and with no argument at all the menu
    opens. *)
Theorem bootstrap_lone_symbol (typed : list string) :
  let start args := Demo.start None args typed in
  let captured args := Main.capture_input (P:=Demo.platform) (start args) in
  let run args :=
    Main.main (P:=Demo.platform) (fun _ => ret (VObj []))
      (fun _ s => ret (VStr s)) (fun _ => ret tt) (start args) in
  let refusal :=
    ("error", "Critical Unhandled Rejection: Error: " +:+
              undefined_mode_message VNull Demo.adapters) in
  Main.has "--live" ["SPX"] = false /\ Main.has "--mock" ["SPX"] = false
  /\ captured ["SPX"]
     = (Ret {| Main.mode := VNull; Main.symbol := VStr "SPX";
               Main.isAutomated := true |}, start ["SPX"])
  /\ (run ["SPX"]).1 = Exit 1
  /\ stdin (run ["SPX"]).2 = typed /\ stdout (run ["SPX"]).2 = []
  /\ last (journal (run ["SPX"]).2) = Some refusal
  /\ captured ["--symbol=SPX"]
     = (Ret {| Main.mode := VNull; Main.symbol := VUndefined;
               Main.isAutomated := true |}, start ["--symbol=SPX"])
  /\ (run ["--symbol=SPX"]).1 = Exit 1
  /\ stdin (run ["--symbol=SPX"]).2 = typed
  /\ last (journal (run ["--symbol=SPX"]).2) = Some refusal
  /\ captured ["--mock"; "SPX"]
     = (Ret {| Main.mode := VStr "2"; Main.symbol := VStr "SPX";
               Main.isAutomated := true |}, start ["--mock"; "SPX"])
  /\ (run ["--mock"; "SPX"]).1 = Ret tt
  /\ captured ["--live"; "SPX"]
     = (Ret {| Main.mode := VStr "1"; Main.symbol := VStr "SPX";
               Main.isAutomated := true |}, start ["--live"; "SPX"])
  /\ (run ["--live"; "SPX"]).1 = Ret tt
  /\ (exists rest, stdout (captured []).2 = menu_opening ++ rest).
Proof.
  cbv zeta.
  repeat (split; [vm_compute; reflexivity|]).
  destruct (proj1 (capture_input_strategy (P:=Demo.platform)
                     (Demo.start None [] typed) eq_refl eq_refl) eq_refl)
    as [_ [Hopen _]].
  exact Hopen.
Qed.

(** * Further properties of the sources *)

#[local] Arguments String.eqb : simpl nomatch.

(** ** [Tracer]: what tracing leaves alone *)

Section TracerFrame.
Context `{P : Platform}.

Lemma record_object_frame (layer event : string) (ps : list (string * value))
    (w : World) :
  exists w', TracerJs.record layer event (VObj ps) w = (Ret tt, w')
    /\ tracer w' = tracer w /\ enableTracing w' = enableTracing w
    /\ env w' = env w /\ argv w' = argv w /\ dirs w' = dirs w
    /\ draws w' = draws w /\ stdin w' = stdin w /\ stdout w' = stdout w
    /\ fs_fault w' = fs_fault w
    /\ forall p, traceFile (tracer w) <> Some p -> files w' !! p = files w !! p.
Proof.
  unfold TracerJs.record. unfold_monad.
  destruct (negb (isInitialized (tracer w)) || negb (enableTracing w)).
  { exists w. repeat split. }
  simpl. destruct (js_gt _ _).
  { exists w. repeat split. }
  unfold try_catch, appendFile, logger, modify.
  destruct (traceFile (tracer w)) as [f|]; simpl.
  - destruct (fs_fault w f); simpl; eexists; (split; [reflexivity|]);
      repeat split.
    intros p Hp. simpl. apply lookup_insert_ne. congruence.
  - eexists. split; [reflexivity|]. repeat split.
Qed.

(** X1.  [record] on object metadata always returns; it raises nothing
    and ends nothing, and it never changes the tracer, the tracing switch,
    the environment, the arguments or the pending input.  Either the
    logger is not called, and then what [console.log] printed, the
    directories, the random draws and every file other than the trace file
    are as before; or the write failed, the logger is called once, at
    error level, with a [Tracer Error] text, and the trace file has
    received nothing. *)
Theorem record_leaves_rest (layer event : string) (ps : list (string * value))
    (w : World) :
  exists w', TracerJs.record layer event (VObj ps) w = (Ret tt, w')
    /\ tracer w' = tracer w /\ enableTracing w' = enableTracing w
    /\ env w' = env w /\ argv w' = argv w /\ stdin w' = stdin w
    /\ ((journal w' = journal w /\ stdout w' = stdout w /\ dirs w' = dirs w
         /\ draws w' = draws w
         /\ forall p, traceFile (tracer w) <> Some p ->
                      files w' !! p = files w !! p)
        \/ (exists msg,
              journal w' = journal w ++ [("error", "[Tracer Error]: " +:+ msg)]
              /\ forall f, traceFile (tracer w) = Some f ->
                           files w' !! f = files w !! f)).
Proof.
  unfold TracerJs.record. unfold_monad.
  destruct (negb (isInitialized (tracer w)) || negb (enableTracing w)).
  { exists w. repeat split. left. repeat split. }
  simpl. destruct (js_gt _ _).
  { exists w. repeat split. left. repeat split. }
  unfold try_catch, appendFile, logger, modify.
  destruct (traceFile (tracer w)) as [f|]; simpl.
  - destruct (fs_fault w f) as [e|]; simpl; eexists;
      (split; [reflexivity|]); repeat split.
    + right. exists (message e). split; [reflexivity|]. intros f' _. reflexivity.
    + left. repeat split.
      intros p Hp. simpl. apply lookup_insert_ne. congruence.
  - eexists. split; [reflexivity|]. repeat split.
    right. eexists. split; [reflexivity|]. intros f' Hf. discriminate.
Qed.

(** X2.  When the append fails, [record] still returns: the failure goes
    to the logger as one [Tracer Error] entry carrying its message, the
    trace file receives nothing, and the clock has been read once. *)
Theorem record_io_failure (layer event : string) (data : value) (w : World)
    (f lvl : string) (r s : Z) (e : error) :
  isInitialized (tracer w) = true -> traceFile (tracer w) = Some f ->
  enableTracing w = true ->
  declared_level data = Some lvl -> verbosity lvl = Some r ->
  verbosity (system_level w) = Some s -> r <= s ->
  fs_fault w f = Some e ->
  exists w',
    TracerJs.record layer event data w = (Ret tt, w')
    /\ journal w' = journal w ++ [("error", "[Tracer Error]: " +:+ message e)]
    /\ files w' !! f = files w !! f
    /\ ticks w' = S (ticks w)
    /\ tracer w' = tracer w /\ stdin w' = stdin w.
Proof.
  intros Hi Hf He Hd Hr Hs Hle Hfault.
  destruct (declared_level_member data lvl Hd (verbosity_nonempty _ _ Hr))
    as [lv [Hm Hlv]].
  rewrite (record_on _ _ _ lv) by assumption.
  rewrite Hlv, (effective_level_system _ _ Hs).
  rewrite (level_value_known _ _ Hr), (level_value_known _ _ Hs), js_gt_numbers.
  replace (s <? r) with false by (symmetry; apply Z.ltb_ge, Hle).
  unfold try_catch, appendFile. rewrite Hf. simpl. rewrite Hfault.
  eexists. split; [reflexivity|]. repeat split.
Qed.

(** X3.  A span with object metadata (or none) comes to exactly what its
    operation comes to, value, error or exit, whether tracing is on or
    off, whatever the level, and whether or not the trace file can be
    written; the operation is run in a process whose tracer, tracing
    switch, environment, arguments and pending input are those of the
    call. *)
Theorem traceSpan_keeps_outcome {A} (layer label : string) (fn : M A)
    (meta : value) (ps : list (string * value)) (w : World) :
  default_object meta = VObj ps ->
  exists w1,
    tracer w1 = tracer w /\ enableTracing w1 = enableTracing w /\
    env w1 = env w /\ argv w1 = argv w /\ stdin w1 = stdin w /\
    (TracerJs.traceSpan layer label fn meta w).1 = (fn w1).1.
Proof.
  intros Hmeta.
  assert (TracerJs.traceSpan layer label fn meta w
          = TracerJs.traceSpan layer label fn (VObj ps) w) as ->.
  { unfold TracerJs.traceSpan. now rewrite Hmeta. }
  unfold TracerJs.traceSpan. unfold_monad.
  destruct (enableTracing w) eqn:He; simpl; [|exists w; repeat split; exact He].
  destruct (record_object_frame layer (label +:+ "_START") ps (ticked w))
    as [w1 [Hrec [Ht [Hen [Henv [Hargv [_ [_ [Hin _]]]]]]]]].
  rewrite Hrec.
  exists w1. split; [exact Ht|]. split; [now rewrite Hen|].
  split; [exact Henv|]. split; [exact Hargv|]. split; [exact Hin|].
  unfold try_catch. destruct (fn w1) as [[a|e|c] w2]; simpl.
  - destruct (record_object_frame layer (label +:+ "_COMPLETE")
                (obj_set ps "durationMs"
                   (VNum (clock w2 (ticks w2) - clock w (ticks w))))
                (ticked w2)) as [w3 [Hrec3 _]].
    now rewrite Hrec3.
  - destruct (record_object_frame layer (label +:+ "_FAILED")
                (obj_set (obj_set ps "durationMs"
                            (VNum (clock w2 (ticks w2) - clock w (ticks w))))
                   "error" (VStr (message e)))
                (ticked w2)) as [w3 [Hrec3 _]].
    now rewrite Hrec3.
  - reflexivity.
Qed.

(** X4.  With [null] for metadata, tracing on and the tracer initialized, the
    span fails on reading [data.level] in its START record and the
    operation is never run. *)
Theorem traceSpan_null_meta {A} (layer label : string) (fn : M A) (w : World) :
  isInitialized (tracer w) = true -> enableTracing w = true ->
  TracerJs.traceSpan layer label fn VNull w
  = (Throw (new_Error "Cannot read properties of null (reading 'level')"),
     ticked w).
Proof.
  intros Hi He. unfold TracerJs.traceSpan, TracerJs.record. unfold_monad.
  rewrite He. simpl. rewrite Hi, He. reflexivity.
Qed.

Lemma declared_level_complete (meta : value) (lvl : string) (d : Z) :
  declared_level meta = Some lvl ->
  declared_level
    (VObj (obj_set (spread (default_object meta)) "durationMs" (VNum d)))
  = Some lvl.
Proof.
  unfold declared_level.
  destruct (default_object meta) as [ | | | | | | |ps| | ]; try discriminate.
  simpl. now rewrite own_obj_set_other by discriminate.
Qed.

(** X5.  On an operation that succeeds, with the tracer initialized, tracing
    enabled and the level of the span admitted, [traceSpan] writes two
    lines, <LABEL>_START before the operation and <LABEL>_COMPLETE after
    it, the second carrying the metadata and the duration, measured from
    the reading of the clock before START to the one after the operation;
    it returns the result of the operation. *)
Theorem traceSpan_success {A} (layer label : string) (fn : M A) (meta : value)
    (w w2 : World) (f lvl : string) (r s : Z) (a : A) :
  let startTime := clock w (ticks w) in
  let w1 :=
    written f (trace_line (clock w (S (ticks w))) (tracer w) layer
                 (label +:+ "_START") meta) (ticked (ticked w)) in
  isInitialized (tracer w) = true -> traceFile (tracer w) = Some f ->
  enableTracing w = true ->
  declared_level meta = Some lvl -> verbosity lvl = Some r ->
  verbosity (system_level w) = Some s -> r <= s ->
  fs_fault w f = None ->
  fn w1 = (Ret a, w2) ->
  tracer w2 = tracer w -> enableTracing w2 = true ->
  env w2 !! "LOG_LEVEL" = env w !! "LOG_LEVEL" -> fs_fault w2 f = None ->
  exists dat,
    stringify
      (VObj (obj_set (spread (default_object meta)) "durationMs"
               (VNum (clock w2 (ticks w2) - startTime)))) = Some dat /\
    let complete_line :=
      five_fields (quote (toISOString (clock w2 (S (ticks w2)))))
        (sid_json (tracer w)) (quote (toUpperCase layer))
        (quote (toUpperCase label +:+ "_COMPLETE")) dat in
    single_line complete_line = true /\
    TracerJs.traceSpan layer label fn meta w
    = (Ret a, written f (complete_line +:+ newline) (ticked (ticked w2))).
Proof.
  intros startTime w1 Hi Hf He Hd Hr Hs Hle Hok Hfn Ht2 He2 Henv2 Hok2.
  set (done := VObj (obj_set (spread (default_object meta)) "durationMs"
                       (VNum (clock w2 (ticks w2) - startTime)))).
  assert (declared_level done = Some lvl) as Hd1
    by now apply declared_level_complete.
  destruct (declared_level_stringify _ _ Hd1) as [dat Hdat].
  exists dat. split; [assumption|].
  destruct (trace_line_five_fields (clock w2 (S (ticks w2))) (tracer w)
              layer (label +:+ "_COMPLETE") done dat Hdat) as [Hl1 H1].
  unfold toUpperCase in Hl1, H1. rewrite map_string_app in Hl1, H1.
  change (map_string upper_char "_COMPLETE") with "_COMPLETE" in Hl1, H1.
  fold (toUpperCase layer) in Hl1, H1. fold (toUpperCase label) in Hl1, H1.
  cbv zeta. rewrite <- Hl1. split; [assumption|].
  unfold TracerJs.traceSpan. unfold_monad. rewrite He.
  change (negb true) with false. cbv iota.
  unfold Date_now at 1. cbv beta iota.
  assert (default_object (default_object meta) = default_object meta) as Hdd
    by (now destruct meta).
  rewrite (record_admitted layer (label +:+ "_START") (default_object meta)
             (ticked w) f lvl r s);
    try assumption.
  2: { unfold declared_level. rewrite Hdd. exact Hd. }
  unfold trace_line at 1. rewrite Hdd. fold (trace_line (clock w (S (ticks w)))
    (tracer w) layer (label +:+ "_START") meta).
  unfold try_catch at 1.
  change (written f _ (ticked (ticked w))) with w1. rewrite Hfn.
  unfold Date_now. cbv beta iota.
  rewrite (record_admitted layer (label +:+ "_COMPLETE") done
             (ticked w2) f lvl r s);
    try assumption.
  - simpl. now rewrite Ht2.
  - simpl. now rewrite Ht2.
  - simpl. now rewrite Ht2.
  - unfold system_level in *. simpl. now rewrite Henv2.
Qed.

End TracerFrame.

(** ** [Tracer.initialize]: failure and the session id *)

Lemma upper_char_idempotent (c : ascii) : upper_char (upper_char c) = upper_char c.
Proof. destruct c as [[] [] [] [] [] [] [] []]; reflexivity. Qed.

Lemma toUpperCase_idempotent (s : string) :
  toUpperCase (toUpperCase s) = toUpperCase s.
Proof.
  unfold toUpperCase. induction s as [|c s IH]; simpl; [reflexivity|].
  now rewrite upper_char_idempotent, IH.
Qed.

Lemma map_string_length (g : ascii -> ascii) (s : string) :
  String.length (map_string g s) = String.length s.
Proof. induction s as [|c s IH]; simpl; [reflexivity | now rewrite IH]. Qed.

Lemma substring_length_le (n m : nat) (s : string) :
  (String.length (String.substring n m s) <= m)%nat.
Proof.
  revert n m. induction s as [|c s IH]; intros [|n] [|m]; simpl; try lia.
  - specialize (IH 0%nat m). lia.
  - apply (IH n 0%nat).
  - apply (IH n (S m)).
Qed.

Section InitializeMore.
Context `{P : Platform}.

(** X6.  When the directory cannot be made, [initialize] returns without
    raising: the failure is logged once, at error level, and the tracer
    stays uninitialized with its trace file path as it was, though the
    project root and a session id, from one random draw, have been
    stored. *)
Theorem initialize_mkdir_failure (root : string) (ns : option string)
    (w : World) (e : error) :
  isInitialized (tracer w) = false ->
  fs_fault w (path_join [root; "logs"; "traces"]) = Some e ->
  exists w',
    TracerJs.initialize root ns w = (Ret tt, w') /\
    isInitialized (tracer w') = false /\
    traceFile (tracer w') = traceFile (tracer w) /\
    projectRoot (tracer w') = Some root /\
    sessionID (tracer w')
    = Some (toUpperCase (js_substring 2 9 (entropy w (draws w)))) /\
    draws w' = S (draws w) /\
    journal w'
    = journal w ++ [("error", "[Tracer] Initialization Failure: " +:+ message e)].
Proof.
  intros Hi Hfault.
  unfold TracerJs.initialize, try_catch. unfold_monad. rewrite Hi.
  unfold Math_random_base36, mkdir. cbn beta iota.
  match goal with
  | |- context [fs_fault ?W ?p] =>
      change (fs_fault W p)
        with (fs_fault w (path_join [root; "logs"; "traces"]))
  end.
  rewrite Hfault. cbn beta iota.
  eexists. split; [reflexivity|]. simpl. rewrite Hi. repeat split.
Qed.

(** X7.  [initialize] never raises and never ends the process, whatever the
    file system does. *)
Theorem initialize_never_throws (root : string) (ns : option string)
    (w : World) :
  exists w', TracerJs.initialize root ns w = (Ret tt, w').
Proof.
  unfold TracerJs.initialize, try_catch. unfold_monad.
  destruct (isInitialized (tracer w)); [eauto|].
  unfold Math_random_base36, mkdir, Date_now. cbn beta iota.
  match goal with
  | |- context [match fs_fault ?W ?p with _ => _ end] =>
      destruct (fs_fault W p)
  end; cbn beta iota.
  - unfold logger, modify. eauto.
  - match goal with
    | |- context [TracerJs.record ?a ?b (VObj ?d) ?W] =>
        destruct (record_object_frame a b d W) as [w' [Hrec _]]
    end.
    rewrite Hrec. eauto.
Qed.

(** X8.  After a call on an uninitialized tracer the session id is a token of
    at most seven characters, the characters 2 to 8 of the random text,
    in upper case; this holds whether or not the initialization succeeds. *)
Theorem initialize_session_id (root : string) (ns : option string)
    (w : World) :
  isInitialized (tracer w) = false ->
  let sid := toUpperCase (js_substring 2 9 (entropy w (draws w))) in
  sessionID (tracer (TracerJs.initialize root ns w).2) = Some sid
  /\ (String.length sid <= 7)%nat
  /\ toUpperCase sid = sid.
Proof.
  intros Hi sid. split; [|split].
  - unfold TracerJs.initialize, try_catch. unfold_monad. rewrite Hi.
    unfold Math_random_base36, mkdir, Date_now. cbn beta iota.
    match goal with
    | |- context [match fs_fault ?W ?p with _ => _ end] =>
        destruct (fs_fault W p)
    end; cbn beta iota.
    + reflexivity.
    + match goal with
      | |- context [TracerJs.record ?a ?b (VObj ?d) ?W] =>
          destruct (record_object_frame a b d W) as [w' [Hrec [Ht _]]]
      end.
      rewrite Hrec. simpl. rewrite Ht. reflexivity.
  - unfold sid, toUpperCase, js_substring. rewrite map_string_length.
    apply (substring_length_le 2 7).
  - apply toUpperCase_idempotent.
Qed.

End InitializeMore.

(** ** [EnvironmentService.hydrate] *)

Section Hydrate.
Context `{P : Platform}.
Variable ENV_PATH : string.

Lemma dotenv_keeps (l : list (string * string)) (e : gmap string string)
    (k v : string) :
  e !! k = Some v ->
  fold_left (fun e (kv : string * string) =>
               match e !! kv.1 with
               | Some _ => e
               | None => <[ kv.1 := kv.2 ]> e
               end) l e !! k = Some v.
Proof.
  revert e. induction l as [|kv l IH]; intros e He; [exact He|].
  simpl. apply IH.
  destruct (e !! kv.1) eqn:Hkv; [exact He|].
  rewrite lookup_insert_ne; [exact He|]. congruence.
Qed.

(** X9.  [hydrate] never raises.  When the [.env] file is missing or
    cannot be read, tracing is switched off whatever [ENABLE_TRACING]
    holds, and the environment is as it was.  When it is read, the
    variables already set keep their value, and tracing is on exactly when
    [ENABLE_TRACING], as the environment holds it after the file is
    loaded, reads [true] in any letter case.  The tracer is never touched,
    and the status line logged last is the uninterpolated template text. *)
Theorem hydrate_flag (w : World) :
  let status := ("info",
                 "[Environment] Tracing Status: ${this.#config.enableTracing}") in
  (fs_fault w ENV_PATH <> None \/ files w !! ENV_PATH = None ->
   exists w',
     EnvironmentService.hydrate ENV_PATH w = (Ret tt, w') /\
     enableTracing w' = false /\ env w' = env w /\ tracer w' = tracer w /\
     journal w'
     = journal w ++
       [("info", "[Environment] No .env file found at " +:+ ENV_PATH +:+
                 ". Proceeding with system shell variables."); status])
  /\ (forall content,
        fs_fault w ENV_PATH = None -> files w !! ENV_PATH = Some content ->
        exists w',
          EnvironmentService.hydrate ENV_PATH w = (Ret tt, w') /\
          enableTracing w'
          = String.eqb
              (toLowerCase (default "undefined" (env w' !! "ENABLE_TRACING")))
              "true" /\
          (forall k v, env w !! k = Some v -> env w' !! k = Some v) /\
          tracer w' = tracer w /\
          journal w'
          = journal w ++
            [("info", "[Environment] Successfully hydrated environment " +:+
                      "variables from: " +:+ ENV_PATH); status]).
Proof.
  cbv zeta. split.
  - intros Hfile.
    assert (EnvironmentService.dotenv_config ENV_PATH w = (Ret true, w)) as Hd.
    { unfold EnvironmentService.dotenv_config, readFile.
      destruct (fs_fault w ENV_PATH); [reflexivity|].
      destruct Hfile as [Hf|Hf]; [contradiction | now rewrite Hf]. }
    unfold EnvironmentService.hydrate, logger.
    unfold_monad. rewrite Hd. simpl.
    eexists. split; [reflexivity|]. simpl.
    repeat split. now rewrite <- app_assoc.
  - intros content Hok Hfile.
    unfold EnvironmentService.hydrate, EnvironmentService.dotenv_config,
      readFile, logger.
    unfold_monad. rewrite Hok, Hfile. simpl.
    eexists. split; [reflexivity|]. simpl.
    split; [reflexivity|]. split; [|split; [reflexivity|]].
    + intros k v. apply dotenv_keeps.
    + now rewrite <- app_assoc.
Qed.

End Hydrate.

(** ** [MarketQuote]: what the constructor accepts, and [toJSON] *)

Lemma constructor_accepts_iff (p : MarketQuoteJs.params)
    (q : MarketQuoteJs.MarketQuote) :
  MarketQuoteJs.constructor p = Ret q <->
  exists s t,
    MarketQuoteJs.symbol p = VStr s /\ s <> EmptyString /\
    (MarketQuoteJs.price p = VNaN
     \/ exists n, MarketQuoteJs.price p = VNum n /\ 0 <= n) /\
    MarketQuoteJs.timestamp p = VNum t /\ t <> 0 /\
    q = {| MarketQuoteJs.this_symbol := toUpperCase s;
           MarketQuoteJs.this_price := MarketQuoteJs.price p;
           MarketQuoteJs.this_timestamp := VNum t;
           MarketQuoteJs.this_source :=
             js_or (MarketQuoteJs.source p) (VStr "UNKNOWN") |}.
Proof.
  destruct p as [sym pr ts src]. unfold MarketQuoteJs.constructor. simpl.
  split.
  - destruct sym as [ | | | | |s| | | | ]; simpl; rewrite ?orb_true_r;
      try discriminate.
    destruct (String.eqb_spec s EmptyString) as [->|Hs]; simpl;
      [discriminate|].
    destruct pr as [ | | |n| | | | | | ]; simpl; try discriminate.
    + unfold js_lt, js_gt. simpl.
      destruct (Z.ltb_spec n 0) as [Hn|Hn]; simpl; [discriminate|].
      destruct ts as [ | | |t| | | | | | ]; simpl; rewrite ?orb_true_r;
        try discriminate.
      destruct (Z.eqb_spec t 0) as [->|Ht]; simpl; [discriminate|].
      intros [= <-]. exists s, t. repeat split; eauto.
    + destruct ts as [ | | |t| | | | | | ]; simpl; rewrite ?orb_true_r;
        try discriminate.
      destruct (Z.eqb_spec t 0) as [->|Ht]; simpl; [discriminate|].
      intros [= <-]. exists s, t. repeat split; eauto.
  - intros [s [t [-> [Hs [Hpr [-> [Ht ->]]]]]]]. simpl.
    destruct (String.eqb_spec s EmptyString) as [He|_]; [contradiction|].
    simpl.
    destruct (Z.eqb_spec t 0) as [He|_]; [contradiction|].
    destruct Hpr as [->|[m [-> Hm]]]; simpl; [reflexivity|].
    unfold js_lt, js_gt. simpl.
    destruct (Z.ltb_spec m 0); [lia | reflexivity].
Qed.

(** X10.  Construction succeeds exactly for a non-empty string symbol, a price
    that is a number not below zero (the not-a-number passes: it is a
    number and compares below nothing) and a timestamp that is a number
    other than zero.  The quote then stores the upper-cased symbol, the
    price and the timestamp as given, and the source, or [UNKNOWN] for a
    falsy one. *)
Theorem MarketQuote_accepts (p : MarketQuoteJs.params)
    (q : MarketQuoteJs.MarketQuote) :
  MarketQuoteJs.constructor p = Ret q <->
  exists s t,
    MarketQuoteJs.symbol p = VStr s /\ s <> EmptyString /\
    (MarketQuoteJs.price p = VNaN
     \/ exists n, MarketQuoteJs.price p = VNum n /\ 0 <= n) /\
    MarketQuoteJs.timestamp p = VNum t /\ t <> 0 /\
    q = {| MarketQuoteJs.this_symbol := toUpperCase s;
           MarketQuoteJs.this_price := MarketQuoteJs.price p;
           MarketQuoteJs.this_timestamp := VNum t;
           MarketQuoteJs.this_source :=
             js_or (MarketQuoteJs.source p) (VStr "UNKNOWN") |}.
Proof. apply constructor_accepts_iff. Qed.

Section QuoteMethods.
Context `{P : Platform}.

(** X11.  For a constructed quote whose timestamp is a valid time value,
    [toJSON] returns the five members, reads the clock once, and flags the
    quote stale exactly when more than 60000 ms lie between the timestamp
    and that reading.  For a timestamp beyond the range of dates, which
    the constructor accepts all the same, [toJSON] raises. *)
Theorem toJSON_constructed (p : MarketQuoteJs.params)
    (q : MarketQuoteJs.MarketQuote) (t : Z) (w : World) :
  MarketQuoteJs.constructor p = Ret q ->
  MarketQuoteJs.timestamp p = VNum t ->
  (Z.abs t <= 8640000000000000 ->
   MarketQuoteJs.toJSON q w
   = (Ret (VObj [("symbol", VStr (MarketQuoteJs.this_symbol q));
                 ("price", MarketQuoteJs.price p);
                 ("capturedAt", VStr (toISOString t));
                 ("source", MarketQuoteJs.this_source q);
                 ("isStale", VBool (60000 <? clock w (ticks w) - t))]),
      ticked w))
  /\ (8640000000000000 < Z.abs t ->
      MarketQuoteJs.toJSON q w = (Throw (new_Error "Invalid time value"), w)).
Proof.
  intros Hq Ht.
  apply constructor_accepts_iff in Hq as [s [t' [_ [_ [_ [Ht' [_ ->]]]]]]].
  rewrite Ht in Ht'. injection Ht' as <-.
  unfold MarketQuoteJs.toJSON, MarketQuoteJs.getAge,
    MarketQuoteJs.Date_toISOString, Date_now.
  unfold_monad. simpl. split; intros Hrange.
  - destruct (Z.leb_spec (Z.abs t) 8640000000000000); [reflexivity | lia].
  - destruct (Z.leb_spec (Z.abs t) 8640000000000000); [lia | reflexivity].
Qed.

End QuoteMethods.

(** ** [AdapterFactory]: the manifest and the resolution of an adapter *)

Section FactoryMore.
Context `{P : Platform}.
Variable getProviderConfig : value -> M value.

(** X12.  [_getManifest] tells a missing file from any other failure: a file
    that is not there gives "Manifest missing at", while a text that does
    not parse and equally a file that cannot be read for another reason
    (permissions, say) give "Malformed manifest" with the detail; a text
    that parses is returned.  The process is left as it was. *)
Theorem getManifest_outcomes (this : AdapterFactoryJs.AdapterFactory)
    (w : World) :
  let path := AdapterFactoryJs.manifestPath this in
  (fs_fault w path = None -> files w !! path = None ->
   AdapterFactoryJs._getManifest this w
   = (Throw (new_Error ("Manifest missing at: " +:+ path +:+
                        ". Please check your config/ directory.")), w))
  /\ (forall e, fs_fault w path = Some e -> code e <> Some "ENOENT" ->
        AdapterFactoryJs._getManifest this w
        = (Throw (new_Error ("Malformed manifest: " +:+ message e)), w))
  /\ (forall data e, fs_fault w path = None -> files w !! path = Some data ->
        JSON_parse data = inl e -> code e <> Some "ENOENT" ->
        AdapterFactoryJs._getManifest this w
        = (Throw (new_Error ("Malformed manifest: " +:+ message e)), w))
  /\ (forall data manifest, fs_fault w path = None ->
        files w !! path = Some data -> JSON_parse data = inr manifest ->
        AdapterFactoryJs._getManifest this w = (Ret manifest, w)).
Proof.
  cbv zeta. unfold AdapterFactoryJs._getManifest, try_catch, readFile.
  unfold_monad. repeat split.
  - intros Hok Hfile. rewrite Hok, Hfile. simpl. reflexivity.
  - intros e Hfault Hcode. rewrite Hfault.
    destruct (decide (code e = Some "ENOENT")); [contradiction | reflexivity].
  - intros data e Hok Hfile Hparse Hcode. rewrite Hok, Hfile, Hparse.
    destruct (decide (code e = Some "ENOENT")); [contradiction | reflexivity].
  - intros data manifest Hok Hfile Hparse. now rewrite Hok, Hfile, Hparse.
Qed.

(** X13.  [loadAdapter] wraps what fails under it: its error carries
    "[AdapterFactory] Load failure for mode <mode>: " followed by the
    message of the underlying failure, and that same text goes to the
    logger, at error level, as the last entry.  This holds for a failure
    of [_getManifest], of the import of the module, of the provider of
    the configuration and of the constructor of the adapter, each with its
    own message; a module that does not export the class is refused with
    a message naming the class and the path.  And whatever fails, the
    message begins that way and is logged last. *)
Theorem loadAdapter_failure_shape (this : AdapterFactoryJs.AdapterFactory)
    (mode : value) (w : World) :
  let context m :=
    "[AdapterFactory] Load failure for mode " +:+ to_string mode +:+ ": " +:+ m
  in
  let wrapped (m : string) (w0 : World) : outcome value * World :=
    (Throw (new_Error (context m)),
     with_journal (journal w0 ++ [("error", context m)]) w0) in
  (forall e0 w0,
     AdapterFactoryJs._getManifest this w = (Throw e0, w0) ->
     AdapterFactoryJs.loadAdapter getProviderConfig this mode w
     = wrapped (message e0) w0)
  /\ (forall (data rawPath : string) (manifest entry className : value)
        (ps : list (string * value)),
        let modulePath :=
          if startsWith "/" rawPath then rawPath
          else path_join [AdapterFactoryJs.root this; rawPath] in
        let resolving :=
          with_journal
            (journal w ++
             [("debug", "[AdapterFactory] Resolving dependency: " +:+
                        to_string className)]) w in
        fs_fault w (AdapterFactoryJs.manifestPath this) = None ->
        files w !! AdapterFactoryJs.manifestPath this = Some data ->
        JSON_parse data = inr manifest ->
        member manifest "adapters" = Ret (VObj ps) ->
        member (VObj ps) (to_string mode) = Ret entry ->
        truthy entry = true ->
        member entry "path" = Ret (VStr rawPath) ->
        member entry "className" = Ret className ->
        (forall e0, import_module modulePath = inl e0 ->
           AdapterFactoryJs.loadAdapter getProviderConfig this mode w
           = wrapped (message e0) resolving)
        /\ (forall module, import_module modulePath = inr module ->
              truthy (default VUndefined (own module (to_string className)))
              = false ->
              AdapterFactoryJs.loadAdapter getProviderConfig this mode w
              = wrapped ("Export " +:+ dquote +:+ to_string className +:+
                         dquote +:+ " not found in module at " +:+ rawPath)
                  resolving)
        /\ (forall module cls requiresConfig key e0 w2,
              import_module modulePath = inr module ->
              own module (to_string className) = Some cls ->
              truthy cls = true ->
              member entry "requiresConfig" = Ret requiresConfig ->
              truthy requiresConfig = true ->
              member entry "configKey" = Ret key ->
              getProviderConfig key resolving = (Throw e0, w2) ->
              AdapterFactoryJs.loadAdapter getProviderConfig this mode w
              = wrapped (message e0) w2)
        /\ (forall module cls requiresConfig e0,
              import_module modulePath = inr module ->
              own module (to_string className) = Some cls ->
              truthy cls = true ->
              member entry "requiresConfig" = Ret requiresConfig ->
              truthy requiresConfig = false ->
              construct cls [] = inl e0 ->
              AdapterFactoryJs.loadAdapter getProviderConfig this mode w
              = wrapped (message e0)
                  (with_journal
                     (journal resolving ++
                      [("info", "[AdapterFactory] Initializing " +:+
                                to_string className +:+ " (Standard)")])
                     resolving)))
  /\ (forall e w',
        AdapterFactoryJs.loadAdapter getProviderConfig this mode w
        = (Throw e, w') ->
        exists m earlier,
          message e = context m /\ code e = None
          /\ journal w' = earlier ++ [("error", message e)]).
Proof.
  cbv zeta. split; [|split].
  - intros e0 w0 Hman.
    unfold AdapterFactoryJs.loadAdapter, try_catch, logger.
    unfold_monad. rewrite Hman. reflexivity.
  - intros data rawPath manifest entry className ps
      Hok Hfile Hparse Hadapters Hentry Htruthy Hpath Hclass.
    split; [|split; [|split]].
    + intros e0 Himport.
      unfold AdapterFactoryJs.loadAdapter, AdapterFactoryJs._getManifest,
        AdapterFactoryJs.isAbsolute, AdapterFactoryJs.lift_sum,
        try_catch, readFile, logger.
      unfold_monad. rewrite Hok, Hfile, Hparse, Hadapters, Hentry.
      cbv beta iota. rewrite Htruthy. cbv beta iota.
      rewrite Hpath. cbv beta iota. rewrite Hclass. cbv beta iota.
      change (to_string (VStr rawPath)) with rawPath.
      rewrite Himport. reflexivity.
    + intros module Himport Hexport.
      unfold AdapterFactoryJs.loadAdapter, AdapterFactoryJs._getManifest,
        AdapterFactoryJs.isAbsolute, AdapterFactoryJs.lift_sum,
        try_catch, readFile, logger.
      unfold_monad. rewrite Hok, Hfile, Hparse, Hadapters, Hentry.
      cbv beta iota. rewrite Htruthy. cbv beta iota.
      rewrite Hpath. cbv beta iota. rewrite Hclass. cbv beta iota.
      change (to_string (VStr rawPath)) with rawPath.
      rewrite Himport. cbv beta iota. rewrite Hexport. reflexivity.
    + intros module cls requiresConfig key e0 w2
        Himport Hexport Hcls Hreq Hrc Hkey Hconfig.
      unfold AdapterFactoryJs.loadAdapter, AdapterFactoryJs._getManifest,
        AdapterFactoryJs.isAbsolute, AdapterFactoryJs.lift_sum,
        try_catch, readFile, logger.
      unfold_monad. rewrite Hok, Hfile, Hparse, Hadapters, Hentry.
      cbv beta iota. rewrite Htruthy. cbv beta iota.
      rewrite Hpath. cbv beta iota. rewrite Hclass. cbv beta iota.
      change (to_string (VStr rawPath)) with rawPath.
      rewrite Himport. cbv beta iota.
      rewrite Hexport. change (default VUndefined (Some cls)) with cls.
      rewrite Hcls. change (negb true) with false. cbv beta iota.
      rewrite Hreq. cbv beta iota. rewrite Hrc. cbv beta iota. rewrite Hkey.
      cbv beta iota. rewrite Hconfig. reflexivity.
    + intros module cls requiresConfig e0 Himport Hexport Hcls Hreq Hrc Hnew.
      unfold AdapterFactoryJs.loadAdapter, AdapterFactoryJs._getManifest,
        AdapterFactoryJs.isAbsolute, AdapterFactoryJs.lift_sum,
        try_catch, readFile, logger.
      unfold_monad. rewrite Hok, Hfile, Hparse, Hadapters, Hentry.
      cbv beta iota. rewrite Htruthy. cbv beta iota.
      rewrite Hpath. cbv beta iota. rewrite Hclass. cbv beta iota.
      change (to_string (VStr rawPath)) with rawPath.
      rewrite Himport. cbv beta iota.
      rewrite Hexport. change (default VUndefined (Some cls)) with cls.
      rewrite Hcls. change (negb true) with false. cbv beta iota.
      rewrite Hreq. cbv beta iota. rewrite Hrc, Hnew. reflexivity.
  - intros e w'.
    unfold AdapterFactoryJs.loadAdapter, try_catch.
    match goal with
    | |- context [match ?body w with _ => _ end] =>
        destruct (body w) as [[a|e0|c] w0]
    end; try discriminate.
    unfold logger. unfold_monad. simpl.
    intros [= <- <-]. exists (message e0), (journal w0).
    split; [reflexivity|]. split; reflexivity.
Qed.

(** X14.  A mode whose entry reads as a falsy value, because the manifest does
    not declare it or declares it as [null], [false], [0] or an empty
    string, is refused as not defined, and the message lists every declared
    mode. *)
Theorem loadAdapter_undefined_mode (this : AdapterFactoryJs.AdapterFactory)
    (mode : value) (w : World) (data : string) (manifest entry : value)
    (ps : list (string * value)) :
  fs_fault w (AdapterFactoryJs.manifestPath this) = None ->
  files w !! AdapterFactoryJs.manifestPath this = Some data ->
  JSON_parse data = inr manifest ->
  member manifest "adapters" = Ret (VObj ps) ->
  member (VObj ps) (to_string mode) = Ret entry ->
  truthy entry = false ->
  AdapterFactoryJs.loadAdapter getProviderConfig this mode w
  = (Throw (new_Error (undefined_mode_message mode ps)),
     with_journal (journal w ++ [("error", undefined_mode_message mode ps)]) w)
  /\ forall k, k ∈ map fst ps ->
               includes k (undefined_mode_message mode ps) = true.
Proof.
  intros Hok Hfile Hparse Hadapters Hentry Hfalsy. split.
  - unfold AdapterFactoryJs.loadAdapter, AdapterFactoryJs._getManifest,
      try_catch, readFile.
    unfold_monad. rewrite Hok, Hfile, Hparse, Hadapters, Hentry.
    cbv beta iota. rewrite Hfalsy. reflexivity.
  - intros k Hk. unfold undefined_mode_message.
    do 9 apply includes_app_r.
    apply includes_app_l, includes_join, Object_keys_declared, Hk.
Qed.

(** X15.  A declared mode whose module exports its class is resolved: a relative
    path is joined to the root, an absolute one is taken as it is.  Without
    [requiresConfig] the class is constructed with no argument and the
    configuration provider is not consulted; with it, the provider is asked
    for [configKey] and the class is constructed on what it returns. *)
Theorem loadAdapter_resolves (this : AdapterFactoryJs.AdapterFactory)
    (mode : value) (w : World) (data rawPath : string)
    (manifest entry className requiresConfig cls : value)
    (ps module : list (string * value)) :
  let modulePath :=
    if startsWith "/" rawPath then rawPath
    else path_join [AdapterFactoryJs.root this; rawPath] in
  let resolving :=
    with_journal
      (journal w ++ [("debug", "[AdapterFactory] Resolving dependency: " +:+
                               to_string className)]) w in
  fs_fault w (AdapterFactoryJs.manifestPath this) = None ->
  files w !! AdapterFactoryJs.manifestPath this = Some data ->
  JSON_parse data = inr manifest ->
  member manifest "adapters" = Ret (VObj ps) ->
  member (VObj ps) (to_string mode) = Ret entry -> truthy entry = true ->
  member entry "path" = Ret (VStr rawPath) ->
  member entry "className" = Ret className ->
  member entry "requiresConfig" = Ret requiresConfig ->
  import_module modulePath = inr module ->
  own module (to_string className) = Some cls -> truthy cls = true ->
  (truthy requiresConfig = false ->
   forall adapter, construct cls [] = inr adapter ->
     AdapterFactoryJs.loadAdapter getProviderConfig this mode w
     = (Ret adapter,
        with_journal
          (journal resolving ++
           [("info", "[AdapterFactory] Initializing " +:+ to_string className
                     +:+ " (Standard)")]) resolving))
  /\ (truthy requiresConfig = true ->
      forall key config adapter w2,
        member entry "configKey" = Ret key ->
        getProviderConfig key resolving = (Ret config, w2) ->
        construct cls [config] = inr adapter ->
        AdapterFactoryJs.loadAdapter getProviderConfig this mode w
        = (Ret adapter,
           with_journal
             (journal w2 ++
              [("info", "[AdapterFactory] Injecting configuration for " +:+
                        to_string className +:+ " (" +:+ to_string key
                        +:+ ")")]) w2)).
Proof.
  intros modulePath resolving Hok Hfile Hparse Hadapters Hentry Htruthy
    Hpath Hclass Hreq Himport Hexport Hcls.
  split.
  - intros Hrc adapter Hnew.
    unfold AdapterFactoryJs.loadAdapter, AdapterFactoryJs._getManifest,
      AdapterFactoryJs.isAbsolute, AdapterFactoryJs.lift_sum,
      try_catch, readFile, logger.
    unfold_monad. rewrite Hok, Hfile, Hparse, Hadapters, Hentry.
    cbv beta iota. rewrite Htruthy. cbv beta iota.
    rewrite Hpath. cbv beta iota. rewrite Hclass. cbv beta iota.
    change (to_string (VStr rawPath)) with rawPath.
    fold modulePath. rewrite Himport. cbv beta iota.
    rewrite Hexport. change (default VUndefined (Some cls)) with cls.
    rewrite Hcls. change (negb true) with false. cbv beta iota.
    rewrite Hreq. cbv beta iota. rewrite Hrc, Hnew. reflexivity.
  - intros Hrc key config adapter w2 Hkey Hconfig Hnew.
    unfold AdapterFactoryJs.loadAdapter, AdapterFactoryJs._getManifest,
      AdapterFactoryJs.isAbsolute, AdapterFactoryJs.lift_sum,
      try_catch, readFile, logger.
    unfold_monad. rewrite Hok, Hfile, Hparse, Hadapters, Hentry.
    cbv beta iota. rewrite Htruthy. cbv beta iota.
    rewrite Hpath. cbv beta iota. rewrite Hclass. cbv beta iota.
    change (to_string (VStr rawPath)) with rawPath.
    fold modulePath. rewrite Himport. cbv beta iota.
    rewrite Hexport. change (default VUndefined (Some cls)) with cls.
    rewrite Hcls. change (negb true) with false. cbv beta iota.
    rewrite Hreq. cbv beta iota. rewrite Hrc. cbv beta iota. rewrite Hkey.
    cbv beta iota. fold resolving. rewrite Hconfig. cbv beta iota.
    rewrite Hnew. reflexivity.
Qed.

End FactoryMore.

(** ** [EnvironmentService.getProviderConfig] *)

Section ProviderConfig.
Context `{P : Platform}.
Variable validate : value -> M EnvironmentService.settled.

(** X16.  With a validator that implements the contract, the outcome is the one
    of its [validate()]: a configuration is returned as it is; a throw is
    caught, logged once at error level and raised again unchanged; but a
    promise that rejects, being returned without [await], escapes the
    handler: its error is raised and nothing is logged. *)
Theorem getProviderConfig_validates (provider validator contract : value)
    (module : list (string * value)) (w : World) :
  import_module ("./validators/" +:+ to_string provider +:+ "Config.js")
  = inr module ->
  own module (to_string provider +:+ "Config") = Some validator ->
  truthy validator = true ->
  member validator "validate" = Ret contract ->
  typeof contract = "function" ->
  EnvironmentService.getProviderConfig validate provider w
  = match validate validator w with
    | (Ret (EnvironmentService.Fulfilled config), w') => (Ret config, w')
    | (Ret (EnvironmentService.Rejected e), w') => (Throw e, w')
    | (Throw e, w') =>
        (Throw e,
         with_journal
           (journal w' ++
            [("error", "[Environment] Configuration lifecycle failure " +:+
                       "for provider: " +:+ to_string provider)]) w')
    | (Exit c, w') => (Exit c, w')
    end.
Proof.
  intros Himport Hexport Htruthy Hmember Htype.
  unfold EnvironmentService.getProviderConfig, try_catch, logger.
  unfold_monad. rewrite Himport. cbv beta iota. rewrite Hexport.
  change (default VUndefined (Some validator)) with validator.
  rewrite Htruthy. cbv beta iota. rewrite Hmember. cbv beta iota.
  rewrite Htype. simpl.
  destruct (validate validator w) as [[[config|e]|e|c] w']; reflexivity.
Qed.

(** X17.  A module that cannot be loaded, a module without the export named
    after the provider, and an export without a [validate] function are
    all refused, the failure logged once at error level: the first with
    the error of the import, the others with the contract message.  The
    validator is not called. *)
Theorem getProviderConfig_refuses (provider : value) (w : World) :
  let path := "./validators/" +:+ to_string provider +:+ "Config.js" in
  let logged :=
    with_journal
      (journal w ++
       [("error", "[Environment] Configuration lifecycle failure " +:+
                  "for provider: " +:+ to_string provider)]) w in
  let contract_error :=
    new_Error ("Validator for " +:+ to_string provider +:+
               " does not implement the .validate() contract.") in
  (forall e, import_module path = inl e ->
     EnvironmentService.getProviderConfig validate provider w
     = (Throw e, logged))
  /\ (forall module, import_module path = inr module ->
        truthy (default VUndefined
                  (own module (to_string provider +:+ "Config"))) = false ->
        EnvironmentService.getProviderConfig validate provider w
        = (Throw contract_error, logged))
  /\ (forall module validator contract, import_module path = inr module ->
        own module (to_string provider +:+ "Config") = Some validator ->
        truthy validator = true ->
        member validator "validate" = Ret contract ->
        typeof contract <> "function" ->
        EnvironmentService.getProviderConfig validate provider w
        = (Throw contract_error, logged)).
Proof.
  cbv zeta.
  unfold EnvironmentService.getProviderConfig, try_catch, logger.
  unfold_monad. repeat split.
  - intros e Himport. now rewrite Himport.
  - intros module Himport Hfalsy. rewrite Himport. cbv beta iota.
    rewrite Hfalsy. reflexivity.
  - intros module validator contract Himport Hexport Htruthy Hmember Htype.
    rewrite Himport. cbv beta iota. rewrite Hexport.
    change (default VUndefined (Some validator)) with validator.
    rewrite Htruthy. cbv beta iota. rewrite Hmember. cbv beta iota.
    destruct (String.eqb_spec (typeof contract) "function");
      [contradiction | reflexivity].
Qed.

End ProviderConfig.

(** ** [MenuSystem] *)

Lemma startsWith_dash_cons (c : ascii) (s : string) :
  startsWith "-" (String c s) = Ascii.eqb c (chr 45).
Proof.
  unfold startsWith.
  change (String.prefix "-" (String c s))
    with (if ascii_dec "-"%char c then String.prefix EmptyString s else false).
  destruct (ascii_dec "-"%char c) as [<-|Hc].
  - now destruct s.
  - destruct (Ascii.eqb_spec c (chr 45)) as [->|_]; [contradiction | reflexivity].
Qed.

Lemma strip_dashes_no_dash (s : string) :
  startsWith "-" (strip_dashes s) = false.
Proof.
  induction s as [|c s IH]; [reflexivity|].
  change (strip_dashes (String c s))
    with (if Ascii.eqb c (chr 45) then strip_dashes s else String c s).
  destruct (Ascii.eqb c (chr 45)) eqn:Hc; [exact IH|].
  now rewrite startsWith_dash_cons.
Qed.

Lemma upper_char_dash (c : ascii) :
  Ascii.eqb (upper_char c) (chr 45) = Ascii.eqb c (chr 45).
Proof. destruct c as [[] [] [] [] [] [] [] []]; reflexivity. Qed.

Lemma toUpperCase_no_dash (s : string) :
  startsWith "-" s = false -> startsWith "-" (toUpperCase s) = false.
Proof.
  destruct s as [|c s]; [reflexivity|].
  change (toUpperCase (String c s))
    with (String (upper_char c) (toUpperCase s)).
  now rewrite !startsWith_dash_cons, upper_char_dash.
Qed.

Lemma sanitizeSymbol_no_dash (input : string) :
  startsWith "-" (MenuSystem.sanitizeSymbol input) = false.
Proof.
  unfold MenuSystem.sanitizeSymbol.
  destruct (String.eqb input EmptyString); [reflexivity|].
  apply toUpperCase_no_dash, strip_dashes_no_dash.
Qed.

(** X18.  The symbol the menu hands over never begins with a dash and is in
    upper case.  It is [SPX] for an empty input, and only then by default:
    an input made of dashes alone is cleaned to the empty string. *)
Theorem sanitizeSymbol_clean (input : string) :
  startsWith "-" (MenuSystem.sanitizeSymbol input) = false
  /\ toUpperCase (MenuSystem.sanitizeSymbol input)
     = MenuSystem.sanitizeSymbol input
  /\ MenuSystem.sanitizeSymbol EmptyString = "SPX"
  /\ (input <> EmptyString -> strip_dashes input = EmptyString ->
      MenuSystem.sanitizeSymbol input = EmptyString).
Proof.
  repeat split.
  - apply sanitizeSymbol_no_dash.
  - unfold MenuSystem.sanitizeSymbol.
    destruct (String.eqb input EmptyString); [reflexivity|].
    apply toUpperCase_idempotent.
  - intros Hne Hdash. unfold MenuSystem.sanitizeSymbol.
    destruct (String.eqb_spec input EmptyString); [contradiction|].
    now rewrite Hdash.
Qed.

(** X19.  [promptMode] asks once: it takes one line of the operator's input.
    Whatever is typed, it returns ["1"] or ["2"], or ends the process with
    status 0: Q or q, surrounded by blanks or not, quits; 1 is live mode;
    anything else, 2 included, is mock mode. *)
Theorem promptMode_answers (w : World) (answer : string) (rest : list string) :
  stdin w = answer :: rest ->
  let choice := toUpperCase (trim answer) in
  stdin (MenuSystem.promptMode w).2 = rest
  /\ (MenuSystem.promptMode w).1
     = (if String.eqb choice "Q" then Exit 0
        else if String.eqb choice "1" then Ret "1" else Ret "2")
  /\ exists printed, stdout (MenuSystem.promptMode w).2 = stdout w ++ printed.
Proof.
  intros Hin. cbv zeta. unfold MenuSystem.promptMode, console_log, question.
  unfold_monad. simpl. rewrite Hin. simpl.
  destruct (String.eqb (toUpperCase (trim answer)) "Q"); simpl.
  { split; [reflexivity|]. split; [reflexivity|].
    eexists. rewrite <- !app_assoc. reflexivity. }
  rewrite orb_false_r.
  destruct (String.eqb_spec (toUpperCase (trim answer)) "1") as [H1|H1]; simpl.
  { split; [reflexivity|]. split; [now rewrite H1|].
    eexists. rewrite <- !app_assoc. reflexivity. }
  destruct (String.eqb_spec (toUpperCase (trim answer)) "2") as [H2|H2]; simpl.
  { split; [reflexivity|]. split; [now rewrite H2|].
    eexists. rewrite <- !app_assoc. reflexivity. }
  split; [reflexivity|]. split; [reflexivity|].
  eexists. rewrite <- !app_assoc. reflexivity.
Qed.

Lemma getInitialSelection_cases (w : World) :
  match (MenuSystem.getInitialSelection w).1 with
  | Ret selection =>
      (MenuSystem.mode selection = "1" \/ MenuSystem.mode selection = "2")
      /\ startsWith "-" (MenuSystem.symbol selection) = false
  | Throw e => startsWith "Menu Interaction Failed: " (message e) = true
  | Exit c => c = 0
  end.
Proof.
  unfold MenuSystem.getInitialSelection, MenuSystem.displayHeader,
    MenuSystem.promptMode, MenuSystem.promptSymbol, try_catch, console_log,
    question.
  unfold_monad. simpl.
  destruct (stdin w) as [|answer typed]; simpl; [reflexivity|].
  destruct (String.eqb (toUpperCase (trim answer)) "Q"); simpl; [reflexivity|].
  rewrite orb_false_r.
  destruct (String.eqb_spec (toUpperCase (trim answer)) "1") as [H1|H1]; simpl.
  - destruct typed as [|answer2 typed]; simpl; [reflexivity|].
    split; [now left | apply sanitizeSymbol_no_dash].
  - destruct (String.eqb_spec (toUpperCase (trim answer)) "2") as [H2|H2]; simpl.
    + destruct typed as [|answer2 typed]; simpl; [reflexivity|].
      split; [now right | apply sanitizeSymbol_no_dash].
    + destruct typed as [|answer2 typed]; simpl; [reflexivity|].
      split; [now right | apply sanitizeSymbol_no_dash].
Qed.

(** X20.  When the menu returns a selection, its mode is ["1"] or ["2"] and its
    symbol is clean; when it raises, the message begins with "Menu
    Interaction Failed: ". *)
Theorem getInitialSelection_result (w : World) :
  match (MenuSystem.getInitialSelection w).1 with
  | Ret selection =>
      (MenuSystem.mode selection = "1" \/ MenuSystem.mode selection = "2")
      /\ startsWith "-" (MenuSystem.symbol selection) = false
  | Throw e => startsWith "Menu Interaction Failed: " (message e) = true
  | Exit c => c = 0
  end.
Proof. apply getInitialSelection_cases. Qed.

(** ** [GetMarketSnapshot.execute] *)

Section UseCase.
Context `{P : Platform}.
Variable fetchQuote : value -> string -> M value.

(** X21.  The use case comes to this, tracing on or off.  A symbol that is not
    a string, or is blank, is refused with the domain error and the port is
    not asked.  Otherwise the port is asked once, for the trimmed,
    upper-cased symbol: its quote is returned as it is, and any failure of
    it is replaced by one message that names the symbol and nothing of the
    underlying error. *)
Theorem execute_outcome (port symbol : value) (w : World) :
  let refused :=
    Throw (new_Error "Domain Error: A valid market ticker symbol is required.")
  in
  exists w1,
    stdout w1 = stdout w /\ stdin w1 = stdin w /\
    (GetMarketSnapshot.execute fetchQuote port symbol w).1
    = match symbol with
      | VStr s =>
          if String.eqb (trim s) EmptyString then refused
          else
            match (fetchQuote port (toUpperCase (trim s)) w1).1 with
            | Ret quote => Ret quote
            | Throw _ =>
                Throw (new_Error ("Market discovery failed for " +:+
                                  toUpperCase (trim s) +:+
                                  ". Please check system logs."))
            | Exit c => Exit c
            end
      | _ => refused
      end.
Proof.
  cbv zeta. unfold GetMarketSnapshot.execute.
  match goal with
  | |- context [TracerJs.traceSpan ?l ?lab ?fn (VObj ?ps) w] =>
      destruct (traceSpan_transparent l lab fn ps w)
        as [w1 [Hout [Hin [Hres _]]]]
  end.
  exists w1. split; [exact Hout|]. split; [exact Hin|].
  rewrite Hres.
  destruct symbol as [ | | | | |s| | | | ]; try reflexivity.
  destruct (String.eqb_spec s EmptyString) as [->|Hs]; [reflexivity|].
  simpl. destruct (String.eqb (trim s) EmptyString); [reflexivity|].
  unfold try_catch.
  destruct (fetchQuote port (toUpperCase (trim s)) w1) as [[q|e|c] w2];
    reflexivity.
Qed.

End UseCase.

(** ** [main.js] *)

Lemma double_dash_is_dash (arg : string) :
  negb (startsWith "--" arg) && negb (startsWith "-" arg)
  = negb (startsWith "-" arg).
Proof.
  destruct arg as [|c arg]; [reflexivity|].
  rewrite startsWith_dash_cons.
  destruct (Ascii.eqb_spec c (chr 45)) as [->|Hc]; [apply andb_false_r|].
  rewrite andb_true_r. unfold startsWith.
  change (String.prefix "--" (String c arg))
    with (if ascii_dec "-"%char c then String.prefix "-" arg else false).
  destruct (ascii_dec "-"%char c) as [Heq|_]; [|reflexivity].
  now elim Hc.
Qed.

(** X22.  From the arguments, [--mock] selects mode 2 even next to [--live],
    which alone selects mode 1; the symbol is the first argument that does
    not begin with a dash, so no flag is ever taken for a symbol, and it is
    [undefined] exactly when every argument begins with a dash. *)
Theorem automated_strategy_reads (args : list string) :
  (Main.has "--mock" args = true ->
   Main.mode (Main.automated_strategy args) = VStr "2")
  /\ (Main.has "--mock" args = false -> Main.has "--live" args = true ->
      Main.mode (Main.automated_strategy args) = VStr "1")
  /\ (forall s, Main.symbol (Main.automated_strategy args) = VStr s ->
        In s args /\ startsWith "-" s = false)
  /\ (Main.symbol (Main.automated_strategy args) = VUndefined <->
      forall arg, In arg args -> startsWith "-" arg = true).
Proof.
  unfold Main.automated_strategy. simpl.
  split; [|split; [|split; [|split]]].
  - now intros ->.
  - now intros -> ->.
  - intros s. destruct (find _ args) as [x|] eqn:Hfind; [|discriminate].
    intros [= <-]. apply find_some in Hfind as [Hin Hx].
    split; [exact Hin|].
    rewrite double_dash_is_dash in Hx. now apply negb_true_iff.
  - destruct (find _ args) as [x|] eqn:Hfind; [discriminate|].
    intros _ arg Hin. apply (find_none _ _ Hfind) in Hin.
    rewrite double_dash_is_dash in Hin. now apply negb_false_iff.
  - intros Hall. destruct (find _ args) as [x|] eqn:Hfind; [|reflexivity].
    apply find_some in Hfind as [Hin Hx].
    rewrite double_dash_is_dash, (Hall x Hin) in Hx. discriminate.
Qed.

Section MainMore.
Context `{P : Platform}.
Variable getProviderConfig : value -> M value.
Variable fetchQuote : value -> string -> M value.
Variable render : value -> M unit.

Lemma initialize_frame (root : string) (ns : option string) (w : World) :
  exists w', TracerJs.initialize root ns w = (Ret tt, w')
    /\ argv w' = argv w /\ stdin w' = stdin w /\ stdout w' = stdout w.
Proof.
  unfold TracerJs.initialize, try_catch. unfold_monad.
  destruct (isInitialized (tracer w)); [now exists w|].
  unfold Math_random_base36, mkdir, Date_now. cbn beta iota.
  match goal with
  | |- context [match fs_fault ?W ?p with _ => _ end] =>
      destruct (fs_fault W p)
  end; cbn beta iota.
  - unfold logger, modify. eexists. split; [reflexivity|]. repeat split.
  - match goal with
    | |- context [TracerJs.record ?a ?b (VObj ?d) ?W] =>
        destruct (record_object_frame a b d W)
          as [w' [Hrec [_ [_ [_ [Hargv [_ [_ [Hin [Hout _]]]]]]]]]]
    end.
    rewrite Hrec. exists w'. split; [reflexivity|].
    rewrite Hargv, Hin, Hout. repeat split.
Qed.

Lemma hydrate_frame (path : string) (w : World) :
  exists w', EnvironmentService.hydrate path w = (Ret tt, w')
    /\ argv w' = argv w /\ stdin w' = stdin w /\ stdout w' = stdout w.
Proof.
  unfold EnvironmentService.hydrate, EnvironmentService.dotenv_config,
    readFile, logger.
  unfold_monad.
  destruct (fs_fault w path); [|destruct (files w !! path)]; simpl;
    eexists; (split; [reflexivity|]); repeat split.
Qed.

(** X23.  With [--help] or [-h] anywhere among the arguments, [bootstrap] ends
    the process with status 0 after one [console.log], of the usage, and
    asks nothing, whatever other flags are given; the tracer has been
    initialized and the environment hydrated before. *)
Theorem bootstrap_help (w : World) :
  Main.has "--help" (argv w) || Main.has "-h" (argv w) = true ->
  exists w' usage,
    Main.bootstrap getProviderConfig fetchQuote render w = (Exit 0, w')
    /\ stdout w' = stdout w ++ [usage]
    /\ includes "USAGE: node main.js [FLAGS] [SYMBOL]" usage = true
    /\ stdin w' = stdin w.
Proof.
  intros Hhelp. unfold Main.bootstrap.
  destruct (initialize_frame PROJECT_ROOT None w)
    as [w1 [Hinit [Hargv1 [Hin1 Hout1]]]].
  destruct (hydrate_frame Main.ENV_PATH w1)
    as [w2 [Hhyd [Hargv2 [Hin2 Hout2]]]].
  unfold bind at 1. rewrite Hinit. unfold bind at 1. rewrite Hhyd.
  unfold bind at 1.
  assert (Main.capture_input w2
          = (Exit 0,
             with_stdout
               (stdout w2 ++ ["USAGE: node main.js [FLAGS] [SYMBOL]"]) w2))
    as Hcap.
  { unfold Main.capture_input, Main.displayHelp, console_log.
    unfold_monad. rewrite Hargv2, Hargv1, Hhelp. reflexivity. }
  rewrite Hcap. eexists. eexists. split; [reflexivity|]. simpl.
  rewrite Hout2, Hout1, Hin2, Hin1.
  split; [reflexivity|]. split; reflexivity.
Qed.

(** X24.  With no argument at all, capturing the input never raises: it returns
    a context whose mode is ["1"] or ["2"] and whose symbol is clean, or it
    ends the process, with status 0 when the operator quits and with
    status 1 when the menu fails. *)
Theorem interactive_outcomes (w : World) :
  argv w = [] ->
  match (Main.capture_input w).1 with
  | Ret context =>
      (Main.mode context = VStr "1" \/ Main.mode context = VStr "2")
      /\ (exists s, Main.symbol context = VStr s /\ startsWith "-" s = false)
      /\ Main.isAutomated context = false
  | Throw _ => False
  | Exit c => c = 0 \/ c = 1
  end.
Proof.
  intros Hargs.
  assert (Main.capture_input w = Main.interactive_strategy w) as ->.
  { unfold Main.capture_input. unfold_monad. rewrite Hargs. reflexivity. }
  unfold Main.interactive_strategy, try_finally, try_catch, MenuSystem.close,
    logger.
  unfold_monad.
  change (default_object VUndefined) with (VObj []).
  destruct (traceSpan_transparent "CLI" "USER_INTERACTION"
              MenuSystem.getInitialSelection [] w)
    as [w1 [_ [_ [Hres _]]]].
  pose proof (getInitialSelection_cases w1) as Hmenu.
  change (TracerJs.traceSpan "CLI" "USER_INTERACTION"
            MenuSystem.getInitialSelection VUndefined w)
    with (TracerJs.traceSpan "CLI" "USER_INTERACTION"
            MenuSystem.getInitialSelection (VObj []) w).
  destruct (TracerJs.traceSpan "CLI" "USER_INTERACTION"
              MenuSystem.getInitialSelection (VObj []) w) as [[sel|e|c] w2];
    simpl in Hres; rewrite <- Hres in Hmenu; simpl.
  - destruct Hmenu as [[Hm|Hm] Hs]; rewrite Hm; eauto 6.
  - now right.
  - now left.
Qed.

(** X25.  [main] never lets a failure out: when [bootstrap] raises, the
    rejection is logged once, at error level, as a critical unhandled
    rejection with the message of the failure, and the process ends with
    status 1. *)
Theorem main_unhandled_rejection (w : World) :
  let w0 := (EnvironmentService.dotenv_config
               (path_join [PROJECT_ROOT; ".env"]) w).2 in
  (forall e w', Main.bootstrap getProviderConfig fetchQuote render w0
                = (Throw e, w') ->
     exists logged,
       Main.main getProviderConfig fetchQuote render w
       = (Exit 1, with_journal (journal w' ++ [("error", logged)]) w')
       /\ startsWith "Critical Unhandled Rejection: " logged = true
       /\ includes (message e) logged = true)
  /\ (forall e, (Main.main getProviderConfig fetchQuote render w).1
                <> Throw e).
Proof.
  cbv zeta.
  assert (exists b, EnvironmentService.dotenv_config
                      (path_join [PROJECT_ROOT; ".env"]) w
                    = (Ret b, (EnvironmentService.dotenv_config
                                 (path_join [PROJECT_ROOT; ".env"]) w).2))
    as [b Hb].
  { unfold EnvironmentService.dotenv_config, readFile.
    destruct (fs_fault w (path_join [PROJECT_ROOT; ".env"]));
      [|destruct (files w !! path_join [PROJECT_ROOT; ".env"])]; eauto. }
  set (w0 := (EnvironmentService.dotenv_config
                (path_join [PROJECT_ROOT; ".env"]) w).2) in *.
  unfold Main.main, try_catch, logger. unfold_monad. rewrite Hb.
  split.
  - intros e w' Hboot. rewrite Hboot. eexists. split; [reflexivity|]. split.
    + apply (prefix_app_l "Critical Unhandled Rejection: "
               "Critical Unhandled Rejection: Error: " (message e)).
      reflexivity.
    + apply includes_app_r, includes_prefix, prefix_refl.
  - intros e.
    destruct (Main.bootstrap getProviderConfig fetchQuote render w0)
      as [[u|e0|c] w']; discriminate.
Qed.

End MainMore.

(** ** The further properties at work *)

Lemma record_leaves_rest_witness :
  exists w',
    TracerJs.record (P:=Demo.platform) "DOMAIN" "EVENT" (VObj [])
      (Demo.faulty Demo.trace_path (Demo.tracing None)) = (Ret tt, w')
    /\ tracer w' = tracer (Demo.tracing None)
    /\ enableTracing w' = true /\ stdin w' = [].
Proof.
  destruct (record_leaves_rest (P:=Demo.platform) "DOMAIN" "EVENT" []
              (Demo.faulty Demo.trace_path (Demo.tracing None)))
    as [w' [Hrec [Ht [He [_ [_ [Hin _]]]]]]].
  exists w'. split; [exact Hrec|]. split; [exact Ht|].
  split; [exact He | exact Hin].
Defined.

Lemma record_io_failure_witness :
  exists w',
    TracerJs.record (P:=Demo.platform) "DOMAIN" "EVENT" (VObj [])
      (Demo.faulty Demo.trace_path (Demo.tracing None)) = (Ret tt, w')
    /\ journal w'
       = journal (Demo.faulty Demo.trace_path (Demo.tracing None)) ++
         [("error", "[Tracer Error]: " +:+ message Demo.denied)]
    /\ files w' !! Demo.trace_path
       = files (Demo.faulty Demo.trace_path (Demo.tracing None))
           !! Demo.trace_path
    /\ ticks w' = S (ticks (Demo.faulty Demo.trace_path (Demo.tracing None)))
    /\ tracer w' = tracer (Demo.faulty Demo.trace_path (Demo.tracing None))
    /\ stdin w' = stdin (Demo.faulty Demo.trace_path (Demo.tracing None)).
Proof.
  apply (record_io_failure (P:=Demo.platform) "DOMAIN" "EVENT" (VObj [])
           (Demo.faulty Demo.trace_path (Demo.tracing None))
           Demo.trace_path "info" 2 2 Demo.denied);
    reflexivity || lia.
Defined.

Lemma traceSpan_keeps_outcome_witness :
  exists w1,
    tracer w1 = tracer (Demo.faulty Demo.trace_path (Demo.tracing None)) /\
    enableTracing w1
    = enableTracing (Demo.faulty Demo.trace_path (Demo.tracing None)) /\
    env w1 = env (Demo.faulty Demo.trace_path (Demo.tracing None)) /\
    argv w1 = argv (Demo.faulty Demo.trace_path (Demo.tracing None)) /\
    stdin w1 = stdin (Demo.faulty Demo.trace_path (Demo.tracing None)) /\
    (TracerJs.traceSpan (P:=Demo.platform) "CLI" "OP" Demo.failing VUndefined
       (Demo.faulty Demo.trace_path (Demo.tracing None))).1
    = (Demo.failing w1).1.
Proof.
  apply (traceSpan_keeps_outcome (P:=Demo.platform) "CLI" "OP" Demo.failing
           VUndefined [] (Demo.faulty Demo.trace_path (Demo.tracing None))).
  reflexivity.
Defined.

Lemma traceSpan_null_meta_witness :
  TracerJs.traceSpan (P:=Demo.platform) "CLI" "OP" (ret 42) VNull
    (Demo.tracing None)
  = (Throw (new_Error "Cannot read properties of null (reading 'level')"),
     ticked (Demo.tracing None)).
Proof.
  apply (traceSpan_null_meta (P:=Demo.platform) "CLI" "OP" (ret 42)
           (Demo.tracing None)); reflexivity.
Defined.

Lemma traceSpan_success_witness :
  exists line : string,
    single_line line = true /\
    TracerJs.traceSpan (P:=Demo.platform) "cli" "op" (ret 42)
      (VObj [("symbol", VStr "spx")]) (Demo.tracing None)
    = (Ret 42,
       written Demo.trace_path (line +:+ newline)
         (ticked (ticked
            (written Demo.trace_path
               (trace_line (P:=Demo.platform) 1007 (tracer (Demo.tracing None))
                  "cli" "op_START" (VObj [("symbol", VStr "spx")]))
               (ticked (ticked (Demo.tracing None))))))).
Proof.
  destruct (traceSpan_success (P:=Demo.platform) "cli" "op" (ret 42)
              (VObj [("symbol", VStr "spx")]) (Demo.tracing None)
              (written Demo.trace_path
                 (trace_line (P:=Demo.platform) 1007
                    (tracer (Demo.tracing None)) "cli" "op_START"
                    (VObj [("symbol", VStr "spx")]))
                 (ticked (ticked (Demo.tracing None))))
              Demo.trace_path "info" 2 2 42
              eq_refl eq_refl eq_refl eq_refl eq_refl eq_refl
              (Z.le_refl 2) eq_refl eq_refl eq_refl eq_refl eq_refl eq_refl)
    as [dat [_ [H1 Hspan]]].
  eexists. split; [exact H1 | exact Hspan].
Defined.

Lemma initialize_mkdir_failure_witness :
  exists w',
    TracerJs.initialize (P:=Demo.platform) "/app" None
      (Demo.faulty "/app/logs/traces" (Demo.start None [] [])) = (Ret tt, w')
    /\ isInitialized (tracer w') = false
    /\ traceFile (tracer w') = None
    /\ projectRoot (tracer w') = Some "/app"
    /\ sessionID (tracer w') = Some "4FZYO82"
    /\ draws w' = 1%nat
    /\ journal w'
       = [("error",
           "[Tracer] Initialization Failure: EACCES: permission denied")].
Proof.
  apply (initialize_mkdir_failure (P:=Demo.platform) "/app" None
           (Demo.faulty "/app/logs/traces" (Demo.start None [] []))
           Demo.denied); reflexivity.
Defined.

Lemma initialize_session_id_witness :
  sessionID (tracer (TracerJs.initialize (P:=Demo.platform) "/app" None
                       (Demo.start None [] [])).2) = Some "4FZYO82"
  /\ (String.length "4FZYO82" <= 7)%nat
  /\ toUpperCase "4FZYO82" = "4FZYO82".
Proof.
  apply (initialize_session_id (P:=Demo.platform) "/app" None
           (Demo.start None [] [])). reflexivity.
Defined.

Lemma hydrate_flag_witness :
  (exists w',
     EnvironmentService.hydrate (P:=Demo.platform) "/app/.env"
       (Demo.faulty "/app/.env" (Demo.start None [] [])) = (Ret tt, w')
     /\ enableTracing w' = false)
  /\ exists w',
       EnvironmentService.hydrate (P:=Demo.platform) "/app/.env"
         (Demo.start None [] []) = (Ret tt, w')
       /\ env w' !! "ENABLE_TRACING" = Some "true".
Proof.
  split.
  - destruct (proj1 (hydrate_flag (P:=Demo.platform) "/app/.env"
                       (Demo.faulty "/app/.env" (Demo.start None [] []))))
      as [w' [Hrun [Hflag _]]].
    + left. discriminate.
    + exists w'. split; [exact Hrun | exact Hflag].
  - destruct (proj2 (hydrate_flag (P:=Demo.platform) "/app/.env"
                       (Demo.start None [] []))
                "ENABLE_TRACING=true" eq_refl eq_refl)
      as [w' [Hrun [_ [Hkeep _]]]].
    exists w'. split; [exact Hrun|].
    apply Hkeep. reflexivity.
Defined.

Lemma MarketQuote_accepts_witness :
  MarketQuoteJs.constructor
    {| MarketQuoteJs.symbol := VStr "es"; MarketQuoteJs.price := VNaN;
       MarketQuoteJs.timestamp := VNum 1766400000000;
       MarketQuoteJs.source := VUndefined |}
  = Ret {| MarketQuoteJs.this_symbol := "ES";
           MarketQuoteJs.this_price := VNaN;
           MarketQuoteJs.this_timestamp := VNum 1766400000000;
           MarketQuoteJs.this_source := VStr "UNKNOWN" |}.
Proof.
  apply (proj2 (MarketQuote_accepts _ _)).
  exists "es", 1766400000000.
  repeat split; try discriminate. now left.
Defined.

Lemma toJSON_constructed_witness :
  let p := {| MarketQuoteJs.symbol := VStr "es";
              MarketQuoteJs.price := VNum 6887;
              MarketQuoteJs.timestamp := VNum 900;
              MarketQuoteJs.source := VStr "MockProvider_v2" |} in
  let q := {| MarketQuoteJs.this_symbol := "ES";
              MarketQuoteJs.this_price := VNum 6887;
              MarketQuoteJs.this_timestamp := VNum 900;
              MarketQuoteJs.this_source := VStr "MockProvider_v2" |} in
  MarketQuoteJs.toJSON (P:=Demo.platform) q (Demo.start None [] [])
  = (Ret (VObj [("symbol", VStr "ES"); ("price", VNum 6887);
                ("capturedAt", VStr "T900");
                ("source", VStr "MockProvider_v2");
                ("isStale", VBool false)]),
     ticked (Demo.start None [] [])).
Proof.
  cbv zeta.
  apply (proj1 (toJSON_constructed (P:=Demo.platform)
                  {| MarketQuoteJs.symbol := VStr "es";
                     MarketQuoteJs.price := VNum 6887;
                     MarketQuoteJs.timestamp := VNum 900;
                     MarketQuoteJs.source := VStr "MockProvider_v2" |}
                  _ 900 (Demo.start None [] []) eq_refl eq_refl)).
  vm_compute. discriminate.
Defined.

Lemma getManifest_outcomes_witness :
  AdapterFactoryJs._getManifest (P:=Demo.platform) Demo.factory
    (Demo.faulty "/app/config/adapters.manifest.json" (Demo.start None [] []))
  = (Throw (new_Error ("Malformed manifest: " +:+ message Demo.denied)),
     Demo.faulty "/app/config/adapters.manifest.json" (Demo.start None [] [])).
Proof.
  apply (proj1 (proj2 (getManifest_outcomes (P:=Demo.platform) Demo.factory
                         (Demo.faulty "/app/config/adapters.manifest.json"
                            (Demo.start None [] [])))) Demo.denied);
    [reflexivity | discriminate].
Defined.

Lemma loadAdapter_failure_shape_witness :
  AdapterFactoryJs.loadAdapter (P:=Demo.platform) (fun _ => ret VNull)
    Demo.factory (VStr "2")
    (Demo.faulty "/app/config/adapters.manifest.json" (Demo.start None [] []))
  = (Throw (new_Error ("[AdapterFactory] Load failure for mode 2: " +:+
                       "Malformed manifest: EACCES: permission denied")),
     with_journal
       [("error", "[AdapterFactory] Load failure for mode 2: " +:+
                  "Malformed manifest: EACCES: permission denied")]
       (Demo.faulty "/app/config/adapters.manifest.json"
          (Demo.start None [] []))).
Proof.
  apply (proj1 (loadAdapter_failure_shape (P:=Demo.platform)
                  (fun _ => ret VNull) Demo.factory (VStr "2")
                  (Demo.faulty "/app/config/adapters.manifest.json"
                     (Demo.start None [] [])))
           (new_Error "Malformed manifest: EACCES: permission denied")).
  reflexivity.
Defined.

Lemma loadAdapter_undefined_mode_witness :
  AdapterFactoryJs.loadAdapter (P:=Demo.platform) (fun _ => ret VNull)
    Demo.factory (VStr "9") (Demo.start None [] [])
  = (Throw (new_Error (undefined_mode_message (VStr "9") Demo.adapters)),
     with_journal
       (journal (Demo.start None [] []) ++
        [("error", undefined_mode_message (VStr "9") Demo.adapters)])
       (Demo.start None [] []))
  /\ forall k, k ∈ map fst Demo.adapters ->
       includes k (undefined_mode_message (VStr "9") Demo.adapters) = true.
Proof.
  apply (loadAdapter_undefined_mode (P:=Demo.platform) (fun _ => ret VNull)
           Demo.factory (VStr "9") (Demo.start None [] []) "{}"
           Demo.manifest VUndefined Demo.adapters); reflexivity.
Defined.

Lemma loadAdapter_resolves_witness :
  AdapterFactoryJs.loadAdapter (P:=Demo.platform)
    (fun _ => ret (VObj [("apiKey", VStr "k")])) Demo.factory (VStr "2")
    (Demo.start None [] [])
  = (Ret (VObj []),
     with_journal
       [("debug", "[AdapterFactory] Resolving dependency: MockMarketAdapter");
        ("info", "[AdapterFactory] Initializing MockMarketAdapter (Standard)")]
       (Demo.start None [] []))
  /\ AdapterFactoryJs.loadAdapter (P:=Demo.platform)
       (fun _ => ret (VObj [("apiKey", VStr "k")])) Demo.factory (VStr "1")
       (Demo.start None [] [])
     = (Ret (VObj []),
        with_journal
          [("debug", "[AdapterFactory] Resolving dependency: FinnhubAdapter");
           ("info", "[AdapterFactory] Injecting configuration for " +:+
                    "FinnhubAdapter (Finnhub)")]
          (Demo.start None [] [])).
Proof.
  split.
  - apply (proj1 (loadAdapter_resolves (P:=Demo.platform)
                    (fun _ => ret (VObj [("apiKey", VStr "k")])) Demo.factory
                    (VStr "2") (Demo.start None [] []) "{}"
                    "infrastructure/adapters/api/MockMarketAdapter.js"
                    Demo.manifest
                    (VObj [("path", VStr "infrastructure/adapters/api/MockMarketAdapter.js");
                           ("className", VStr "MockMarketAdapter");
                           ("requiresConfig", VBool false)])
                    (VStr "MockMarketAdapter") (VBool false)
                    (VFun "class MockMarketAdapter") Demo.adapters
                    [("MockMarketAdapter", VFun "class MockMarketAdapter");
                     ("FinnhubAdapter", VFun "class FinnhubAdapter")]
                    eq_refl eq_refl eq_refl eq_refl eq_refl eq_refl eq_refl
                    eq_refl eq_refl eq_refl eq_refl eq_refl));
      reflexivity.
  - apply (proj2 (loadAdapter_resolves (P:=Demo.platform)
                    (fun _ => ret (VObj [("apiKey", VStr "k")])) Demo.factory
                    (VStr "1") (Demo.start None [] []) "{}"
                    "infrastructure/adapters/api/FinnhubAdapter.js"
                    Demo.manifest
                    (VObj [("path", VStr "infrastructure/adapters/api/FinnhubAdapter.js");
                           ("className", VStr "FinnhubAdapter");
                           ("requiresConfig", VBool true);
                           ("configKey", VStr "Finnhub")])
                    (VStr "FinnhubAdapter") (VBool true)
                    (VFun "class FinnhubAdapter") Demo.adapters
                    [("MockMarketAdapter", VFun "class MockMarketAdapter");
                     ("FinnhubAdapter", VFun "class FinnhubAdapter")]
                    eq_refl eq_refl eq_refl eq_refl eq_refl eq_refl eq_refl
                    eq_refl eq_refl eq_refl eq_refl eq_refl)
             eq_refl (VStr "Finnhub") (VObj [("apiKey", VStr "k")]) (VObj [])
             (with_journal
                [("debug",
                  "[AdapterFactory] Resolving dependency: FinnhubAdapter")]
                (Demo.start None [] []))
             eq_refl eq_refl eq_refl).
Defined.

Lemma getProviderConfig_validates_witness :
  EnvironmentService.getProviderConfig (P:=Demo.contracts) Demo.rejecting
    (VStr "Finnhub") (Demo.start None [] [])
  = (Throw (new_Error "FINNHUB_API_KEY missing"), Demo.start None [] []).
Proof.
  rewrite (getProviderConfig_validates (P:=Demo.contracts) Demo.rejecting
             (VStr "Finnhub") (VObj [("validate", VFun "validate() { }")])
             (VFun "validate() { }")
             [("FinnhubConfig", VObj [("validate", VFun "validate() { }")])]
             (Demo.start None [] [])
             eq_refl eq_refl eq_refl eq_refl eq_refl).
  reflexivity.
Defined.

Lemma getProviderConfig_refuses_witness :
  EnvironmentService.getProviderConfig (P:=Demo.platform) Demo.rejecting
    (VStr "Finnhub") (Demo.start None [] [])
  = (Throw (new_Error ("Validator for Finnhub does not implement " +:+
                       "the .validate() contract.")),
     with_journal
       [("error", "[Environment] Configuration lifecycle failure " +:+
                  "for provider: Finnhub")]
       (Demo.start None [] [])).
Proof.
  apply (proj1 (proj2 (getProviderConfig_refuses (P:=Demo.platform)
                         Demo.rejecting (VStr "Finnhub")
                         (Demo.start None [] [])))
           [("MockMarketAdapter", VFun "class MockMarketAdapter");
            ("FinnhubAdapter", VFun "class FinnhubAdapter")]);
    reflexivity.
Defined.

Lemma sanitizeSymbol_clean_witness :
  MenuSystem.sanitizeSymbol "--" = EmptyString.
Proof.
  apply (proj2 (proj2 (proj2 (sanitizeSymbol_clean "--"))));
    [discriminate | reflexivity].
Defined.

Lemma automated_strategy_reads_witness :
  Main.mode (Main.automated_strategy ["--live"; "-x"; "--mock"; "es"])
  = VStr "2"
  /\ In "es" ["--live"; "-x"; "--mock"; "es"]
  /\ startsWith "-" "es" = false.
Proof.
  split.
  - apply (proj1 (automated_strategy_reads
                    ["--live"; "-x"; "--mock"; "es"])).
    reflexivity.
  - apply (proj1 (proj2 (proj2 (automated_strategy_reads
                                  ["--live"; "-x"; "--mock"; "es"])))).
    reflexivity.
Defined.

Lemma bootstrap_help_witness :
  exists w' usage,
    Main.bootstrap (P:=Demo.platform) (fun _ => ret VNull)
      (fun _ s => ret (VStr s)) (fun _ => ret tt)
      (Demo.start None ["--live"; "--help"; "SPX"] ["1"]) = (Exit 0, w')
    /\ stdout w'
       = stdout (Demo.start None ["--live"; "--help"; "SPX"] ["1"]) ++ [usage]
    /\ includes "USAGE: node main.js [FLAGS] [SYMBOL]" usage = true
    /\ stdin w' = stdin (Demo.start None ["--live"; "--help"; "SPX"] ["1"]).
Proof.
  apply (bootstrap_help (P:=Demo.platform) (fun _ => ret VNull)
           (fun _ s => ret (VStr s)) (fun _ => ret tt)
           (Demo.start None ["--live"; "--help"; "SPX"] ["1"])).
  reflexivity.
Defined.

Lemma interactive_outcomes_witness :
  match (Main.capture_input (P:=Demo.platform)
           (Demo.start None [] ["1"; "--es"])).1 with
  | Ret context =>
      (Main.mode context = VStr "1" \/ Main.mode context = VStr "2")
      /\ (exists s, Main.symbol context = VStr s /\ startsWith "-" s = false)
      /\ Main.isAutomated context = false
  | Throw _ => False
  | Exit c => c = 0 \/ c = 1
  end.
Proof.
  apply (interactive_outcomes (P:=Demo.platform)
           (Demo.start None [] ["1"; "--es"])).
  reflexivity.
Defined.

Lemma main_unhandled_rejection_witness :
  let w := Demo.start None ["SPX"] [] in
  let boot := Main.bootstrap (P:=Demo.platform) (fun _ => ret VNull)
                (fun _ s => ret (VStr s)) (fun _ => ret tt)
                (EnvironmentService.dotenv_config (P:=Demo.platform)
                   "/app/.env" w).2 in
  let e := new_Error (undefined_mode_message VNull Demo.adapters) in
  exists logged,
    Main.main (P:=Demo.platform) (fun _ => ret VNull)
      (fun _ s => ret (VStr s)) (fun _ => ret tt) w
    = (Exit 1, with_journal (journal boot.2 ++ [("error", logged)]) boot.2)
    /\ startsWith "Critical Unhandled Rejection: " logged = true
    /\ includes (message e) logged = true.
Proof.
  cbv zeta.
  apply (proj1 (main_unhandled_rejection (P:=Demo.platform)
                  (fun _ => ret VNull) (fun _ s => ret (VStr s))
                  (fun _ => ret tt) (Demo.start None ["SPX"] []))).
  vm_compute. reflexivity.
Defined.

Lemma promptMode_answers_witness :
  stdin (MenuSystem.promptMode (Demo.start None [] [" q "; "es"])).2 = ["es"]
  /\ (MenuSystem.promptMode (Demo.start None [] [" q "; "es"])).1 = Exit 0
  /\ exists printed,
       stdout (MenuSystem.promptMode (Demo.start None [] [" q "; "es"])).2
       = stdout (Demo.start None [] [" q "; "es"]) ++ printed.
Proof.
  apply (promptMode_answers (Demo.start None [] [" q "; "es"]) " q " ["es"]).
  reflexivity.
Defined.
